(** * Activity reports and team index: a shallow embedding

    The development follows the two programs of the repository:

    - [github_repo_user_report.py]: class [GitHubRepoUserAnalyzer]
      (module [Report] below): the size classification, the six fetch
      methods, [analyze_activity] and the structural part of
      [_generate_html_report];
    - [generate_team_index.py] (module [TeamIndex] below): the handlers of
      [ReportMetricsParser], [parse_report_file], the two local
      [get_metric_value] functions and the per-user summary loop of
      [generate_index_html].

    Python values are embedded as follows.  A [str] is a [string] (the
    UTF-8 bytes of the text; substring search and comparison on the bytes
    agree with Python's on code points; [len] and slices count the
    characters of the text; white space, digits and case are those of
    ASCII text).  An [int] is a [Z].  A [dict]
    whose iteration order is observable is an association list in
    insertion order; the [set] of reviewed pull-request numbers is a
    [gset Z]; the fixed-key counter dict [pr_sizes] is a [gmap string Z].
    The JSON payloads of the hosting API are records typed after the fields
    the code reads: a field read with [x["k"]] is a plain field, a field
    read with [x.get("k")] is an [option] ([None] for an absent key or a
    JSON null), and so is a field read with a default where the API
    sends no null.  The actor of an issue event, which the API does send
    as null, is a [json_field] with the three cases apart.  Exceptions
    the code can raise on such inputs are results in the [result]
    monad. *)

From Stdlib Require Import ZArith Lia Ascii String List.
From stdpp Require Import base tactics option list gmap strings sorting.
Import ListNotations.

Local Open Scope Z_scope.

(** ** Python primitives *)

Module Py.

(** Exceptions that the modelled code can raise. *)
Inductive exn : Type :=
| KeyError (key : string)
| ValueError (msg : string)
| TypeError (msg : string)
| AttributeError (msg : string)
| OverflowError (msg : string).

Inductive result (A : Type) : Type :=
| Ok (a : A)
| Raise (e : exn).
Global Arguments Ok {A} a.
Global Arguments Raise {A} e.

Definition bind {A B : Type} (m : result A) (k : A -> result B) : result B :=
  match m with
  | Ok a => k a
  | Raise e => Raise e
  end.

(** [for x in l: acc = body(acc, x)], stopping at the first exception. *)
Fixpoint for_each {A S : Type} (body : S -> A -> result S)
    (l : list A) (acc : S) : result S :=
  match l with
  | [] => Ok acc
  | x :: l' => bind (body acc x) (for_each body l')
  end.

(** Truth value of a [str] and of the result of [d.get(k)]. *)
Definition str_truthy (s : string) : bool :=
  match s with
  | EmptyString => false
  | String _ _ => true
  end.

Definition truthy (o : option string) : bool :=
  match o with
  | Some s => str_truthy s
  | None => false
  end.

(** [d.get(k, default)] on a typed optional field. *)
Definition get_default {A : Type} (o : option A) (d : A) : A :=
  match o with
  | Some a => a
  | None => d
  end.

(** [pat in s] for two [str]. *)
Fixpoint startswith (pat s : string) : bool :=
  match pat, s with
  | EmptyString, _ => true
  | String _ _, EmptyString => false
  | String a pat', String b s' => Ascii.eqb a b && startswith pat' s'
  end.

Fixpoint contains (pat s : string) : bool :=
  startswith pat s ||
  match s with
  | EmptyString => false
  | String _ s' => contains pat s'
  end.

(** Characters removed by [str.strip()] (the ASCII ones: tab, line feed,
    vertical tab, form feed, carriage return, the separators 28 to 31,
    and space). *)
Definition is_space (c : ascii) : bool :=
  let n := N_of_ascii c in
  ((9 <=? n) && (n <=? 13) || (28 <=? n) && (n <=? 32))%N.

Fixpoint lstrip_with (drop : ascii -> bool) (s : string) : string :=
  match s with
  | EmptyString => EmptyString
  | String c s' => if drop c then lstrip_with drop s' else s
  end.

Fixpoint rstrip_with (drop : ascii -> bool) (s : string) : string :=
  match s with
  | EmptyString => EmptyString
  | String c s' =>
      match rstrip_with drop s' with
      | EmptyString => if drop c then EmptyString else String c EmptyString
      | r => String c r
      end
  end.

Definition strip (s : string) : string :=
  rstrip_with is_space (lstrip_with is_space s).

(** [s.lstrip('@')]. *)
Definition lstrip_at (s : string) : string :=
  lstrip_with (Ascii.eqb "@"%char) s.

(** [s.split(sep)] for a one-character separator. *)
Fixpoint split_on (sep : ascii) (s : string) : list string :=
  match s with
  | EmptyString => [EmptyString]
  | String c s' =>
      if Ascii.eqb c sep then EmptyString :: split_on sep s'
      else match split_on sep s' with
           | [] => [String c EmptyString]
           | w :: ws => String c w :: ws
           end
  end.

(** [all(p(c) for c in s)]. *)
Fixpoint all_chars (p : ascii -> bool) (s : string) : bool :=
  match s with
  | EmptyString => true
  | String c s' => p c && all_chars p s'
  end.

(** [re.sub('[^...]', '', s)]: the characters of the class are kept. *)
Fixpoint keep_chars (keep : ascii -> bool) (s : string) : string :=
  match s with
  | EmptyString => EmptyString
  | String c s' =>
      if keep c then String c (keep_chars keep s') else keep_chars keep s'
  end.

(** The class [\d] (its ASCII members). *)
Definition is_digit (c : ascii) : bool :=
  let n := N_of_ascii c in ((48 <=? n) && (n <=? 57))%N.

Definition digit_value (c : ascii) : Z := Z.of_N (N_of_ascii c) - 48.

(** [int(s)] for a non-empty string of digits (of any length). *)
Fixpoint int_digits_from (acc : Z) (s : string) : Z :=
  match s with
  | EmptyString => acc
  | String c s' => int_digits_from (10 * acc + digit_value c) s'
  end.

Definition int_of_digits (s : string) : Z := int_digits_from 0 s.

(** [str(n)] for an [int]. *)
Definition digit_char (d : Z) : ascii := ascii_of_N (Z.to_N (48 + d)).

Fixpoint str_of_nonneg (fuel : nat) (n : Z) : string :=
  match fuel with
  | O => EmptyString
  | S fuel' =>
      if n <? 10 then String (digit_char n) EmptyString
      else String.append (str_of_nonneg fuel' (n / 10))
                         (String (digit_char (n mod 10)) EmptyString)
  end.

(** More rounds than [n] has decimal digits. *)
Definition digits_fuel (n : Z) : nat := S (Z.to_nat (Z.log2 n)).

Definition str_of_int (n : Z) : string :=
  if n <? 0 then String "-"%char (str_of_nonneg (digits_fuel (- n)) (- n))
  else str_of_nonneg (digits_fuel n) n.

(** [str(len(l))]. *)
Definition str_of_len (n : nat) : string := str_of_int (Z.of_nat n).

(** [s1 > s2] on [str]. *)
Definition str_gt (s1 s2 : string) : bool := String.ltb s2 s1.

(** [s.lower()] (ASCII letters). *)
Definition lower_char (c : ascii) : ascii :=
  let n := N_of_ascii c in
  if ((65 <=? n) && (n <=? 90))%N then ascii_of_N (n + 32) else c.

Fixpoint lower (s : string) : string :=
  match s with
  | EmptyString => EmptyString
  | String c s' => String (lower_char c) (lower s')
  end.

Definition upper_char (c : ascii) : ascii :=
  let n := N_of_ascii c in
  if ((97 <=? n) && (n <=? 122))%N then ascii_of_N (n - 32) else c.

(** [s.upper()] (ASCII letters). *)
Fixpoint upper (s : string) : string :=
  match s with
  | EmptyString => EmptyString
  | String c s' => String (upper_char c) (upper s')
  end.

(** The bytes 10xxxxxx, which continue a character of a UTF-8 text. *)
Definition is_continuation (c : ascii) : bool :=
  let n := N_of_ascii c in ((128 <=? n) && (n <? 192))%N.

(** [len(s)]: the characters of the text, one for each byte that does not
    continue a character. *)
Fixpoint str_len (s : string) : nat :=
  match s with
  | EmptyString => O
  | String c s' => if is_continuation c then str_len s' else S (str_len s')
  end.

(** [s[:n]]: the first [n] characters, each with the bytes that continue
    it. *)
Fixpoint take_str (n : nat) (s : string) : string :=
  match s with
  | EmptyString => EmptyString
  | String c s' =>
      if is_continuation c then String c (take_str n s')
      else match n with
           | O => EmptyString
           | S n' => String c (take_str n' s')
           end
  end.

(** An insertion-ordered [dict] with [str] keys: [d[k] = v] replaces the
    value of an existing key in place and appends a new key. *)
Fixpoint dict_set {V : Type} (k : string) (v : V)
    (d : list (string * V)) : list (string * V) :=
  match d with
  | [] => [(k, v)]
  | (k', v') :: d' =>
      if String.eqb k' k then (k', v) :: d' else (k', v') :: dict_set k v d'
  end.

Fixpoint dict_get {V : Type} (k : string)
    (d : list (string * V)) : option V :=
  match d with
  | [] => None
  | (k', v') :: d' => if String.eqb k' k then Some v' else dict_get k d'
  end.

(** [dict(pairs)]: later pairs overwrite earlier ones. *)
Definition dict_of_pairs {V : Type} (pairs : list (string * V))
    : list (string * V) :=
  fold_left (fun d kv => dict_set (fst kv) (snd kv) d) pairs [].

(** [d[k] += 1] on a counter dict; a missing key raises [KeyError]. *)
Definition counter_incr (k : string) (d : gmap string Z)
    : result (gmap string Z) :=
  match d !! k with
  | Some v => Ok (<[k := v + 1]> d)
  | None => Raise (KeyError k)
  end.

(** [sum(d.values())]. *)
Definition counter_sum (d : gmap string Z) : Z :=
  map_fold (fun _ v acc => v + acc) 0 d.

(** [len(set(l))] for a list of [int]. *)
Definition count_distinct (l : list Z) : nat :=
  size (list_to_set l : gset Z).

(** The calls [html.parser.HTMLParser.feed] makes on a parser object:
    [handle_decl], [handle_starttag], [handle_endtag], [handle_data]. *)
Inductive html_event : Type :=
| Decl (text : string)
| StartTag (tag : string) (attrs : list (string * option string))
| EndTag (tag : string)
| Data (data : string).

End Py.

Notation "'do' x <- m ; k" := (Py.bind m (fun x => k))
  (at level 10, x name, m at level 100, k at level 200, only parsing).

(** ** The per-user repository report *)

Module Report.
Import Py.

(** A naive [datetime], as the number of microseconds since 1970-01-01
    on its time line; [timedelta(days=n)] is [n] days of microseconds. *)
Definition datetime : Type := Z.

Definition timedelta_days (days : Z) : Z := days * 86400000000.

(** [datetime.min] (0001-01-01 00:00:00) and [datetime.max] (9999-12-31
    23:59:59.999999). *)
Definition datetime_min : datetime := -62135596800000000.
Definition datetime_max : datetime := 253402300799999999.

(** The instants a [datetime] can hold. *)
Definition representable (t : Z) : bool :=
  (datetime_min <=? t) && (t <=? datetime_max).

(** A field read with [x.get("k", default)] and then used: the key is
    absent, holds a JSON null, or holds a value. *)
Inductive json_field (A : Type) : Type :=
| Absent
| Null
| Value (a : A).
Global Arguments Absent {A}.
Global Arguments Null {A}.
Global Arguments Value {A} a.

(** *** Payloads of the hosting API *)

(** What [requests.get] returns: the status code and the decoded body. *)
Record response (A : Type) : Type := Response {
  status_code : Z;
  json : A
}.
Global Arguments Response {A} _ _.
Global Arguments status_code {A} _.
Global Arguments json {A} _.

(** An item of a search result ([data.get("items", [])]). *)
Record issue_json : Type := IssueJson {
  ij_number : Z;
  ij_title : string;
  ij_html_url : string;
  ij_state : string;
  ij_created_at : string;
  ij_updated_at : string;
  ij_closed_at : option string;
  ij_comments : option Z
}.

(** The detail of one pull request. *)
Record pull_json : Type := PullJson {
  pj_number : Z;
  pj_title : string;
  pj_html_url : string;
  pj_state : string;
  pj_created_at : string;
  pj_updated_at : string;
  pj_closed_at : option string;
  pj_merged_at : option string;
  pj_additions : option Z;
  pj_deletions : option Z;
  pj_changed_files : option Z;
  pj_commits : option Z
}.

(** One review of a pull request; [rj_login] is [r["user"]["login"]]. *)
Record review_json : Type := ReviewJson {
  rj_login : string;
  rj_state : string;
  rj_submitted_at : option string;
  rj_body : option string
}.

(** A review after [fetch_user_reviews] has added the three [pr_*] keys. *)
Record fetched_review : Type := FetchedReview {
  fr_review : review_json;
  fr_pr_number : Z;
  fr_pr_title : string;
  fr_pr_url : string
}.

(** One entry of an issue's event history; [ej_actor] is the key
    [actor] (the hosting API sends a null actor for some events) and,
    inside an actor object, the key [login]. *)
Record event_json : Type := EventJson {
  ej_event : option string;
  ej_actor : json_field (json_field string);
  ej_created_at : option string
}.

(** The login of the actor, when the event has an actor object with a
    login. *)
Definition ej_actor_login (event : event_json) : option string :=
  match ej_actor event with
  | Value (Value login) => Some login
  | _ => None
  end.

(** [event.get("actor", {}).get("login", "").lower()], before the
    lowering: a null actor has no [get] and a null login no [lower]. *)
Definition actor_login (event : event_json) : result string :=
  match ej_actor event with
  | Null =>
      Raise (AttributeError "'NoneType' object has no attribute 'get'")
  | Value Null =>
      Raise (AttributeError "'NoneType' object has no attribute 'lower'")
  | _ => Ok (get_default (ej_actor_login event) "")
  end.

(** One comment of an issue; [cj_login] is [c["user"]["login"]]. *)
Record comment_json : Type := CommentJson {
  cj_login : string;
  cj_created_at : option string;
  cj_body : option string
}.

(** A comment after [fetch_user_issue_comments] has added the four
    [issue_*] keys. *)
Record fetched_comment : Type := FetchedComment {
  fc_comment : comment_json;
  fc_issue_number : Z;
  fc_issue_title : string;
  fc_issue_url : string;
  fc_issue_state : string
}.

(** One commit of the commit listing; [cm_message] is
    [commit["commit"]["message"]], [cm_date] is
    [commit["commit"]["author"]["date"]]. *)
Record commit_json : Type := CommitJson {
  cm_sha : string;
  cm_message : string;
  cm_date : string;
  cm_html_url : string
}.

(** The remote API as seen by one analyzer (owner, repository and user are
    fixed): one answer per request.  The searches that carry a date
    qualifier take the window start, the paginated searches the page. *)
Record github_api : Type := GithubApi {
  search_prs : datetime -> response (list issue_json);
  get_pull : Z -> response pull_json;
  search_closed_issues : datetime -> response (list issue_json);
  get_issue_events : Z -> response (list event_json);
  search_reviewed_prs : Z -> response (list issue_json);
  get_pull_reviews : Z -> response (list review_json);
  get_commits : datetime -> response (list commit_json);
  search_issues : datetime -> response (list issue_json);
  search_commented_issues : Z -> response (list issue_json);
  get_issue_comments : Z -> response (list comment_json)
}.

(** *** The statistics *)

Record pr_data : Type := PrData {
  pd_number : Z;
  pd_title : string;
  pd_url : string;
  pd_state : string;
  pd_created_at : string;
  pd_updated_at : string;
  pd_closed_at : option string;
  pd_merged_at : option string;
  pd_additions : Z;
  pd_deletions : Z;
  pd_total_changes : Z;
  pd_size : string;
  pd_changed_files : Z;
  pd_commits : Z
}.

Record review_data : Type := ReviewData {
  rd_pr_number : Z;
  rd_pr_title : string;
  rd_pr_url : string;
  rd_state : string;
  rd_submitted_at : option string;
  rd_body : string
}.

Record issue_data : Type := IssueData {
  id_number : Z;
  id_title : string;
  id_url : string;
  id_state : string;
  id_created_at : string;
  id_updated_at : string;
  id_closed_at : option string;
  id_comments_count : Z
}.

Record closed_issue_data : Type := ClosedIssueData {
  cd_number : Z;
  cd_title : string;
  cd_url : string;
  cd_state : string;
  cd_created_at : option string;
  cd_closed_at : option string;
  cd_comments_count : Z
}.

Record comment_data : Type := CommentData {
  md_issue_number : Z;
  md_issue_title : string;
  md_issue_url : string;
  md_issue_state : string;
  md_created_at : option string;
  md_body : string
}.

Record commit_data : Type := CommitData {
  td_sha : string;
  td_message : string;
  td_date : string;
  td_url : string
}.

(** [self.stats]; the last three keys are absent until [analyze_activity]
    adds them. *)
Record stats : Type := Stats {
  pull_requests_opened : list pr_data;
  pull_requests_merged : list pr_data;
  pull_requests_closed : list pr_data;
  pull_requests_reviewed : list review_data;
  issues_opened : list issue_data;
  issues_closed : list closed_issue_data;
  issue_comments : list comment_data;
  commits_authored : list commit_data;
  review_comments_given : Z;
  total_additions : Z;
  total_deletions : Z;
  total_files_changed : Z;
  pr_sizes : gmap string Z;
  total_commits_in_prs : option Z;
  total_reviews_given : option Z;
  unique_prs_reviewed : option Z
}.

(** The analyzer object; [since_date] and [end_date] are attributes that
    exist once [analyze_activity] has run. *)
Record analyzer : Type := Analyzer {
  owner : string;
  repo : string;
  username : string;
  self_stats : stats;
  since_date : option datetime;
  end_date : option datetime
}.

Definition init_pr_sizes : gmap string Z :=
  <["xxl" := 0]> (<["xl" := 0]> (<["l" := 0]> (<["m" := 0]>
    (<["s" := 0]> (<["xs" := 0]> ∅))))).

Definition init_stats : stats :=
  {| pull_requests_opened := []; pull_requests_merged := [];
     pull_requests_closed := []; pull_requests_reviewed := [];
     issues_opened := []; issues_closed := []; issue_comments := [];
     commits_authored := []; review_comments_given := 0;
     total_additions := 0; total_deletions := 0; total_files_changed := 0;
     pr_sizes := init_pr_sizes;
     total_commits_in_prs := None; total_reviews_given := None;
     unique_prs_reviewed := None |}.

(** [__init__]. *)
Definition new_analyzer (o r u : string) : analyzer :=
  {| owner := o; repo := r; username := u; self_stats := init_stats;
     since_date := None; end_date := None |}.

(** Assignments to the keys of [self.stats]. *)

(** The keys written by one round of the pull-request loop. *)
Definition set_pr_fields (st : stats) (opened : list pr_data) (merged : list pr_data) (closed : list pr_data) (adds : Z) (dels : Z) (files : Z) (sizes : gmap string Z) : stats :=
  {| pull_requests_opened := opened;
     pull_requests_merged := merged;
     pull_requests_closed := closed;
     pull_requests_reviewed := pull_requests_reviewed st;
     issues_opened := issues_opened st;
     issues_closed := issues_closed st;
     issue_comments := issue_comments st;
     commits_authored := commits_authored st;
     review_comments_given := review_comments_given st;
     total_additions := adds;
     total_deletions := dels;
     total_files_changed := files;
     pr_sizes := sizes;
     total_commits_in_prs := total_commits_in_prs st;
     total_reviews_given := total_reviews_given st;
     unique_prs_reviewed := unique_prs_reviewed st |}.

(** [self.stats["total_commits_in_prs"] = v]. *)
Definition set_total_commits_in_prs (st : stats) (v : option Z) : stats :=
  {| pull_requests_opened := pull_requests_opened st;
     pull_requests_merged := pull_requests_merged st;
     pull_requests_closed := pull_requests_closed st;
     pull_requests_reviewed := pull_requests_reviewed st;
     issues_opened := issues_opened st;
     issues_closed := issues_closed st;
     issue_comments := issue_comments st;
     commits_authored := commits_authored st;
     review_comments_given := review_comments_given st;
     total_additions := total_additions st;
     total_deletions := total_deletions st;
     total_files_changed := total_files_changed st;
     pr_sizes := pr_sizes st;
     total_commits_in_prs := v;
     total_reviews_given := total_reviews_given st;
     unique_prs_reviewed := unique_prs_reviewed st |}.

(** The list under ["pull_requests_reviewed"]. *)
Definition set_pull_requests_reviewed (st : stats) (v : list review_data) : stats :=
  {| pull_requests_opened := pull_requests_opened st;
     pull_requests_merged := pull_requests_merged st;
     pull_requests_closed := pull_requests_closed st;
     pull_requests_reviewed := v;
     issues_opened := issues_opened st;
     issues_closed := issues_closed st;
     issue_comments := issue_comments st;
     commits_authored := commits_authored st;
     review_comments_given := review_comments_given st;
     total_additions := total_additions st;
     total_deletions := total_deletions st;
     total_files_changed := total_files_changed st;
     pr_sizes := pr_sizes st;
     total_commits_in_prs := total_commits_in_prs st;
     total_reviews_given := total_reviews_given st;
     unique_prs_reviewed := unique_prs_reviewed st |}.

(** The two review counters. *)
Definition set_review_totals (st : stats) (n : option Z) (u : option Z) : stats :=
  {| pull_requests_opened := pull_requests_opened st;
     pull_requests_merged := pull_requests_merged st;
     pull_requests_closed := pull_requests_closed st;
     pull_requests_reviewed := pull_requests_reviewed st;
     issues_opened := issues_opened st;
     issues_closed := issues_closed st;
     issue_comments := issue_comments st;
     commits_authored := commits_authored st;
     review_comments_given := review_comments_given st;
     total_additions := total_additions st;
     total_deletions := total_deletions st;
     total_files_changed := total_files_changed st;
     pr_sizes := pr_sizes st;
     total_commits_in_prs := total_commits_in_prs st;
     total_reviews_given := n;
     unique_prs_reviewed := u |}.

(** The list under ["issues_opened"]. *)
Definition set_issues_opened (st : stats) (v : list issue_data) : stats :=
  {| pull_requests_opened := pull_requests_opened st;
     pull_requests_merged := pull_requests_merged st;
     pull_requests_closed := pull_requests_closed st;
     pull_requests_reviewed := pull_requests_reviewed st;
     issues_opened := v;
     issues_closed := issues_closed st;
     issue_comments := issue_comments st;
     commits_authored := commits_authored st;
     review_comments_given := review_comments_given st;
     total_additions := total_additions st;
     total_deletions := total_deletions st;
     total_files_changed := total_files_changed st;
     pr_sizes := pr_sizes st;
     total_commits_in_prs := total_commits_in_prs st;
     total_reviews_given := total_reviews_given st;
     unique_prs_reviewed := unique_prs_reviewed st |}.

(** The list under ["issues_closed"]. *)
Definition set_issues_closed (st : stats) (v : list closed_issue_data) : stats :=
  {| pull_requests_opened := pull_requests_opened st;
     pull_requests_merged := pull_requests_merged st;
     pull_requests_closed := pull_requests_closed st;
     pull_requests_reviewed := pull_requests_reviewed st;
     issues_opened := issues_opened st;
     issues_closed := v;
     issue_comments := issue_comments st;
     commits_authored := commits_authored st;
     review_comments_given := review_comments_given st;
     total_additions := total_additions st;
     total_deletions := total_deletions st;
     total_files_changed := total_files_changed st;
     pr_sizes := pr_sizes st;
     total_commits_in_prs := total_commits_in_prs st;
     total_reviews_given := total_reviews_given st;
     unique_prs_reviewed := unique_prs_reviewed st |}.

(** The list under ["issue_comments"]. *)
Definition set_issue_comments (st : stats) (v : list comment_data) : stats :=
  {| pull_requests_opened := pull_requests_opened st;
     pull_requests_merged := pull_requests_merged st;
     pull_requests_closed := pull_requests_closed st;
     pull_requests_reviewed := pull_requests_reviewed st;
     issues_opened := issues_opened st;
     issues_closed := issues_closed st;
     issue_comments := v;
     commits_authored := commits_authored st;
     review_comments_given := review_comments_given st;
     total_additions := total_additions st;
     total_deletions := total_deletions st;
     total_files_changed := total_files_changed st;
     pr_sizes := pr_sizes st;
     total_commits_in_prs := total_commits_in_prs st;
     total_reviews_given := total_reviews_given st;
     unique_prs_reviewed := unique_prs_reviewed st |}.

(** The list under ["commits_authored"]. *)
Definition set_commits_authored (st : stats) (v : list commit_data) : stats :=
  {| pull_requests_opened := pull_requests_opened st;
     pull_requests_merged := pull_requests_merged st;
     pull_requests_closed := pull_requests_closed st;
     pull_requests_reviewed := pull_requests_reviewed st;
     issues_opened := issues_opened st;
     issues_closed := issues_closed st;
     issue_comments := issue_comments st;
     commits_authored := v;
     review_comments_given := review_comments_given st;
     total_additions := total_additions st;
     total_deletions := total_deletions st;
     total_files_changed := total_files_changed st;
     pr_sizes := pr_sizes st;
     total_commits_in_prs := total_commits_in_prs st;
     total_reviews_given := total_reviews_given st;
     unique_prs_reviewed := unique_prs_reviewed st |}.

Definition set_stats (self : analyzer) (st : stats) : analyzer :=
  {| owner := owner self; repo := repo self; username := username self;
     self_stats := st; since_date := since_date self;
     end_date := end_date self |}.

Definition set_dates (self : analyzer) (e s : datetime) : analyzer :=
  {| owner := owner self; repo := repo self; username := username self;
     self_stats := self_stats self; since_date := Some s;
     end_date := Some e |}.

(** [_get_pr_size]. *)
Definition _get_pr_size (changes : Z) : string :=
  if changes <? 10 then "xs"
  else if changes <? 30 then "s"
  else if changes <? 100 then "m"
  else if changes <? 500 then "l"
  else if changes <? 1000 then "xl"
  else "xxl".

(** *** Fetching *)

Section Analysis.

(** [datetime.strptime(s, "%Y-%m-%dT%H:%M:%SZ")]: [None] stands for the
    [ValueError] of a text that does not match the format. *)
Variable strptime : string -> option datetime.

Variable api : github_api.

Definition parse_time (s : string) : result datetime :=
  match strptime s with
  | Some t => Ok t
  | None => Raise (ValueError s)
  end.

(** [a.lower() == b.lower()]. *)
Definition same_login (a b : string) : bool :=
  String.eqb (lower a) (lower b).

(** [fetch_user_prs]. *)
Definition fetch_user_prs (self : analyzer) (since : datetime)
    : list pull_json :=
  let response := search_prs api since in
  if negb (status_code response =? 200) then []
  else
    let prs := json response in
    fold_left
      (fun detailed_prs pr_summary =>
         let pr_response := get_pull api (ij_number pr_summary) in
         if status_code pr_response =? 200
         then detailed_prs ++ [json pr_response]
         else detailed_prs)
      prs [].

(** The inner loop of [fetch_user_closed_issues] over the events of one
    issue: [true] when the issue is appended (and the loop left by
    [break]). *)
Fixpoint closed_by_user (self : analyzer) (since : datetime)
    (events : list event_json) : result bool :=
  match events with
  | [] => Ok false
  | event :: rest =>
      if match ej_event event with
         | Some e => String.eqb e "closed"
         | None => false
         end
      then
        do login <- actor_login event;
        if same_login login (username self) then
          let created_at := ej_created_at event in
          if truthy created_at then
            do event_date <- parse_time (get_default created_at "");
            if since <=? event_date then Ok true
            else closed_by_user self since rest
          else closed_by_user self since rest
        else closed_by_user self since rest
      else closed_by_user self since rest
  end.

(** [fetch_user_closed_issues]. *)
Definition fetch_user_closed_issues (self : analyzer) (since : datetime)
    : result (list issue_json) :=
  let response := search_closed_issues api since in
  if negb (status_code response =? 200) then Ok []
  else
    let all_issues := json response in
    for_each
      (fun user_closed_issues issue =>
         let events_response := get_issue_events api (ij_number issue) in
         if status_code events_response =? 200 then
           do closed <- closed_by_user self since (json events_response);
           Ok (if closed then user_closed_issues ++ [issue]
               else user_closed_issues)
         else Ok user_closed_issues)
      all_issues [].

(** The reviews of one reviewed pull request that [fetch_user_reviews]
    adds to [all_reviews]. *)
Definition reviews_of_pr (self : analyzer) (pr : issue_json)
    : list fetched_review :=
  let pr_number := ij_number pr in
  let reviews_response := get_pull_reviews api pr_number in
  if status_code reviews_response =? 200 then
    let reviews := json reviews_response in
    let user_reviews :=
      List.filter (fun r => same_login (rj_login r) (username self)) reviews in
    map (fun review =>
           {| fr_review := review; fr_pr_number := pr_number;
              fr_pr_title := ij_title pr; fr_pr_url := ij_html_url pr |})
        user_reviews
  else [].

(** The [while page <= 3] loop of [fetch_user_reviews], over the pages
    still to visit; both [break]s return what has been gathered so far. *)
Fixpoint fetch_review_pages (self : analyzer) (pages : list Z)
    (all_reviews : list fetched_review) : list fetched_review :=
  match pages with
  | [] => all_reviews
  | page :: rest =>
      let response := search_reviewed_prs api page in
      if negb (status_code response =? 200) then all_reviews
      else
        match json response with
        | [] => all_reviews
        | reviewed_prs =>
            fetch_review_pages self rest
              (fold_left (fun acc pr => acc ++ reviews_of_pr self pr)
                         reviewed_prs all_reviews)
        end
  end.

(** [fetch_user_reviews]. *)
Definition fetch_user_reviews (self : analyzer) (since : datetime)
    : list fetched_review :=
  fetch_review_pages self [1; 2; 3] [].

(** [fetch_user_commits]. *)
Definition fetch_user_commits (self : analyzer) (since : datetime)
    : list commit_json :=
  let response := get_commits api since in
  if negb (status_code response =? 200) then []
  else json response.

(** [fetch_user_issues]. *)
Definition fetch_user_issues (self : analyzer) (since : datetime)
    : list issue_json :=
  let response := search_issues api since in
  if negb (status_code response =? 200) then []
  else json response.

(** The comments of one issue that [fetch_user_issue_comments] adds to
    [all_comments]. *)
Definition comments_of_issue (self : analyzer) (issue : issue_json)
    : list fetched_comment :=
  let issue_number := ij_number issue in
  let comments_response := get_issue_comments api issue_number in
  if status_code comments_response =? 200 then
    let comments := json comments_response in
    let user_comments :=
      List.filter (fun c => same_login (cj_login c) (username self))
                  comments in
    map (fun comment =>
           {| fc_comment := comment; fc_issue_number := issue_number;
              fc_issue_title := ij_title issue;
              fc_issue_url := ij_html_url issue;
              fc_issue_state := ij_state issue |})
        user_comments
  else [].

(** The [while page <= 3] loop of [fetch_user_issue_comments]. *)
Fixpoint fetch_comment_pages (self : analyzer) (pages : list Z)
    (all_comments : list fetched_comment) : list fetched_comment :=
  match pages with
  | [] => all_comments
  | page :: rest =>
      let response := search_commented_issues api page in
      if negb (status_code response =? 200) then all_comments
      else
        match json response with
        | [] => all_comments
        | issues =>
            fetch_comment_pages self rest
              (fold_left (fun acc issue => acc ++ comments_of_issue self issue)
                         issues all_comments)
        end
  end.

(** [fetch_user_issue_comments]. *)
Definition fetch_user_issue_comments (self : analyzer) (since : datetime)
    : list fetched_comment :=
  fetch_comment_pages self [1; 2; 3] [].

(** *** Aggregation *)

(** The record built from one fetched pull request. *)
Definition make_pr_data (pr : pull_json) : pr_data :=
  let additions := get_default (pj_additions pr) 0 in
  let deletions := get_default (pj_deletions pr) 0 in
  let total_changes := additions + deletions in
  let pr_size := _get_pr_size total_changes in
  {| pd_number := pj_number pr;
     pd_title := pj_title pr;
     pd_url := pj_html_url pr;
     pd_state := pj_state pr;
     pd_created_at := pj_created_at pr;
     pd_updated_at := pj_updated_at pr;
     pd_closed_at := pj_closed_at pr;
     pd_merged_at := pj_merged_at pr;
     pd_additions := additions;
     pd_deletions := deletions;
     pd_total_changes := total_changes;
     pd_size := pr_size;
     pd_changed_files := get_default (pj_changed_files pr) 0;
     pd_commits := get_default (pj_commits pr) 0 |}.

(** One round of [for pr in prs]; the second component is the local
    variable [total_commits_in_prs]. *)
Definition analyze_pr (acc : stats * Z) (pr : pull_json)
    : result (stats * Z) :=
  let st := fst acc in
  let pr_data := make_pr_data pr in
  let opened := pull_requests_opened st ++ [pr_data] in
  let total_commits_in_prs := snd acc + pd_commits pr_data in
  do sizes <- counter_incr (pd_size pr_data) (pr_sizes st);
  let merged :=
    if truthy (pj_merged_at pr)
    then pull_requests_merged st ++ [pr_data]
    else pull_requests_merged st in
  let closed :=
    if truthy (pj_merged_at pr) then pull_requests_closed st
    else if String.eqb (pj_state pr) "closed"
         then pull_requests_closed st ++ [pr_data]
         else pull_requests_closed st in
  Ok (set_pr_fields st opened merged closed
        (total_additions st + pd_additions pr_data)
        (total_deletions st + pd_deletions pr_data)
        (total_files_changed st + pd_changed_files pr_data)
        sizes,
      total_commits_in_prs).

(** The pull-request part of [analyze_activity]. *)
Definition analyze_prs (st : stats) (prs : list pull_json) : result stats :=
  do acc <- for_each analyze_pr prs (st, 0);
  Ok (set_total_commits_in_prs (fst acc) (Some (snd acc))).

Definition make_review_data (review : fetched_review) : review_data :=
  {| rd_pr_number := fr_pr_number review;
     rd_pr_title := fr_pr_title review;
     rd_pr_url := fr_pr_url review;
     rd_state := rj_state (fr_review review);
     rd_submitted_at := rj_submitted_at (fr_review review);
     rd_body := take_str 200 (get_default (rj_body (fr_review review)) "") |}.

(** The date test shared by the review and comment loops: [true] when the
    loop reaches [continue]. *)
Definition before_window (since : datetime) (stamp : option string)
    : result bool :=
  if truthy stamp then
    do date <- parse_time (get_default stamp "");
    Ok (date <? since)
  else Ok false.

(** One round of [for review in reviews]. *)
Definition analyze_review (since : datetime) (reviewed : list review_data)
    (review : fetched_review) : result (list review_data) :=
  let submitted_at := rj_submitted_at (fr_review review) in
  do skip <- before_window since submitted_at;
  if skip then Ok reviewed
  else Ok (reviewed ++ [make_review_data review]).

(** The review part of [analyze_activity]. *)
Definition analyze_reviews (since : datetime) (st : stats)
    (reviews : list fetched_review) : result stats :=
  do reviewed <- for_each (analyze_review since) reviews
                   (pull_requests_reviewed st);
  let st' := set_pull_requests_reviewed st reviewed in
  Ok (set_review_totals st'
        (Some (Z.of_nat (length reviewed)))
        (Some (Z.of_nat (count_distinct (map rd_pr_number reviewed))))).

Definition make_issue_data (issue : issue_json) : issue_data :=
  {| id_number := ij_number issue;
     id_title := ij_title issue;
     id_url := ij_html_url issue;
     id_state := ij_state issue;
     id_created_at := ij_created_at issue;
     id_updated_at := ij_updated_at issue;
     id_closed_at := ij_closed_at issue;
     id_comments_count := get_default (ij_comments issue) 0 |}.

Definition make_closed_issue_data (issue : issue_json) : closed_issue_data :=
  {| cd_number := ij_number issue;
     cd_title := ij_title issue;
     cd_url := ij_html_url issue;
     cd_state := ij_state issue;
     cd_created_at := Some (ij_created_at issue);
     cd_closed_at := ij_closed_at issue;
     cd_comments_count := get_default (ij_comments issue) 0 |}.

Definition make_comment_data (comment : fetched_comment) : comment_data :=
  {| md_issue_number := fc_issue_number comment;
     md_issue_title := fc_issue_title comment;
     md_issue_url := fc_issue_url comment;
     md_issue_state := fc_issue_state comment;
     md_created_at := cj_created_at (fc_comment comment);
     md_body := take_str 200 (get_default (cj_body (fc_comment comment)) "") |}.

(** One round of [for comment in issue_comments]. *)
Definition analyze_comment (since : datetime) (kept : list comment_data)
    (comment : fetched_comment) : result (list comment_data) :=
  let created_at := cj_created_at (fc_comment comment) in
  do skip <- before_window since created_at;
  if skip then Ok kept
  else Ok (kept ++ [make_comment_data comment]).

(** [message.split('\n')[0]]. *)
Fixpoint first_line (s : string) : string :=
  match s with
  | EmptyString => EmptyString
  | String c s' =>
      if Ascii.eqb c "010"%char then EmptyString else String c (first_line s')
  end.

Definition make_commit_data (commit : commit_json) : commit_data :=
  {| td_sha := take_str 7 (cm_sha commit);
     td_message := first_line (cm_message commit);
     td_date := cm_date commit;
     td_url := cm_html_url commit |}.

(** [analyze_activity]; [now] is the value of [datetime.now()].  The
    subtraction [end_date - timedelta(days=days)] raises [OverflowError]
    when the days or the difference are out of range: for an [end_date]
    that is a [datetime], exactly when the difference is not one. *)
Definition analyze_activity (self : analyzer) (days : Z)
    (end_date_arg : option datetime) (now : datetime) : result analyzer :=
  let end_date := get_default end_date_arg now in
  let since_date := end_date - timedelta_days days in
  if negb (representable since_date)
  then Raise (OverflowError "date value out of range")
  else
  let self := set_dates self end_date since_date in
  let st := self_stats self in
  let prs := fetch_user_prs self since_date in
  do st <- analyze_prs st prs;
  let reviews := fetch_user_reviews self since_date in
  do st <- analyze_reviews since_date st reviews;
  let issues := fetch_user_issues self since_date in
  let st := set_issues_opened st
              (issues_opened st ++ map make_issue_data issues) in
  do closed_issues <- fetch_user_closed_issues self since_date;
  let st := set_issues_closed st
              (issues_closed st ++ map make_closed_issue_data closed_issues) in
  let comments := fetch_user_issue_comments self since_date in
  do kept <- for_each (analyze_comment since_date) comments
               (issue_comments st);
  let st := set_issue_comments st kept in
  let commits := fetch_user_commits self since_date in
  let st := set_commits_authored st
              (commits_authored st ++ map make_commit_data commits) in
  Ok (set_stats self st).

End Analysis.

(** *** Rendering to HTML

    [_generate_html_report] builds a text; the model gives the document
    as the sequence of calls [HTMLParser.feed] makes when it reads that
    text, with every interpolated value taken as character data (the
    values carry no markup).  Runs of white space between tags are
    shortened to [ws] and the style sheet to [style_sheet]. *)

Section Render.

Variable strptime : string -> option datetime.

(** [d.strftime(fmt)]. *)
Variable strftime : string -> datetime -> string.

Definition ws : html_event := Data (String "010"%char "    ").

Definition style_sheet : string := "* { margin: 0; padding: 0; }".

Definition cls (c : string) : list (string * option string) :=
  [("class", Some c)].

Definition elt (tag : string) (attrs : list (string * option string))
    (body : list html_event) : list html_event :=
  StartTag tag attrs :: body ++ [EndTag tag].

Definition div (c : string) (body : list html_event) : list html_event :=
  elt "div" (cls c) body.

Definition styled (c style : string) : list (string * option string) :=
  [("class", Some c); ("style", Some style)].

(** [d[k]] on the counter dict. *)
Definition counter_get (k : string) (d : gmap string Z) : result Z :=
  match d !! k with
  | Some v => Ok v
  | None => Raise (KeyError k)
  end.

Definition html_head (self : analyzer) : list html_event :=
  [Decl "DOCTYPE html"; ws; StartTag "html" [("lang", Some "en")]; ws;
   StartTag "head" []; ws;
   StartTag "meta" [("charset", Some "UTF-8")]; ws;
   StartTag "meta" [("name", Some "viewport");
                    ("content", Some "width=device-width, initial-scale=1.0")];
   ws]
  ++ elt "title" [] [Data ("Repository Activity Report - @" +:+ username self)]
  ++ [ws] ++ elt "style" [] [Data style_sheet]
  ++ [ws; EndTag "head"; ws; StartTag "body" []; ws].

Definition period_text (self : analyzer) (days : Z) : string :=
  match since_date self, end_date self with
  | Some s, Some e =>
      "📅 Period: " +:+ strftime "%B %d, %Y" s +:+ " to "
      +:+ strftime "%B %d, %Y" e +:+ " (" +:+ str_of_int days +:+ " days) | "
  | _, _ => "📅 Period: Last " +:+ str_of_int days +:+ " days | "
  end.

Definition html_header (self : analyzer) (days : Z) (now : datetime)
    : list html_event :=
  [StartTag "div" (cls "container"); ws; StartTag "div" (cls "header"); ws]
  ++ elt "h1" [] [Data "📊 Repository Activity Report"] ++ [ws]
  ++ div "repo" [Data (owner self +:+ "/" +:+ repo self)] ++ [ws]
  ++ div "username" [Data ("@" +:+ username self)] ++ [ws]
  ++ div "meta"
       [Data (period_text self days +:+ "🕐 Generated: "
              +:+ strftime "%B %d, %Y at %H:%M:%S" now)]
  ++ [ws; EndTag "div"; ws].

(** One [metric-card]; [extra] is the optional [size-description]. *)
Definition metric_card (attrs : list (string * option string))
    (label value : string) (extra : list html_event) : list html_event :=
  elt "div" attrs
    ([ws] ++ div "metric-label" [Data label] ++ [ws]
     ++ div "metric-value" [Data value] ++ [ws] ++ extra)
  ++ [ws].

Definition section_title (icon title : string) : list html_event :=
  elt "h2" (cls "section-title")
    ([ws] ++ elt "span" [] [Data icon] ++ [Data title]) ++ [ws].

Definition section_note (note : string) : list html_event :=
  elt "p" [("style",
            Some "color: #6c757d; margin-bottom: 20px; font-size: 0.95em;")]
    ([ws] ++ elt "em" [] [Data note] ++ [ws]) ++ [ws].

Definition main_metrics (st : stats) : list html_event :=
  let total_merged := length (pull_requests_merged st) in
  let total_commits_in_prs := get_default (total_commits_in_prs st) 0 in
  elt "div" (cls "metrics-grid")
    ([ws]
     ++ metric_card (styled "metric-card" "background: yellow")
          "✅ PRs Merged" (str_of_len total_merged) []
     ++ metric_card (styled "metric-card" "background: transparent")
          "📈 Lines Added" ("+" +:+ str_of_int (total_additions st)) []
     ++ metric_card (styled "metric-card" "background: transparent")
          "📉 Lines Deleted" ("-" +:+ str_of_int (total_deletions st)) []
     ++ metric_card (styled "metric-card" "background: transparent")
          "💾 Commits in PRs" (str_of_int total_commits_in_prs) [])
  ++ [ws].

Definition size_card (badge color description : string) (count : Z)
    : list html_event :=
  div "size-card"
    ([ws]
     ++ div "size-label"
          ([ws]
           ++ elt "span" (cls ("badge badge-" +:+ lower badge +:+ " badge-size"))
                [Data badge]
           ++ [ws])
     ++ [ws]
     ++ elt "div" (styled "size-value" ("color: " +:+ color +:+ ";"))
          [Data (str_of_int count)]
     ++ [ws] ++ div "size-description" [Data description] ++ [ws])
  ++ [ws].

Definition size_section (st : stats) : result (list html_event) :=
  do xs <- counter_get "xs" (pr_sizes st);
  do s <- counter_get "s" (pr_sizes st);
  do m <- counter_get "m" (pr_sizes st);
  do l <- counter_get "l" (pr_sizes st);
  do xl <- counter_get "xl" (pr_sizes st);
  do xxl <- counter_get "xxl" (pr_sizes st);
  Ok (div "section"
        ([ws] ++ section_title "📏" "Pull Request Size Distribution"
         ++ section_note
              "Based on total changes (additions + deletions). Size categories match OSSInsight standards."
         ++ div "pr-size-chart"
              ([ws]
               ++ size_card "XS" "oklch(from #10b981 l c h)" "< 10 changes" xs
               ++ size_card "S" "oklch(from #3b82f6 l c h)" "10-29 changes" s
               ++ size_card "M" "oklch(from #f59e0b l c h)" "30-99 changes" m
               ++ size_card "L" "oklch(from #f97316 l c h)" "100-499 changes" l
               ++ size_card "XL" "oklch(from #ef4444 l c h)" "500-999 changes" xl
               ++ size_card "XXL" "oklch(from #991b1b l c h)" "≥ 1000 changes"
                    xxl)
         ++ [ws])
      ++ [ws]).

Definition collaboration_section (st : stats) : list html_event :=
  let total_reviews :=
    get_default (total_reviews_given st)
      (Z.of_nat (length (pull_requests_reviewed st))) in
  let unique_prs_reviewed :=
    get_default (unique_prs_reviewed st)
      (Z.of_nat (count_distinct
                   (map rd_pr_number (pull_requests_reviewed st)))) in
  let unique_issues_commented :=
    count_distinct (map md_issue_number (issue_comments st)) in
  div "section"
    ([ws] ++ section_title "🤝" "Other repository collaboration"
     ++ section_note
          "Authoring, QA-related work, documentation and general collab can be represented here."
     ++ div "metrics-grid"
          ([ws]
           ++ metric_card (cls "metric-card") "👀 Reviews Given"
                (str_of_int total_reviews)
                (div "size-description"
                   [Data (str_of_int unique_prs_reviewed +:+ " unique PRs")]
                 ++ [ws])
           ++ metric_card (cls "metric-card") "🐛 Issues Opened"
                (str_of_len (length (issues_opened st))) []
           ++ metric_card (cls "metric-card") "✅ Issues Closed"
                (str_of_len (length (issues_closed st))) []
           ++ metric_card (cls "metric-card") "💬 Issue Comments"
                (str_of_len (length (issue_comments st)))
                (div "size-description"
                   [Data (str_of_len unique_issues_commented
                          +:+ " unique issues")]
                 ++ [ws]))
     ++ [ws])
  ++ [ws].

Definition badge (c text : string) : list html_event :=
  elt "span" (cls ("badge " +:+ c)) [Data text].

Definition link (c href text : string) : list html_event :=
  elt "a" [("href", Some href); ("class", Some c); ("target", Some "_blank")]
    [Data text].

Definition card_title (number : Z) (url title : string)
    (badges : list html_event) : list html_event :=
  div "pr-title"
    ([ws] ++ elt "span" (cls "pr-number") [Data ("#" +:+ str_of_int number)]
     ++ [ws] ++ link "pr-link" url title ++ [ws] ++ badges ++ [ws]).

Definition pr_stat (body : list html_event) : list html_event :=
  div "pr-stat" body ++ [ws].

Definition pr_card (pr : pr_data) : result (list html_event) :=
  let status_badge :=
    if truthy (pd_merged_at pr) then badge "badge-merged" "✅ Merged"
    else if String.eqb (pd_state pr) "closed"
         then badge "badge-closed" "❌ Closed"
         else badge "badge-open" "🔄 Open" in
  let size_badge :=
    elt "span" (cls ("badge badge-" +:+ pd_size pr +:+ " badge-size"))
      [Data (upper (pd_size pr))] in
  do created <- parse_time strptime (pd_created_at pr);
  let pr_date := strftime "%B %d, %Y" created in
  Ok ([ws]
      ++ div "pr-card"
           ([ws]
            ++ card_title (pd_number pr) (pd_url pr) (pd_title pr)
                 (status_badge ++ [ws] ++ size_badge)
            ++ [ws]
            ++ div "pr-stats"
                 ([ws] ++ pr_stat [Data ("📅 " +:+ pr_date)]
                  ++ pr_stat
                       ([ws]
                        ++ elt "span" (cls "stat-additions")
                             [Data ("+" +:+ str_of_int (pd_additions pr))]
                        ++ [ws])
                  ++ pr_stat
                       ([ws]
                        ++ elt "span" (cls "stat-deletions")
                             [Data ("-" +:+ str_of_int (pd_deletions pr))]
                        ++ [ws])
                  ++ pr_stat [Data ("📊 " +:+ str_of_int (pd_total_changes pr)
                                    +:+ " total changes")]
                  ++ pr_stat [Data ("📄 " +:+ str_of_int (pd_changed_files pr)
                                    +:+ " files")]
                  ++ pr_stat [Data ("💾 " +:+ str_of_int (pd_commits pr)
                                    +:+ " commits")])
            ++ [ws])
      ++ [ws]).

Definition closed_issue_card (issue : closed_issue_data)
    : result (list html_event) :=
  do closed_date <-
    (if truthy (cd_closed_at issue) then
       do closed <- parse_time strptime (get_default (cd_closed_at issue) "");
       Ok (strftime "%B %d, %Y" closed)
     else Ok "Unknown");
  Ok ([ws]
      ++ div "pr-card"
           ([ws]
            ++ card_title (cd_number issue) (cd_url issue) (cd_title issue)
                 (badge "badge-closed" "✅ Closed")
            ++ [ws]
            ++ div "pr-stats"
                 ([ws] ++ pr_stat [Data ("🔒 Closed: " +:+ closed_date)]
                  ++ pr_stat [Data ("💬 "
                                    +:+ str_of_int (cd_comments_count issue)
                                    +:+ " comments")])
            ++ [ws])
      ++ [ws]).

Definition review_badge_class (review_state : string) : string :=
  if String.eqb review_state "APPROVED" then "badge-approved"
  else if String.eqb review_state "CHANGES_REQUESTED"
       then "badge-changes-requested"
       else "badge-commented".

Definition review_card (review : review_data) : result (list html_event) :=
  let review_state := upper (rd_state review) in
  let badge_class := review_badge_class review_state in
  let submitted_at := rd_submitted_at review in
  do review_date <-
    (if truthy submitted_at then
       do submitted <- parse_time strptime (get_default submitted_at "");
       Ok (strftime "%B %d, %Y" submitted)
     else Ok "Unknown");
  Ok ([ws]
      ++ div "pr-card"
           ([ws]
            ++ card_title (rd_pr_number review) (rd_pr_url review)
                 (rd_pr_title review) (badge badge_class review_state)
            ++ [ws]
            ++ div "pr-stats" ([ws] ++ pr_stat [Data ("📅 " +:+ review_date)])
            ++ [ws])
      ++ [ws]).

Definition open_or_closed_badge (state : string) : list html_event :=
  if String.eqb state "open" then badge "badge-open" "🔓 Open"
  else badge "badge-closed" "✅ Closed".

Definition issue_card (issue : issue_data) : result (list html_event) :=
  do created <- parse_time strptime (id_created_at issue);
  let issue_date := strftime "%B %d, %Y" created in
  Ok ([ws]
      ++ div "pr-card"
           ([ws]
            ++ card_title (id_number issue) (id_url issue) (id_title issue)
                 (open_or_closed_badge (id_state issue))
            ++ [ws]
            ++ div "pr-stats"
                 ([ws] ++ pr_stat [Data ("📅 " +:+ issue_date)]
                  ++ pr_stat [Data ("💬 "
                                    +:+ str_of_int (id_comments_count issue)
                                    +:+ " comments")])
            ++ [ws])
      ++ [ws]).

(** [strptime] applied to [comment['created_at']]: a [None] there is a
    [TypeError]. *)
Definition comment_card (comment : comment_data) : result (list html_event) :=
  do created <-
    match md_created_at comment with
    | Some s => parse_time strptime s
    | None => Raise (TypeError "strptime() argument 1 must be str, not None")
    end;
  let comment_date := strftime "%B %d, %Y" created in
  let body := md_body comment in
  let comment_preview :=
    if (100 <? str_len body)%nat then take_str 100 body +:+ "..."
    else body in
  Ok ([ws]
      ++ div "pr-card"
           ([ws]
            ++ card_title (md_issue_number comment) (md_issue_url comment)
                 (md_issue_title comment)
                 (open_or_closed_badge (md_issue_state comment))
            ++ [ws]
            ++ div "pr-stats" ([ws] ++ pr_stat [Data ("📅 " +:+ comment_date)])
            ++ [ws]
            ++ elt "div"
                 [("style",
                   Some "margin-top: 10px; padding: 10px; background: oklch(from #f8f9fa l c h); border-radius: 4px; font-size: 0.9em; color: oklch(from #495057 l c h);")]
                 [Data comment_preview]
            ++ [ws])
      ++ [ws]).

Definition commit_item (commit : commit_data) : result (list html_event) :=
  do authored <- parse_time strptime (td_date commit);
  let commit_date := strftime "%b %d, %Y %H:%M" authored in
  Ok ([ws]
      ++ div "commit-item"
           ([ws]
            ++ elt "div" []
                 ([ws]
                  ++ elt "a" [("href", Some (td_url commit));
                              ("class", Some "commit-sha");
                              ("target", Some "_blank")]
                       [Data (td_sha commit)]
                  ++ [ws]
                  ++ elt "span" (cls "commit-message") [Data (td_message commit)]
                  ++ [ws])
            ++ [ws] ++ div "commit-date" [Data commit_date] ++ [ws])
      ++ [ws]).

(** The cards of one list, in order; the first exception ends the
    rendering. *)
Definition cards {A : Type} (card : A -> result (list html_event))
    (l : list A) : result (list html_event) :=
  for_each (fun html x => do c <- card x; Ok (html ++ c)) l [].

(** One optional section: nothing for an empty list. *)
Definition list_section {A : Type} (l : list A)
    (heading : list html_event) (card : A -> result (list html_event))
    : result (list html_event) :=
  match l with
  | [] => Ok []
  | _ =>
      do body <- cards card l;
      Ok ([ws; StartTag "div" (cls "section"); ws] ++ heading ++ body
          ++ [EndTag "div"; ws])
  end.

Definition count_title (title : string) (n : nat) : string :=
  title +:+ " (" +:+ str_of_len n +:+ ")".

Definition commits_section (st : stats) : result (list html_event) :=
  match commits_authored st with
  | [] => Ok []
  | commits =>
      do items <- cards commit_item (firstn 15 commits);
      Ok ([ws; StartTag "div" (cls "section"); ws]
          ++ section_title "💾" (count_title "Direct Commits" (length commits))
          ++ section_note
               "Note: These are direct commits to the repository. Commits within PRs are shown in the PR cards above."
          ++ [StartTag "div" (cls "commit-list"); ws] ++ items
          ++ (if (15 <? length commits)%nat then
                elt "p" [("style",
                          Some "text-align: center; margin-top: 20px; color: #6c757d;")]
                  [Data ("... and " +:+ str_of_len (length commits - 15)
                         +:+ " more commits")]
              else [])
          ++ [ws; EndTag "div"; ws; EndTag "div"; ws])
  end.

(** [_generate_html_report]. *)
Definition _generate_html_report (self : analyzer) (days : Z)
    (now : datetime) : result (list html_event) :=
  let st := self_stats self in
  let unique_prs_reviewed :=
    get_default (unique_prs_reviewed st)
      (Z.of_nat (count_distinct
                   (map rd_pr_number (pull_requests_reviewed st)))) in
  do sizes <- size_section st;
  do prs <-
    list_section (pull_requests_opened st)
      (section_title "🔀"
         (count_title "Pull Requests Opened"
            (length (pull_requests_opened st))))
      pr_card;
  do closed <-
    list_section (issues_closed st)
      (section_title "✅"
         (count_title ("Issues Closed by " +:+ username self)
            (length (issues_closed st))))
      closed_issue_card;
  do reviews <-
    list_section (pull_requests_reviewed st)
      (section_title "👀"
         ("Pull Requests Reviewed ("
          +:+ str_of_len (length (pull_requests_reviewed st))
          +:+ " reviews on " +:+ str_of_int unique_prs_reviewed +:+ " PRs)")
       ++ section_note
            "Showing all reviews. You may have reviewed some PRs multiple times.")
      review_card;
  do issues <-
    list_section (issues_opened st)
      (section_title "🐛"
         (count_title "Issues Opened" (length (issues_opened st))))
      issue_card;
  do comments <-
    list_section (issue_comments st)
      (section_title "💬"
         ("Issue Comments (" +:+ str_of_len (length (issue_comments st))
          +:+ " comments on "
          +:+ str_of_len (count_distinct
                            (map md_issue_number (issue_comments st)))
          +:+ " issues)")
       ++ section_note
            "Showing all comments. You may have commented on some issues multiple times.")
      comment_card;
  do commits <- commits_section st;
  Ok (html_head self ++ html_header self days now ++ main_metrics st
      ++ sizes ++ collaboration_section st
      ++ prs ++ closed ++ reviews ++ issues ++ comments ++ commits
      ++ [ws; EndTag "div"; ws; EndTag "body"; ws; EndTag "html"; ws]).

End Render.

End Report.

(** ** The team index *)

Module TeamIndex.
Import Py.

(** *** [ReportMetricsParser] *)

Record parser : Type := Parser {
  in_repo_div : bool;
  in_username_div : bool;
  in_metric_card : bool;
  in_metric_label : bool;
  in_metric_value : bool;
  current_label : option string;
  metrics : list (string * string);
  username : option string;
  repo_owner : option string;
  repo_name : option string
}.

(** [__init__]. *)
Definition new_parser : parser :=
  {| in_repo_div := false; in_username_div := false;
     in_metric_card := false; in_metric_label := false;
     in_metric_value := false; current_label := None; metrics := [];
     username := None; repo_owner := None; repo_name := None |}.

(** Assignments to the attributes of the parser. *)

Definition set_in_repo_div (self : parser) (v : bool) : parser :=
  {| in_repo_div := v;
     in_username_div := in_username_div self;
     in_metric_card := in_metric_card self;
     in_metric_label := in_metric_label self;
     in_metric_value := in_metric_value self;
     current_label := current_label self;
     metrics := metrics self;
     username := username self;
     repo_owner := repo_owner self;
     repo_name := repo_name self |}.

Definition set_in_username_div (self : parser) (v : bool) : parser :=
  {| in_repo_div := in_repo_div self;
     in_username_div := v;
     in_metric_card := in_metric_card self;
     in_metric_label := in_metric_label self;
     in_metric_value := in_metric_value self;
     current_label := current_label self;
     metrics := metrics self;
     username := username self;
     repo_owner := repo_owner self;
     repo_name := repo_name self |}.

Definition set_in_metric_card (self : parser) (v : bool) : parser :=
  {| in_repo_div := in_repo_div self;
     in_username_div := in_username_div self;
     in_metric_card := v;
     in_metric_label := in_metric_label self;
     in_metric_value := in_metric_value self;
     current_label := current_label self;
     metrics := metrics self;
     username := username self;
     repo_owner := repo_owner self;
     repo_name := repo_name self |}.

Definition set_in_metric_label (self : parser) (v : bool) : parser :=
  {| in_repo_div := in_repo_div self;
     in_username_div := in_username_div self;
     in_metric_card := in_metric_card self;
     in_metric_label := v;
     in_metric_value := in_metric_value self;
     current_label := current_label self;
     metrics := metrics self;
     username := username self;
     repo_owner := repo_owner self;
     repo_name := repo_name self |}.

Definition set_in_metric_value (self : parser) (v : bool) : parser :=
  {| in_repo_div := in_repo_div self;
     in_username_div := in_username_div self;
     in_metric_card := in_metric_card self;
     in_metric_label := in_metric_label self;
     in_metric_value := v;
     current_label := current_label self;
     metrics := metrics self;
     username := username self;
     repo_owner := repo_owner self;
     repo_name := repo_name self |}.

Definition set_current_label (self : parser) (v : option string) : parser :=
  {| in_repo_div := in_repo_div self;
     in_username_div := in_username_div self;
     in_metric_card := in_metric_card self;
     in_metric_label := in_metric_label self;
     in_metric_value := in_metric_value self;
     current_label := v;
     metrics := metrics self;
     username := username self;
     repo_owner := repo_owner self;
     repo_name := repo_name self |}.

Definition set_metrics (self : parser) (v : list (string * string)) : parser :=
  {| in_repo_div := in_repo_div self;
     in_username_div := in_username_div self;
     in_metric_card := in_metric_card self;
     in_metric_label := in_metric_label self;
     in_metric_value := in_metric_value self;
     current_label := current_label self;
     metrics := v;
     username := username self;
     repo_owner := repo_owner self;
     repo_name := repo_name self |}.

Definition set_username (self : parser) (v : option string) : parser :=
  {| in_repo_div := in_repo_div self;
     in_username_div := in_username_div self;
     in_metric_card := in_metric_card self;
     in_metric_label := in_metric_label self;
     in_metric_value := in_metric_value self;
     current_label := current_label self;
     metrics := metrics self;
     username := v;
     repo_owner := repo_owner self;
     repo_name := repo_name self |}.

Definition set_repo (self : parser) (o : option string) (n : option string) : parser :=
  {| in_repo_div := in_repo_div self;
     in_username_div := in_username_div self;
     in_metric_card := in_metric_card self;
     in_metric_label := in_metric_label self;
     in_metric_value := in_metric_value self;
     current_label := current_label self;
     metrics := metrics self;
     username := username self;
     repo_owner := o;
     repo_name := n |}.

Definition leave_metric_card (self : parser) (v : bool) (l : option string) : parser :=
  {| in_repo_div := in_repo_div self;
     in_username_div := in_username_div self;
     in_metric_card := v;
     in_metric_label := in_metric_label self;
     in_metric_value := in_metric_value self;
     current_label := l;
     metrics := metrics self;
     username := username self;
     repo_owner := repo_owner self;
     repo_name := repo_name self |}.

(** [attrs_dict.get('class') == c]. *)
Definition class_is (attrs_dict : list (string * option string))
    (c : string) : bool :=
  match dict_get "class" attrs_dict with
  | Some (Some v) => String.eqb v c
  | _ => false
  end.

(** [handle_starttag]. *)
Definition handle_starttag (self : parser) (tag : string)
    (attrs : list (string * option string)) : parser :=
  let attrs_dict := dict_of_pairs attrs in
  let is_div c := String.eqb tag "div" && class_is attrs_dict c in
  let self := if is_div "repo" then set_in_repo_div self true else self in
  let self :=
    if is_div "username" then set_in_username_div self true else self in
  let self :=
    if is_div "metric-card" then set_in_metric_card self true else self in
  if in_metric_card self then
    if is_div "metric-label" then set_in_metric_label self true
    else if is_div "metric-value" then set_in_metric_value self true
    else self
  else self.

(** [handle_endtag]. *)
Definition handle_endtag (self : parser) (tag : string) : parser :=
  if String.eqb tag "div" then
    if in_repo_div self then set_in_repo_div self false
    else if in_username_div self then set_in_username_div self false
    else if in_metric_label self then set_in_metric_label self false
    else if in_metric_value self then set_in_metric_value self false
    else if in_metric_card self then leave_metric_card self false None
    else self
  else self.

(** [handle_data]. *)
Definition handle_data (self : parser) (data : string) : parser :=
  let data := strip data in
  if negb (str_truthy data) then self
  else
    let self :=
      if in_repo_div self then
        match split_on "/"%char data with
        | [o; n] => set_repo self (Some o) (Some n)
        | _ => self
        end
      else self in
    let self :=
      if in_username_div self then set_username self (Some (lstrip_at data))
      else self in
    if in_metric_label self then set_current_label self (Some data)
    else if in_metric_value self && truthy (current_label self) then
      set_metrics self
        (dict_set (get_default (current_label self) "") data (metrics self))
    else self.

(** One call of the tokenizer on the parser; [handle_decl] is the
    inherited method, which does nothing. *)
Definition handle (self : parser) (e : html_event) : parser :=
  match e with
  | Decl _ => self
  | StartTag tag attrs => handle_starttag self tag attrs
  | EndTag tag => handle_endtag self tag
  | Data data => handle_data self data
  end.

(** [parser.feed(content)], on the calls the tokenizer makes for
    [content]. *)
Definition feed (self : parser) (content : list html_event) : parser :=
  fold_left handle content self.

(** *** Scraped rows *)

Record report : Type := Report {
  r_filename : string;
  r_date : string;
  r_username : string;
  r_repo : string;
  r_metrics : list (string * string)
}.

(** [str(x)] inside an f-string for an attribute that may be [None]. *)
Definition str_of_optional (o : option string) : string :=
  get_default o "None".

(** [parse_report_file]; [filename] is [filepath.name] and [report_date]
    the date found in the file name or, failing that, the day of the
    file's last modification. *)
Definition parse_report_file (filename report_date : string)
    (content : list html_event) : option report :=
  let parser := feed new_parser content in
  if negb (truthy (username parser)) || negb (truthy (repo_owner parser))
  then None
  else
    Some {| r_filename := filename;
            r_date := report_date;
            r_username := str_of_optional (username parser);
            r_repo := str_of_optional (repo_owner parser) +:+ "/"
                      +:+ str_of_optional (repo_name parser);
            r_metrics := metrics parser |}.

(** *** Metric extraction *)

(** The class [[\d+\-,]]. *)
Definition is_digit_sign_comma (c : ascii) : bool :=
  is_digit c || Ascii.eqb c "+"%char || Ascii.eqb c "-"%char
  || Ascii.eqb c ","%char.

(** [get_metric_value] of the loop over the individual reports: the
    result is a [str]. *)
Fixpoint get_metric_value_row (metrics : list (string * string))
    (label_pattern : string) : string :=
  match metrics with
  | [] => "0"
  | (key, value) :: rest =>
      if contains label_pattern key then
        let clean_value := keep_chars is_digit_sign_comma value in
        if str_truthy clean_value then clean_value else "0"
      else get_metric_value_row rest label_pattern
  end.

(** [get_metric_value] of the loop that builds the summary by user: the
    result is an [int]. *)
Fixpoint get_metric_value_summary (metrics : list (string * string))
    (label_pattern : string) : Z :=
  match metrics with
  | [] => 0
  | (key, value) :: rest =>
      if contains label_pattern key then
        let clean_value := keep_chars is_digit value in
        if str_truthy clean_value then int_of_digits clean_value else 0
      else get_metric_value_summary rest label_pattern
  end.

(** *** The summary by user *)

(** A stable sort: [before y x] says that [y] goes strictly before [x]. *)
Fixpoint insort {A : Type} (before : A -> A -> bool) (x : A) (l : list A)
    : list A :=
  match l with
  | [] => [x]
  | y :: l' => if before y x then y :: insort before x l' else x :: l
  end.

Definition sort_by {A : Type} (before : A -> A -> bool) (l : list A)
    : list A :=
  foldr (insort before) [] l.

(** The key order of
    [reports.sort(key=lambda x: (x['date'], x['username']), reverse=True)]:
    [y] goes before [x] when its key is greater. *)
Definition newer_first (y x : report) : bool :=
  str_gt (r_date y) (r_date x)
  || String.eqb (r_date y) (r_date x)
     && str_gt (r_username y) (r_username x).

(** One value of [user_summary]. *)
Record summary : Type := Summary {
  prs_merged : Z;
  date : option string
}.

(** The default of the [defaultdict]. *)
Definition new_summary : summary := {| prs_merged := 0; date := None |}.

(** One round of [for report in reports]. *)
Definition summary_step (user_summary : list (string * summary))
    (report : report) : list (string * summary) :=
  let username := r_username report in
  let entry := get_default (dict_get username user_summary) new_summary in
  let merged := get_metric_value_summary (r_metrics report) "PRs Merged" in
  let entry :=
    {| prs_merged := prs_merged entry + merged; date := date entry |} in
  let entry :=
    if match date entry with
       | None => true
       | Some d => str_gt (r_date report) d
       end
    then {| prs_merged := prs_merged entry; date := Some (r_date report) |}
    else entry in
  dict_set username entry user_summary.

(** One row of the table "Summary by User". *)
Record summary_row : Type := SummaryRow {
  row_date : option string;
  row_username : string;
  row_real_name : string;
  row_prs_merged : Z
}.

(** The part of [generate_index_html] that computes the summary rows;
    [user_names] is the content of [user_names.json] (empty when the file
    is absent or unreadable). *)
Definition summary_rows (user_names : list (string * string))
    (reports : list report) : list summary_row :=
  let reports := sort_by newer_first reports in
  let user_summary := fold_left summary_step reports [] in
  map (fun username =>
         let summary :=
           get_default (dict_get username user_summary) new_summary in
         {| row_date := date summary;
            row_username := username;
            row_real_name :=
              get_default (dict_get username user_names) username;
            row_prs_merged := prs_merged summary |})
      (sort_by String.ltb (map fst user_summary)).

End TeamIndex.

(** * Sample data

    A concrete clock, a concrete remote API and a few scraped rows, used
    to run the definitions above on explicit inputs. *)

Module Demo.
Import Py Report.

(** The number written in [len] digits at position [start]. *)
Definition digits_at (s : string) (start len : nat) : option Z :=
  let f := String.substring start len s in
  if all_chars is_digit f then Some (int_of_digits f) else None.

Definition char_at (s : string) (i : nat) (c : ascii) : bool :=
  match String.get i s with
  | Some c' => Ascii.eqb c c'
  | None => false
  end.

(** Days between 1970-01-01 and the given civil date. *)
Definition days_from_civil (y m d : Z) : Z :=
  let y' := if m <=? 2 then y - 1 else y in
  let era := y' / 400 in
  let yoe := y' - era * 400 in
  let doy := (153 * (if 2 <? m then m - 3 else m + 9) + 2) / 5 + d - 1 in
  let doe := yoe * 365 + yoe / 4 - yoe / 100 + doy in
  era * 146097 + doe - 719468.

(** A parser for texts of the exact shape [YYYY-MM-DDTHH:MM:SSZ]. *)
Definition strptime_utc (s : string) : option datetime :=
  if (String.length s =? 20)%nat
     && char_at s 4 "-" && char_at s 7 "-" && char_at s 10 "T"
     && char_at s 13 ":" && char_at s 16 ":" && char_at s 19 "Z"
  then
    match digits_at s 0 4, digits_at s 5 2, digits_at s 8 2,
          digits_at s 11 2, digits_at s 14 2, digits_at s 17 2 with
    | Some y, Some m, Some d, Some hh, Some mm, Some ss =>
        if (1 <=? m) && (m <=? 12) && (1 <=? d) && (d <=? 31)
           && (hh <? 24) && (mm <? 60) && (ss <? 60)
        then Some ((((days_from_civil y m d * 24 + hh) * 60 + mm) * 60 + ss)
                   * 1000000)
        else None
    | _, _, _, _, _, _ => None
    end
  else None.

(** A formatter that prints the microsecond count. *)
Definition strftime_micros (fmt : string) (t : datetime) : string :=
  str_of_int t.

(** 2024-01-08 00:00:00, the end of the sample window of seven days. *)
Definition window_end : datetime :=
  Eval vm_compute in get_default (strptime_utc "2024-01-08T00:00:00Z") 0.

Definition window_start : datetime :=
  Eval vm_compute in window_end - timedelta_days 7.

Definition item (n : Z) (title state : string) : issue_json :=
  {| ij_number := n; ij_title := title;
     ij_html_url := "https://example.test/items/" +:+ str_of_int n;
     ij_state := state;
     ij_created_at := "2024-01-02T10:00:00Z";
     ij_updated_at := "2024-01-03T10:00:00Z";
     ij_closed_at :=
       if String.eqb state "closed" then Some "2024-01-06T09:00:00Z"
       else None;
     ij_comments := Some 2 |}.

Definition pull (n : Z) (state : string) (merged_at : option string)
    (adds dels : Z) : pull_json :=
  {| pj_number := n; pj_title := "Change " +:+ str_of_int n;
     pj_html_url := "https://example.test/pull/" +:+ str_of_int n;
     pj_state := state;
     pj_created_at := "2024-01-02T10:00:00Z";
     pj_updated_at := "2024-01-03T10:00:00Z";
     pj_closed_at := merged_at; pj_merged_at := merged_at;
     pj_additions := Some adds; pj_deletions := Some dels;
     pj_changed_files := Some 3; pj_commits := Some 2 |}.

(** A merged, a closed and an open pull request. *)
Definition pull_merged : pull_json :=
  pull 1 "closed" (Some "2024-01-04T12:00:00Z") 5 4.
Definition pull_closed : pull_json := pull 2 "closed" None 20 10.
Definition pull_open : pull_json := pull 3 "open" None 700 300.

Definition review (login state : string) (submitted_at : option string)
    : review_json :=
  {| rj_login := login; rj_state := state; rj_submitted_at := submitted_at;
     rj_body := Some "Looks good" |}.

Definition review_in_window : review_json :=
  review "octocat" "APPROVED" (Some "2024-01-05T08:30:00Z").
Definition review_too_old : review_json :=
  review "Octocat" "COMMENTED" (Some "2023-12-01T08:30:00Z").
Definition review_pending : review_json := review "octocat" "PENDING" None.
Definition review_by_other : review_json :=
  review "hubot" "APPROVED" (Some "2024-01-05T09:00:00Z").

Definition comment (login : string) (created_at : option string)
    : comment_json :=
  {| cj_login := login; cj_created_at := created_at;
     cj_body := Some "Thanks" |}.

Definition ok {A : Type} (body : A) : response A :=
  {| status_code := 200; json := body |}.

Definition failed {A : Type} (code : Z) (body : A) : response A :=
  {| status_code := code; json := body |}.

(** A healthy API: three pull requests, one reviewed pull request with
    four reviews, one issue opened, one issue closed by the user, one
    issue with comments, one commit. *)
Definition octo_api : github_api :=
  {| search_prs := fun _ =>
       ok [item 1 "Change 1" "closed"; item 2 "Change 2" "closed";
           item 3 "Change 3" "open"];
     get_pull := fun n =>
       if n =? 1 then ok pull_merged
       else if n =? 2 then ok pull_closed
       else if n =? 3 then ok pull_open
       else failed 404 pull_open;
     search_closed_issues := fun _ => ok [item 12 "Crash on start" "closed"];
     get_issue_events := fun _ =>
       ok [{| ej_event := Some "labeled"; ej_actor := Value (Value "hubot");
              ej_created_at := Some "2024-01-05T09:00:00Z" |};
           {| ej_event := Some "closed"; ej_actor := Value (Value "Octocat");
              ej_created_at := Some "2024-01-06T09:00:00Z" |}];
     search_reviewed_prs := fun page =>
       if page =? 1 then ok [item 7 "Refactor" "open"] else ok [];
     get_pull_reviews := fun _ =>
       ok [review_in_window; review_too_old; review_by_other];
     get_commits := fun _ =>
       ok [{| cm_sha := "0123456789abcdef"; cm_message := "Fix typo";
              cm_date := "2024-01-03T11:00:00Z";
              cm_html_url := "https://example.test/commit/0123456" |}];
     search_issues := fun _ => ok [item 11 "Docs unclear" "open"];
     search_commented_issues := fun page =>
       if page =? 1 then ok [item 11 "Docs unclear" "open"] else ok [];
     get_issue_comments := fun _ =>
       ok [comment "octocat" (Some "2024-01-04T15:00:00Z");
           comment "hubot" (Some "2024-01-04T16:00:00Z");
           comment "octocat" (Some "2023-11-30T15:00:00Z")] |}.

(** The same API with other answers on the three review and comment
    endpoints. *)
Definition with_reviews (api : github_api)
    (search : Z -> response (list issue_json))
    (reviews : Z -> response (list review_json)) : github_api :=
  {| search_prs := search_prs api; get_pull := get_pull api;
     search_closed_issues := search_closed_issues api;
     get_issue_events := get_issue_events api;
     search_reviewed_prs := search;
     get_pull_reviews := reviews;
     get_commits := get_commits api; search_issues := search_issues api;
     search_commented_issues := search_commented_issues api;
     get_issue_comments := get_issue_comments api |}.

Definition with_comments (api : github_api)
    (comments : Z -> response (list comment_json)) : github_api :=
  {| search_prs := search_prs api; get_pull := get_pull api;
     search_closed_issues := search_closed_issues api;
     get_issue_events := get_issue_events api;
     search_reviewed_prs := search_reviewed_prs api;
     get_pull_reviews := get_pull_reviews api;
     get_commits := get_commits api; search_issues := search_issues api;
     search_commented_issues := search_commented_issues api;
     get_issue_comments := comments |}.



(** One review and one comment come without a time stamp. *)
Definition api_with_pending : github_api :=
  with_comments
    (with_reviews octo_api (search_reviewed_prs octo_api)
       (fun _ => ok [review_in_window; review_pending; review_too_old]))
    (fun _ => ok [comment "octocat" None;
                  comment "octocat" (Some "2023-11-30T15:00:00Z")]).


(** Every request is refused. *)
Definition api_outage : github_api :=
  {| search_prs := fun _ => failed 503 [];
     get_pull := fun _ => failed 503 pull_open;
     search_closed_issues := fun _ => failed 503 [];
     get_issue_events := fun _ => failed 503 [];
     search_reviewed_prs := fun _ => failed 503 [];
     get_pull_reviews := fun _ => failed 503 [];
     get_commits := fun _ => failed 503 [];
     search_issues := fun _ => failed 503 [];
     search_commented_issues := fun _ => failed 503 [];
     get_issue_comments := fun _ => failed 503 [] |}.

Definition octocat : analyzer := new_analyzer "octo-org" "hello-world" "octocat".

End Demo.

(** * Statement vocabulary *)

(** The six keys of [pr_sizes] are present. *)
Definition has_size_keys (d : gmap string Z) : Prop :=
  forall k, In k ["xs"; "s"; "m"; "l"; "xl"; "xxl"] -> is_Some (d !! k).

(** The size counters add up to the number of opened pull requests. *)
Definition sizes_match (st : Report.stats) : Prop :=
  Py.counter_sum (Report.pr_sizes st)
  = Z.of_nat (length (Report.pull_requests_opened st)).

(** The date test of the review and comment loops lets the record
    through: its stamp is missing or empty, or it parses to a time that
    is not before the window start. *)
Definition passes_date_filter (strptime : string -> option Report.datetime)
    (since : Report.datetime) (stamp : option string) : bool :=
  if Py.truthy stamp then
    match strptime (Py.get_default stamp "") with
    | Some t => since <=? t
    | None => false
    end
  else true.

(** The reading of the review window under which a review is kept only if
    it carries a submission time at or after the window start. *)
Definition retained_only_in_window
    (strptime : string -> option Report.datetime) (since : Report.datetime)
    (reviews : list Report.fetched_review)
    (reviewed : list Report.review_data) : Prop :=
  forall r, In r reviews -> In (Report.make_review_data r) reviewed ->
    exists s t,
      Report.rj_submitted_at (Report.fr_review r) = Some s
      /\ strptime s = Some t /\ since <= t.

(** [sum(l)] for a list of [int]. *)
Definition sum_Z (l : list Z) : Z := foldr Z.add 0 l.

(** The rows of one user, and the merged-PR metric of a row as the summary
    loop reads it. *)
Definition rows_of (u : string) (reports : list TeamIndex.report)
    : list TeamIndex.report :=
  List.filter (fun r => String.eqb (TeamIndex.r_username r) u) reports.

Definition merged_metric (r : TeamIndex.report) : Z :=
  TeamIndex.get_metric_value_summary (TeamIndex.r_metrics r) "PRs Merged".

(** Following the words of the specification: numeric extraction strips
    every character that is not a digit, a sign or a comma. *)
Definition spec_numeric_text (value : string) : string :=
  Py.keep_chars TeamIndex.is_digit_sign_comma value.

(** [int(s)] for a text made of digits, signs and commas: an optional
    sign followed by digits; anything else is a [ValueError] ([None]). *)
Definition py_int (s : string) : option Z :=
  let digits d :=
    if Py.str_truthy d && Py.all_chars Py.is_digit d
    then Some (Py.int_of_digits d) else None in
  match s with
  | String c d =>
      if Ascii.eqb c "-"%char then Z.opp <$> digits d
      else if Ascii.eqb c "+"%char then digits d
      else digits s
  | EmptyString => None
  end.

(** Following the words of the specification for the integer variant:
    the first label containing the wanted text wins, the value is
    stripped as in [spec_numeric_text], and 0 is the default when nothing
    remains. *)
Fixpoint spec_metric_int (metrics : list (string * string))
    (label_pattern : string) : option Z :=
  match metrics with
  | [] => Some 0
  | (key, value) :: rest =>
      if Py.contains label_pattern key then
        if Py.str_truthy (spec_numeric_text value)
        then py_int (spec_numeric_text value) else Some 0
      else spec_metric_int rest label_pattern
  end.

(** Two scraped rows of one user. *)
Definition report_a1 : TeamIndex.report :=
  {| TeamIndex.r_filename := "a-repo-2024-01-01.html";
     TeamIndex.r_date := "2024-01-01"; TeamIndex.r_username := "a";
     TeamIndex.r_repo := "org/repo";
     TeamIndex.r_metrics := [("✅ PRs Merged", "3")] |}.

Definition report_a2 : TeamIndex.report :=
  {| TeamIndex.r_filename := "a-repo-2024-01-08.html";
     TeamIndex.r_date := "2024-01-08"; TeamIndex.r_username := "a";
     TeamIndex.r_repo := "org/repo";
     TeamIndex.r_metrics := [("✅ PRs Merged", "2")] |}.

(** The summary dict [d] agrees with the rows [seen]: a user has an entry
    exactly when they have a row, the entry's total is the sum of the
    merged-PR metrics of their rows and its date is the greatest of their
    dates. *)
Definition summary_agrees (d : list (string * TeamIndex.summary))
    (seen : list TeamIndex.report) : Prop :=
  forall u,
    match Py.dict_get u d with
    | None => ~ In u (map TeamIndex.r_username seen)
    | Some e =>
        In u (map TeamIndex.r_username seen)
        /\ TeamIndex.prs_merged e
           = sum_Z (map merged_metric (rows_of u seen))
        /\ exists dt,
             TeamIndex.date e = Some dt
             /\ In dt (map TeamIndex.r_date (rows_of u seen))
             /\ forall d', In d' (map TeamIndex.r_date (rows_of u seen)) ->
                  String.leb d' dt = true
    end.

(** Characters of the names of users and repositories on the hosting
    service: letters, digits, hyphen, underscore and dot. *)
Definition name_char (c : ascii) : bool :=
  let n := N_of_ascii c in
  ((48 <=? n) && (n <=? 57) || (65 <=? n) && (n <=? 90)
   || (97 <=? n) && (n <=? 122) || (n =? 45) || (n =? 95) || (n =? 46))%N.

Definition valid_name (s : string) : bool :=
  Py.str_truthy s && Py.all_chars name_char s.

(** Characters that would change how the tokenizer cuts the rendered
    text: the angle brackets, the double quote and the ampersand. *)
Definition markup_char (c : ascii) : bool :=
  let n := N_of_ascii c in ((n =? 60) || (n =? 62) || (n =? 34) || (n =? 38))%N.

Definition plain (s : string) : bool :=
  Py.all_chars (fun c => negb (markup_char c)) s.

(** The texts of a statistics object that the renderer writes into the
    document carry no markup: on such statistics the events of
    [_generate_html_report] are those of the tokenizer. *)
Definition plain_stats (st : Report.stats) : bool :=
  forallb (fun pr => plain (Report.pd_title pr) && plain (Report.pd_url pr)
                     && plain (Report.pd_size pr))
          (Report.pull_requests_opened st)
  && forallb (fun i => plain (Report.cd_title i) && plain (Report.cd_url i))
             (Report.issues_closed st)
  && forallb (fun r => plain (Report.rd_pr_title r)
                       && plain (Report.rd_pr_url r)
                       && plain (Report.rd_state r))
             (Report.pull_requests_reviewed st)
  && forallb (fun i => plain (Report.id_title i) && plain (Report.id_url i))
             (Report.issues_opened st)
  && forallb (fun c => plain (Report.md_issue_title c)
                       && plain (Report.md_issue_url c)
                       && plain (Report.md_body c))
             (Report.issue_comments st)
  && forallb (fun c => plain (Report.td_sha c) && plain (Report.td_message c)
                       && plain (Report.td_url c))
             (Report.commits_authored st).

(** A parser between two elements: the five flags are down, the two
    markers and the metrics are as given. *)
Definition parser_state (card label value : bool) (cur : option string)
    (m : list (string * string)) (u o n : option string)
    : TeamIndex.parser :=
  {| TeamIndex.in_repo_div := false; TeamIndex.in_username_div := false;
     TeamIndex.in_metric_card := card; TeamIndex.in_metric_label := label;
     TeamIndex.in_metric_value := value; TeamIndex.current_label := cur;
     TeamIndex.metrics := m; TeamIndex.username := u;
     TeamIndex.repo_owner := o; TeamIndex.repo_name := n |}.

Definition settled (m : list (string * string)) (u o n : option string)
    : TeamIndex.parser :=
  parser_state false false false None m u o n.

(** Events that leave a settled parser as it is: everything but the
    opening of a [div] of class repo, username or metric-card. *)
Definition inert (e : Py.html_event) : bool :=
  match e with
  | Py.StartTag tag attrs =>
      negb (String.eqb tag "div"
            && (TeamIndex.class_is (Py.dict_of_pairs attrs) "repo"
                || TeamIndex.class_is (Py.dict_of_pairs attrs) "username"
                || TeamIndex.class_is (Py.dict_of_pairs attrs) "metric-card"))
  | _ => true
  end.

(** A text that [strip] leaves as it is and that is not empty. *)
Definition clean (s : string) : Prop :=
  Py.strip s = s /\ Py.str_truthy s = true.

(** The analyzer whose user name was typed with a leading at sign. *)
Definition at_octocat : Report.analyzer :=
  Report.new_analyzer "octo-org" "hello-world" "@octocat".

(** The sample analyzer after its run against the healthy API. *)
Definition octocat_after_run : Report.analyzer :=
  match Report.analyze_activity Demo.strptime_utc Demo.octo_api Demo.octocat
          7 (Some Demo.window_end) 0 with
  | Py.Ok self => self
  | Py.Raise _ => Demo.octocat
  end.

(** The statistics for which [_generate_html_report] raises nothing: the
    six size counters exist and every time stamp the document prints
    parses; the commits after the fifteenth are not printed. *)
Definition renderable (strptime : string -> option Report.datetime)
    (st : Report.stats) : Prop :=
  has_size_keys (Report.pr_sizes st)
  /\ (forall pr, In pr (Report.pull_requests_opened st) ->
        is_Some (strptime (Report.pd_created_at pr)))
  /\ (forall i, In i (Report.issues_closed st) ->
        Py.truthy (Report.cd_closed_at i) = true ->
        is_Some (strptime (Py.get_default (Report.cd_closed_at i) "")))
  /\ (forall r, In r (Report.pull_requests_reviewed st) ->
        Py.truthy (Report.rd_submitted_at r) = true ->
        is_Some (strptime (Py.get_default (Report.rd_submitted_at r) "")))
  /\ (forall i, In i (Report.issues_opened st) ->
        is_Some (strptime (Report.id_created_at i)))
  /\ (forall c, In c (Report.issue_comments st) ->
        exists s, Report.md_created_at c = Some s /\ is_Some (strptime s))
  /\ (forall c, In c (firstn 15 (Report.commits_authored st)) ->
        is_Some (strptime (Report.td_date c))).

(** ** The table of the index page *)

Module IndexPage.
Import Py TeamIndex.

(** [len(set(r['username'] for r in reports))] and the same for the
    repositories. *)
Definition unique_users (reports : list report) : nat :=
  size (list_to_set (map r_username reports) : gset string).

Definition unique_repos (reports : list report) : nat :=
  size (list_to_set (map r_repo reports) : gset string).

(** [a or b] on two [str]. *)
Definition str_or (a b : string) : string :=
  if str_truthy a then a else b.

(** The cells of one row of the table "All Reports". *)
Record detail_row : Type := DetailRow {
  dr_date : string;
  dr_filename : string;
  dr_username : string;
  dr_repo : string;
  dr_prs_merged : string;
  dr_reviews : string;
  dr_issues_opened : string;
  dr_issues_closed : string;
  dr_comments : string;
  dr_commits : string;
  dr_lines_added : string;
  dr_lines_deleted : string
}.

(** One round of [for report in sorted_reports]. *)
Definition detail_row_of (report : report) : detail_row :=
  let get_metric_value := get_metric_value_row (r_metrics report) in
  {| dr_date := r_date report;
     dr_filename := r_filename report;
     dr_username := r_username report;
     dr_repo := r_repo report;
     dr_prs_merged := get_metric_value "PRs Merged";
     dr_reviews := get_metric_value "Reviews Given";
     dr_issues_opened := get_metric_value "Issues Opened";
     dr_issues_closed := get_metric_value "Issues Closed";
     dr_comments :=
       str_or (get_metric_value "Issue Comments")
              (get_metric_value "Comments");
     dr_commits := get_metric_value "Commits";
     dr_lines_added := get_metric_value "Lines Added";
     dr_lines_deleted := get_metric_value "Lines Deleted" |}.

(** The key order of [sorted(reports, key=lambda r: r['username'].lower())]. *)
Definition by_username_lower (y x : report) : bool :=
  String.ltb (lower (r_username y)) (lower (r_username x)).

(** The part of [generate_index_html] that computes the rows of the table
    "All Reports". *)
Definition detail_rows (reports : list report) : list detail_row :=
  let reports := sort_by newer_first reports in
  let sorted_reports := sort_by by_username_lower reports in
  map detail_row_of sorted_reports.

(** The pattern [\d{4}-\d{2}-\d{2}] at the start of [s]. *)
Definition date_at (s : string) : option string :=
  match s with
  | String y1 (String y2 (String y3 (String y4 (String h1
      (String m1 (String m2 (String h2 (String d1 (String d2 _))))))))) =>
      if is_digit y1 && is_digit y2 && is_digit y3 && is_digit y4
         && Ascii.eqb h1 "-"%char && is_digit m1 && is_digit m2
         && Ascii.eqb h2 "-"%char && is_digit d1 && is_digit d2
      then Some (String y1 (String y2 (String y3 (String y4 (String h1
                  (String m1 (String m2 (String h2 (String d1
                     (String d2 EmptyString))))))))))
      else None
  | _ => None
  end.

(** [re.search(r'(\d{4}-\d{2}-\d{2})', filename)]: the match that starts
    first. *)
Fixpoint find_date (filename : string) : option string :=
  match date_at filename with
  | Some d => Some d
  | None =>
      match filename with
      | EmptyString => None
      | String _ rest => find_date rest
      end
  end.

(** The date of a report: the one in the stem of its file name, else the
    day [mtime_date] of the last modification of the file. *)
Definition report_date_of (stem mtime_date : string) : string :=
  get_default (find_date stem) mtime_date.

(** A file of [reports/team] that [glob('*.html')] finds: its name, its
    stem, the day of its last modification and the calls the tokenizer
    makes on its content. *)
Record html_file : Type := HtmlFile {
  f_name : string;
  f_stem : string;
  f_mtime_date : string;
  f_content : list html_event
}.

(** [parse_report_file(html_file)]. *)
Definition parse_file (html_file : html_file) : option report :=
  parse_report_file (f_name html_file)
    (report_date_of (f_stem html_file) (f_mtime_date html_file))
    (f_content html_file).

(** [main], up to its call of [generate_index_html]: the reports that
    call receives, or [None] when [main] returns without making it. *)
Definition main (team_dir : list html_file) : option (list report) :=
  let html_files :=
    List.filter (fun f => negb (String.eqb (f_name f) "index.html"))
      team_dir in
  match html_files with
  | [] => None
  | _ =>
      let reports :=
        fold_left
          (fun reports html_file =>
             match parse_file html_file with
             | Some report_data => reports ++ [report_data]
             | None => reports
             end)
          html_files [] in
      match reports with
      | [] => None
      | _ => Some reports
      end
  end.

End IndexPage.

(** ** Start-up of the report generator *)

Module Cli.
Import Py.

(** [(base_url or "").rstrip("/") or "https://api.github.com"] of
    [GitHubRepoUserAnalyzer.__init__]. *)
Definition resolve_base_url (base_url : option string) : string :=
  let stripped :=
    rstrip_with (Ascii.eqb "/"%char) (get_default base_url "") in
  if str_truthy stripped then stripped else "https://api.github.com".

(** [a or b] on two optional [str]. *)
Definition opt_or (a b : option string) : option string :=
  if truthy a then a else b.

(** The environment variables [main] reads. *)
Record environ : Type := Environ {
  GITHUB_API_URL : option string;
  GITHUB_TOKEN : option string;
  GITHUB_ENTERPRISE_TOKEN : option string
}.

(** The API URL and the token [main] passes to the analyzer. *)
Definition resolve_api_url (arg_api_url : option string) (env : environ)
    : option string :=
  opt_or arg_api_url (GITHUB_API_URL env).

Definition resolve_token (arg_token arg_api_url : option string)
    (env : environ) : option string :=
  let api_url := resolve_api_url arg_api_url env in
  let token := arg_token in
  if negb (truthy token) then
    if truthy api_url then
      opt_or (GITHUB_ENTERPRISE_TOKEN env) (GITHUB_TOKEN env)
    else GITHUB_TOKEN env
  else token.

(** The host the requests go to and whether they carry the header
    [Authorization]. *)
Definition request_base_url (arg_api_url : option string) (env : environ)
    : string :=
  resolve_base_url (resolve_api_url arg_api_url env).

Definition authorization (arg_token arg_api_url : option string)
    (env : environ) : option string :=
  let github_token := resolve_token arg_token arg_api_url env in
  if truthy github_token
  then Some ("Bearer " +:+ get_default github_token "")
  else None.

End Cli.

(** The order of the rows of the table "All Reports": by user name in
    lower case and, for one such name, from the newest date to the
    oldest. *)
Definition row_order (a b : IndexPage.detail_row) : Prop :=
  String.leb (Py.lower (IndexPage.dr_username a))
             (Py.lower (IndexPage.dr_username b)) = true
  /\ (Py.lower (IndexPage.dr_username a)
      = Py.lower (IndexPage.dr_username b) ->
      String.leb (IndexPage.dr_date b) (IndexPage.dr_date a) = true).

(** A text of the shape dddd-dd-dd. *)
Definition date_shaped (d : string) : Prop :=
  IndexPage.date_at d = Some d /\ String.length d = 10%nat.

(** The opening of a [div] of the given class. *)
Definition opens (c : string) (e : Py.html_event) : bool :=
  match e with
  | Py.StartTag tag attrs =>
      String.eqb tag "div" && TeamIndex.class_is (Py.dict_of_pairs attrs) c
  | _ => false
  end.

(** What holds of the parser after any calls: a scraped user name does
    not start with an at sign, owner and name of the repository are set
    together and have no slash, and no label or value of a metric is
    empty. *)
Definition no_slash (s : string) : bool :=
  Py.all_chars (fun c => negb (Ascii.eqb c "/"%char)) s.

Definition scraped_ok (p : TeamIndex.parser) : Prop :=
  match TeamIndex.username p with
  | None => True
  | Some u => Py.startswith "@" u = false
  end
  /\ match TeamIndex.repo_owner p, TeamIndex.repo_name p with
     | None, None => True
     | Some o, Some n => no_slash o = true /\ no_slash n = true
     | _, _ => False
     end
  /\ Forall (fun kv => Py.str_truthy (fst kv) = true
                       /\ Py.str_truthy (snd kv) = true)
       (TeamIndex.metrics p).

Definition is_slash (c : ascii) : bool := Ascii.eqb "/"%char c.

(** The environment with another value of GITHUB_ENTERPRISE_TOKEN. *)
Definition with_enterprise_token (env : Cli.environ) (t : option string)
    : Cli.environ :=
  {| Cli.GITHUB_API_URL := Cli.GITHUB_API_URL env;
     Cli.GITHUB_TOKEN := Cli.GITHUB_TOKEN env;
     Cli.GITHUB_ENTERPRISE_TOKEN := t |}.

(** ** The text rendering of the report *)

Module TextReport.
Import Py Report.

(** [c * n] for a one-character [str]. *)
Fixpoint repeat_char (c : ascii) (n : nat) : string :=
  match n with
  | O => EmptyString
  | S n' => String c (repeat_char c n')
  end.

(** ["\n".join(report)]. *)
Fixpoint join_lines (report : list string) : string :=
  match report with
  | [] => EmptyString
  | [line] => line
  | line :: rest => line +:+ String "010"%char (join_lines rest)
  end.

Section Lines.

(** [d.strftime(fmt)]. *)
Variable strftime : string -> datetime -> string.

Definition header_lines (self : analyzer) (days : Z) (now : datetime)
    : list string :=
  [repeat_char "=" 80;
   "Repository Activity Report";
   "Repository: " +:+ owner self +:+ "/" +:+ repo self;
   "User: @" +:+ username self;
   match since_date self, end_date self with
   | Some s, Some e =>
       "Period: " +:+ strftime "%Y-%m-%d" s +:+ " to "
       +:+ strftime "%Y-%m-%d" e +:+ " (" +:+ str_of_int days +:+ " days)"
   | _, _ => "Period: Last " +:+ str_of_int days +:+ " days"
   end;
   "Generated: " +:+ strftime "%Y-%m-%d %H:%M:%S" now;
   repeat_char "=" 80;
   ""].

Definition summary_lines (st : stats) : list string :=
  let total_merged := length (pull_requests_merged st) in
  let unique_prs :=
    get_default (unique_prs_reviewed st)
      (Z.of_nat (count_distinct
                   (map rd_pr_number (pull_requests_reviewed st)))) in
  let unique_issues :=
    count_distinct (map md_issue_number (issue_comments st)) in
  ["📊 SUMMARY STATISTICS";
   repeat_char "-" 80;
   "Pull Requests Merged:     " +:+ str_of_len total_merged;
   "Reviews Given:            "
   +:+ str_of_int (get_default (total_reviews_given st)
                     (Z.of_nat (length (pull_requests_reviewed st))));
   "Unique PRs Reviewed:      " +:+ str_of_int unique_prs;
   "Issues Opened:            " +:+ str_of_len (length (issues_opened st));
   "Issues Closed:            " +:+ str_of_len (length (issues_closed st));
   "Issue Comments:           " +:+ str_of_len (length (issue_comments st));
   "Unique Issues Commented:  " +:+ str_of_len unique_issues;
   "Commits in PRs:           "
   +:+ str_of_int (get_default (total_commits_in_prs st) 0);
   "Direct Commits:           " +:+ str_of_len (length (commits_authored st));
   "Total Lines Added:        +" +:+ str_of_int (total_additions st);
   "Total Lines Deleted:      -" +:+ str_of_int (total_deletions st);
   "Total Files Changed:      " +:+ str_of_int (total_files_changed st);
   ""].

(** [self.stats['pr_sizes'][k]]. *)
Definition size_of (k : string) (st : stats) : result Z :=
  match pr_sizes st !! k with
  | Some v => Ok v
  | None => Raise (KeyError k)
  end.

Definition size_lines (st : stats) : result (list string) :=
  do xs <- size_of "xs" st;
  do s <- size_of "s" st;
  do m <- size_of "m" st;
  do l <- size_of "l" st;
  do xl <- size_of "xl" st;
  do xxl <- size_of "xxl" st;
  Ok ["📏 PULL REQUEST SIZE DISTRIBUTION";
      repeat_char "-" 80;
      "XS  (< 10 changes):       " +:+ str_of_int xs;
      "S   (10-29 changes):      " +:+ str_of_int s;
      "M   (30-99 changes):      " +:+ str_of_int m;
      "L   (100-499 changes):    " +:+ str_of_int l;
      "XL  (500-999 changes):    " +:+ str_of_int xl;
      "XXL (≥ 1000 changes):     " +:+ str_of_int xxl;
      ""].

Definition pr_lines (pr : pr_data) : list string :=
  let status :=
    if truthy (pd_merged_at pr) then "✅ Merged"
    else if String.eqb (pd_state pr) "closed" then "❌ Closed"
    else "🔄 Open" in
  let size := upper (pd_size pr) in
  ["  " +:+ status +:+ " [" +:+ size +:+ "] #" +:+ str_of_int (pd_number pr)
   +:+ ": " +:+ pd_title pr;
   "    URL: " +:+ pd_url pr;
   "    Stats: +" +:+ str_of_int (pd_additions pr) +:+ " -"
   +:+ str_of_int (pd_deletions pr) +:+ " lines ("
   +:+ str_of_int (pd_total_changes pr) +:+ " total changes), "
   +:+ str_of_int (pd_changed_files pr) +:+ " files, "
   +:+ str_of_int (pd_commits pr) +:+ " commits";
   "    Created: " +:+ pd_created_at pr]
  ++ (if truthy (pd_merged_at pr)
      then ["    Merged: " +:+ get_default (pd_merged_at pr) ""]
      else [])
  ++ [""].

Definition review_lines (review : review_data) : list string :=
  ["  • " +:+ upper (rd_state review) +:+ " on #"
   +:+ str_of_int (rd_pr_number review) +:+ ": " +:+ rd_pr_title review;
   "    URL: " +:+ rd_pr_url review;
   "    Submitted: "
   +:+ (if truthy (rd_submitted_at review)
        then get_default (rd_submitted_at review) ""
        else "Unknown");
   ""].

Definition issue_lines (issue : issue_data) : list string :=
  let status :=
    if String.eqb (id_state issue) "open" then "🔓 Open" else "✅ Closed" in
  ["  " +:+ status +:+ " #" +:+ str_of_int (id_number issue) +:+ ": "
   +:+ id_title issue;
   "    URL: " +:+ id_url issue;
   "    Created: " +:+ id_created_at issue;
   "    Comments: " +:+ str_of_int (id_comments_count issue)]
  ++ (if truthy (id_closed_at issue)
      then ["    Closed: " +:+ get_default (id_closed_at issue) ""]
      else [])
  ++ [""].

Definition closed_issue_lines (issue : closed_issue_data) : list string :=
  ["  ✅ #" +:+ str_of_int (cd_number issue) +:+ ": " +:+ cd_title issue;
   "    URL: " +:+ cd_url issue]
  ++ (if truthy (cd_closed_at issue)
      then ["    Closed: " +:+ get_default (cd_closed_at issue) ""]
      else [])
  ++ ["    Comments: " +:+ str_of_int (cd_comments_count issue);
      ""].

(** A comment without [created_at] is printed with the text None. *)
Definition comment_lines (comment : comment_data) : list string :=
  let status :=
    if String.eqb (md_issue_state comment) "open" then "🔓 Open"
    else "✅ Closed" in
  ["  • " +:+ status +:+ " #" +:+ str_of_int (md_issue_number comment)
   +:+ ": " +:+ md_issue_title comment;
   "    URL: " +:+ md_issue_url comment;
   "    Commented: " +:+ get_default (md_created_at comment) "None";
   "    Preview: " +:+ take_str 100 (md_body comment) +:+ "...";
   ""].

Definition commit_lines (commit : commit_data) : list string :=
  ["  • " +:+ td_sha commit +:+ ": " +:+ td_message commit;
   "    " +:+ td_date commit].

(** One optional section: nothing for an empty list. *)
Definition section_lines {A : Type} (l : list A) (title : string)
    (item : A -> list string) : list string :=
  match l with
  | [] => []
  | _ => [title; repeat_char "-" 80] ++ flat_map item l
  end.

Definition commits_lines (st : stats) : list string :=
  match commits_authored st with
  | [] => []
  | commits =>
      ["💾 DIRECT COMMITS (" +:+ str_of_len (length commits) +:+ ")";
       repeat_char "-" 80;
       "Note: These are direct commits. Commits in PRs are shown above.";
       ""]
      ++ flat_map commit_lines (firstn 10 commits)
      ++ (if (10 <? length commits)%nat
          then ["  ... and " +:+ str_of_len (length commits - 10)
                +:+ " more"]
          else [])
      ++ [""]
  end.

(** The list [report] at the end of [_generate_text_report]. *)
Definition report_lines (self : analyzer) (days : Z) (now : datetime)
    : result (list string) :=
  let st := self_stats self in
  do sizes <- size_lines st;
  Ok (header_lines self days now
      ++ summary_lines st
      ++ sizes
      ++ section_lines (pull_requests_opened st)
           ("🔀 PULL REQUESTS OPENED ("
            +:+ str_of_len (length (pull_requests_opened st)) +:+ ")")
           pr_lines
      ++ section_lines (pull_requests_reviewed st)
           ("👀 PULL REQUESTS REVIEWED ("
            +:+ str_of_len (length (pull_requests_reviewed st))
            +:+ " reviews on "
            +:+ str_of_len
                  (count_distinct
                     (map rd_pr_number (pull_requests_reviewed st)))
            +:+ " PRs)")
           review_lines
      ++ section_lines (issues_opened st)
           ("🐛 ISSUES OPENED ("
            +:+ str_of_len (length (issues_opened st)) +:+ ")")
           issue_lines
      ++ section_lines (issues_closed st)
           ("✅ ISSUES CLOSED BY USER ("
            +:+ str_of_len (length (issues_closed st)) +:+ ")")
           closed_issue_lines
      ++ section_lines (issue_comments st)
           ("💬 ISSUE COMMENTS ("
            +:+ str_of_len (length (issue_comments st)) +:+ " comments on "
            +:+ str_of_len
                  (count_distinct
                     (map md_issue_number (issue_comments st)))
            +:+ " issues)")
           comment_lines
      ++ commits_lines st).

(** [_generate_text_report]. *)
Definition _generate_text_report (self : analyzer) (days : Z)
    (now : datetime) : result string :=
  do report <- report_lines self days now;
  Ok (join_lines report).

End Lines.

End TextReport.

(** * Properties *)

(** ** Facts about the Python primitives *)

Lemma bind_Ok_inv {A B : Type} (m : Py.result A) (k : A -> Py.result B)
    (b : B) :
  Py.bind m k = Py.Ok b -> exists a, m = Py.Ok a /\ k a = Py.Ok b.
Proof. destruct m as [a|e]; simpl; [eauto | discriminate]. Qed.

Lemma Ok_inj {A : Type} (a b : A) : Py.Ok a = Py.Ok b -> a = b.
Proof. intros [= H]. exact H. Qed.

Lemma for_each_app {A S : Type} (body : S -> A -> Py.result S)
    (l1 l2 : list A) (acc : S) :
  Py.for_each body (l1 ++ l2) acc
  = Py.bind (Py.for_each body l1 acc) (Py.for_each body l2).
Proof.
  revert acc. induction l1 as [|x l1 IH]; intros acc; simpl; [reflexivity|].
  destruct (body acc x) as [acc'|e]; simpl; [apply IH | reflexivity].
Qed.

Lemma counter_sum_incr (k : string) (d d' : gmap string Z) :
  Py.counter_incr k d = Py.Ok d' -> Py.counter_sum d' = Py.counter_sum d + 1.
Proof.
  unfold Py.counter_incr, Py.counter_sum.
  destruct (d !! k) as [v|] eqn:Hk; [|discriminate].
  intros [= <-].
  rewrite <- (insert_delete_eq d k (v + 1)).
  rewrite map_fold_insert_L.
  - rewrite (map_fold_delete_L _ 0 k v d); [lia | intros; lia | exact Hk].
  - intros; lia.
  - apply lookup_delete_eq.
Qed.

Lemma counter_incr_defined (k : string) (d : gmap string Z) :
  is_Some (d !! k) ->
  exists d', Py.counter_incr k d = Py.Ok d'
             /\ forall k', is_Some (d !! k') -> is_Some (d' !! k').
Proof.
  intros [v Hv]. unfold Py.counter_incr. rewrite Hv.
  eexists; split; [reflexivity|].
  intros k' Hk'. apply lookup_insert_is_Some.
  destruct (decide (k = k')); [left | right]; done.
Qed.

(** ** The size classification *)

Lemma get_pr_size_cases (changes : Z) :
  In (Report._get_pr_size changes) ["xs"; "s"; "m"; "l"; "xl"; "xxl"].
Proof.
  unfold Report._get_pr_size.
  repeat (match goal with |- context [?a <? ?b] => destruct (a <? b) end);
    simpl; tauto.
Qed.

Lemma init_pr_sizes_keys : has_size_keys Report.init_pr_sizes.
Proof.
  intros k Hk. simpl in Hk.
  destruct Hk as [<-|[<-|[<-|[<-|[<-|[<-|[]]]]]]];
    exists 0; vm_compute; reflexivity.
Qed.

(** C1: for every total_changes >= 0 the size class is one of the six
    values, each value is returned exactly on its interval (below 10 xs,
    below 30 s, below 100 m, below 500 l, below 1000 xl, otherwise xxl),
    so the six intervals cover the non-negative integers without gap or
    overlap; the boundary values 9, 10, 29, 30, 999 and 1000 fall as the
    specification lists them. *)
Theorem get_pr_size_partition (total_changes : Z) :
  0 <= total_changes ->
  In (Report._get_pr_size total_changes) ["xs"; "s"; "m"; "l"; "xl"; "xxl"]
  /\ (Report._get_pr_size total_changes = "xs" <-> total_changes < 10)
  /\ (Report._get_pr_size total_changes = "s" <-> 10 <= total_changes < 30)
  /\ (Report._get_pr_size total_changes = "m" <-> 30 <= total_changes < 100)
  /\ (Report._get_pr_size total_changes = "l" <-> 100 <= total_changes < 500)
  /\ (Report._get_pr_size total_changes = "xl"
      <-> 500 <= total_changes < 1000)
  /\ (Report._get_pr_size total_changes = "xxl" <-> 1000 <= total_changes)
  /\ Report._get_pr_size 9 = "xs" /\ Report._get_pr_size 10 = "s"
  /\ Report._get_pr_size 29 = "s" /\ Report._get_pr_size 30 = "m"
  /\ Report._get_pr_size 999 = "xl" /\ Report._get_pr_size 1000 = "xxl".
Proof.
  intros Hpos. split; [apply get_pr_size_cases|].
  unfold Report._get_pr_size.
  repeat split; try reflexivity; intros;
    repeat (match goal with
            | H : context [?a <? ?b] |- _ => destruct (Z.ltb_spec a b)
            | |- context [?a <? ?b] => destruct (Z.ltb_spec a b)
            end);
    try lia; try discriminate; try reflexivity.
Qed.

Lemma get_pr_size_partition_witness :
  0 <= 42
  /\ (Report._get_pr_size 42 = "m" <-> 30 <= 42 < 100).
Proof.
  split; [lia|].
  apply (get_pr_size_partition 42); lia.
Defined.

(** ** The pull-request loop *)

Section PullRequests.
Import Py Report.

Lemma set_pr_fields_id (st : stats) :
  set_pr_fields st (pull_requests_opened st) (pull_requests_merged st)
    (pull_requests_closed st) (total_additions st) (total_deletions st)
    (total_files_changed st) (pr_sizes st) = st.
Proof. destruct st; reflexivity. Qed.

Lemma analyze_pr_Ok (st : stats) (c : Z) (pr : pull_json) :
  has_size_keys (pr_sizes st) ->
  exists adds dels files sizes c',
    analyze_pr (st, c) pr
    = Ok (set_pr_fields st
            (pull_requests_opened st ++ [make_pr_data pr])
            (pull_requests_merged st
             ++ map make_pr_data
                  (List.filter (fun p => truthy (pj_merged_at p)) [pr]))
            (pull_requests_closed st
             ++ map make_pr_data
                  (List.filter
                     (fun p => negb (truthy (pj_merged_at p))
                               && String.eqb (pj_state p) "closed") [pr]))
            adds dels files sizes, c')
    /\ counter_sum sizes = counter_sum (pr_sizes st) + 1
    /\ has_size_keys sizes.
Proof.
  intros Hkeys. unfold analyze_pr. cbn [fst snd].
  destruct (counter_incr_defined (pd_size (make_pr_data pr)) (pr_sizes st))
    as (sizes & Hincr & Hkeep).
  { apply Hkeys. apply get_pr_size_cases. }
  rewrite Hincr. cbn [bind].
  do 3 eexists. exists sizes. eexists. split; [|split].
  - cbn [List.filter map].
    destruct (truthy (pj_merged_at pr)); cbn [negb andb map];
      [|destruct (String.eqb (pj_state pr) "closed"); cbn [map]];
      rewrite ?app_nil_r; reflexivity.
  - apply counter_sum_incr in Hincr. exact Hincr.
  - intros k Hk. apply Hkeep, Hkeys, Hk.
Qed.

Lemma analyze_pr_loop (prs : list pull_json) :
  forall (st : stats) (c : Z),
    has_size_keys (pr_sizes st) ->
    exists adds dels files sizes c',
      for_each analyze_pr prs (st, c)
      = Ok (set_pr_fields st
              (pull_requests_opened st ++ map make_pr_data prs)
              (pull_requests_merged st
               ++ map make_pr_data
                    (List.filter (fun p => truthy (pj_merged_at p)) prs))
              (pull_requests_closed st
               ++ map make_pr_data
                    (List.filter
                       (fun p => negb (truthy (pj_merged_at p))
                                 && String.eqb (pj_state p) "closed") prs))
              adds dels files sizes, c')
      /\ counter_sum sizes
         = counter_sum (pr_sizes st) + Z.of_nat (length prs)
      /\ has_size_keys sizes.
Proof.
  induction prs as [|pr prs IH]; intros st c Hkeys.
  - exists (total_additions st), (total_deletions st),
      (total_files_changed st), (pr_sizes st), c.
    cbn [for_each map List.filter length]. rewrite !app_nil_r.
    rewrite set_pr_fields_id. split; [reflexivity|]. split; [lia | exact Hkeys].
  - destruct (analyze_pr_Ok st c pr Hkeys)
      as (adds & dels & files & sizes & c1 & Hstep & Hsum & Hkeys1).
    cbn [for_each]. rewrite Hstep. cbn [bind].
    match goal with
    | |- context [for_each analyze_pr prs (?st1, c1)] =>
        destruct (IH st1 c1 Hkeys1)
          as (adds' & dels' & files' & sizes' & c' & Hloop & Hsum' & Hkeys')
    end.
    exists adds', dels', files', sizes', c'. split; [|split].
    + rewrite Hloop. f_equal. f_equal.
      change (map make_pr_data (pr :: prs))
        with ([make_pr_data pr] ++ map make_pr_data prs).
      change (List.filter ?f (pr :: prs))
        with (List.filter f ([pr] ++ prs)).
      rewrite !List.filter_app, !map_app, !app_assoc. reflexivity.
    + rewrite Hsum'. cbn [pr_sizes set_pr_fields]. rewrite Hsum.
      cbn [length]. lia.
    + exact Hkeys'.
Qed.

End PullRequests.

Section PullRequestPart.
Import Py Report.

Lemma analyze_prs_Ok (st : stats) (prs : list pull_json) :
  has_size_keys (pr_sizes st) ->
  exists adds dels files sizes c',
    analyze_prs st prs
    = Ok (set_total_commits_in_prs
            (set_pr_fields st
               (pull_requests_opened st ++ map make_pr_data prs)
               (pull_requests_merged st
                ++ map make_pr_data
                     (List.filter (fun p => truthy (pj_merged_at p)) prs))
               (pull_requests_closed st
                ++ map make_pr_data
                     (List.filter
                        (fun p => negb (truthy (pj_merged_at p))
                                  && String.eqb (pj_state p) "closed") prs))
               adds dels files sizes)
            (Some c'))
    /\ counter_sum sizes = counter_sum (pr_sizes st) + Z.of_nat (length prs)
    /\ has_size_keys sizes.
Proof.
  intros Hkeys.
  destruct (analyze_pr_loop prs st 0 Hkeys)
    as (adds & dels & files & sizes & c' & Hloop & Hsum & Hkeys').
  exists adds, dels, files, sizes, c'.
  unfold analyze_prs. rewrite Hloop. cbn [bind fst snd]. auto.
Qed.

End PullRequestPart.

(** ** One run of [analyze_activity] *)

Section Run.
Import Py Report.

Variable strptime : string -> option datetime.
Variable api : github_api.

(** The statistics at the end of a run, from the results of its parts. *)
Lemma analyze_activity_Ok_inv (self self' : analyzer) (days : Z)
    (end_date_arg : option datetime) (now : datetime) :
  analyze_activity strptime api self days end_date_arg now = Ok self' ->
  let since := get_default end_date_arg now - timedelta_days days in
  let self0 := set_dates self (get_default end_date_arg now) since in
  exists st1 st2 closed kept,
    analyze_prs (self_stats self) (fetch_user_prs api self0 since) = Ok st1
    /\ analyze_reviews strptime since st1
         (fetch_user_reviews api self0 since) = Ok st2
    /\ fetch_user_closed_issues strptime api self0 since = Ok closed
    /\ for_each (analyze_comment strptime since)
         (fetch_user_issue_comments api self0 since) (issue_comments st2)
       = Ok kept
    /\ self'
       = set_stats self0
           (set_commits_authored
              (set_issue_comments
                 (set_issues_closed
                    (set_issues_opened st2
                       (issues_opened st2
                        ++ map make_issue_data
                             (fetch_user_issues api self0 since)))
                    (issues_closed st2 ++ map make_closed_issue_data closed))
                 kept)
              (commits_authored st2
               ++ map make_commit_data (fetch_user_commits api self0 since))).
Proof.
  unfold analyze_activity. cbn zeta. intros H.
  destruct (representable _); cbn [negb] in H; [|discriminate].
  apply bind_Ok_inv in H as (st1 & H1 & H).
  apply bind_Ok_inv in H as (st2 & H2 & H).
  apply bind_Ok_inv in H as (closed & H3 & H).
  apply bind_Ok_inv in H as (kept & H4 & H).
  injection H as <-.
  exists st1, st2, closed, kept. auto.
Qed.

(** A run that completes has a window start that is a [datetime]. *)
Lemma analyze_activity_Ok_representable (self self' : analyzer) (days : Z)
    (end_date_arg : option datetime) (now : datetime) :
  analyze_activity strptime api self days end_date_arg now = Ok self' ->
  representable (get_default end_date_arg now - timedelta_days days) = true.
Proof.
  unfold analyze_activity. cbn zeta.
  destruct (representable _); [reflexivity | discriminate].
Qed.


Lemma analyze_reviews_Ok_inv (since : datetime) (st st' : stats)
    (reviews : list fetched_review) :
  analyze_reviews strptime since st reviews = Ok st' ->
  exists reviewed,
    for_each (analyze_review strptime since) reviews
      (pull_requests_reviewed st) = Ok reviewed
    /\ st' = set_review_totals (set_pull_requests_reviewed st reviewed)
               (Some (Z.of_nat (length reviewed)))
               (Some (Z.of_nat (count_distinct (map rd_pr_number reviewed)))).
Proof.
  unfold analyze_reviews. intros H.
  apply bind_Ok_inv in H as (reviewed & H1 & H). injection H as <-.
  exists reviewed. auto.
Qed.

End Run.

Section PullRequestRun.
Import Py Report.

Lemma pr_lists (prs : list pull_json) :
  exists st : stats,
    analyze_prs init_stats prs = Ok st
    /\ pull_requests_opened st = map make_pr_data prs
    /\ pull_requests_merged st
       = map make_pr_data
           (List.filter (fun p => truthy (pj_merged_at p)) prs)
    /\ pull_requests_closed st
       = map make_pr_data
           (List.filter
              (fun p => negb (truthy (pj_merged_at p))
                        && String.eqb (pj_state p) "closed") prs)
    /\ (forall pr, In pr prs ->
          In (make_pr_data pr) (pull_requests_opened st)
          /\ (In (make_pr_data pr) (pull_requests_merged st)
              <-> truthy (pj_merged_at pr) = true)
          /\ (In (make_pr_data pr) (pull_requests_closed st)
              <-> truthy (pj_merged_at pr) = false
                  /\ pj_state pr = "closed")
          /\ (truthy (pj_merged_at pr) = false -> pj_state pr = "open" ->
              ~ In (make_pr_data pr) (pull_requests_merged st)
              /\ ~ In (make_pr_data pr) (pull_requests_closed st)))
    /\ (forall d, In d (pull_requests_merged st) ->
          ~ In d (pull_requests_closed st)).
Proof.
  destruct (analyze_prs_Ok init_stats prs init_pr_sizes_keys)
    as (adds & dels & files & sizes & c' & Hrun & _ & _).
  eexists. split; [exact Hrun|].
  cbn [pull_requests_opened pull_requests_merged pull_requests_closed
       set_total_commits_in_prs set_pr_fields init_stats app].
  assert (Hmerged : forall pr,
             In (make_pr_data pr)
                (map make_pr_data
                   (List.filter (fun p => truthy (pj_merged_at p)) prs))
             -> truthy (pj_merged_at pr) = true).
  { intros pr Hin. apply in_map_iff in Hin as (p & Heq & Hp).
    apply filter_In in Hp as [_ Hp].
    apply (f_equal pd_merged_at) in Heq. cbn in Heq. congruence. }
  assert (Hclosed : forall pr,
             In (make_pr_data pr)
                (map make_pr_data
                   (List.filter
                      (fun p => negb (truthy (pj_merged_at p))
                                && String.eqb (pj_state p) "closed") prs))
             -> truthy (pj_merged_at pr) = false /\ pj_state pr = "closed").
  { intros pr Hin. apply in_map_iff in Hin as (p & Heq & Hp).
    apply filter_In in Hp as [_ Hp].
    apply andb_true_iff in Hp as [Hm Hs].
    apply negb_true_iff in Hm. apply String.eqb_eq in Hs.
    pose proof (f_equal pd_merged_at Heq) as Em.
    pose proof (f_equal pd_state Heq) as Es. cbn in Em, Es.
    split; congruence. }
  repeat split; try reflexivity.
  - apply in_map. assumption.
  - apply Hmerged.
  - intros Hm. apply in_map, filter_In. auto.
  - apply Hclosed. assumption.
  - apply Hclosed. assumption.
  - intros [Hm Hs]. apply in_map, filter_In. split; [assumption|].
    rewrite Hm, Hs. reflexivity.
  - intros Hin. apply Hmerged in Hin. congruence.
  - intros Hin. apply Hclosed in Hin as [_ Hs]. congruence.
  - intros d Hd Hc.
    apply in_map_iff in Hd as (p & <- & Hp).
    apply Hclosed in Hc as [Hm _].
    apply filter_In in Hp as [_ Hp]. congruence.
Qed.

(** C2: the pull-request loop, run on the statistics of a new analyzer,
    always completes; every fetched pull request is recorded under
    opened; it is recorded under merged exactly when its merged_at field
    holds a time stamp, and under closed exactly when it holds none and
    the state is closed; an open pull request without merge stamp is in
    neither list, and no record is in both the merged and the closed
    list.  The statistics of a completed run of a new analyzer hold these
    three lists for the pull requests that fetch_user_prs returned. *)
Theorem pr_categorization (prs : list pull_json) :
  (exists st : stats,
     analyze_prs init_stats prs = Ok st
     /\ pull_requests_opened st = map make_pr_data prs
     /\ pull_requests_merged st
        = map make_pr_data
            (List.filter (fun p => truthy (pj_merged_at p)) prs)
     /\ pull_requests_closed st
        = map make_pr_data
            (List.filter
               (fun p => negb (truthy (pj_merged_at p))
                         && String.eqb (pj_state p) "closed") prs)
     /\ (forall pr, In pr prs ->
           In (make_pr_data pr) (pull_requests_opened st)
           /\ (In (make_pr_data pr) (pull_requests_merged st)
               <-> truthy (pj_merged_at pr) = true)
           /\ (In (make_pr_data pr) (pull_requests_closed st)
               <-> truthy (pj_merged_at pr) = false
                   /\ pj_state pr = "closed")
           /\ (truthy (pj_merged_at pr) = false -> pj_state pr = "open" ->
               ~ In (make_pr_data pr) (pull_requests_merged st)
               /\ ~ In (make_pr_data pr) (pull_requests_closed st)))
     /\ (forall d, In d (pull_requests_merged st) ->
           ~ In d (pull_requests_closed st)))
  /\ (forall strptime api o r u days end_date_arg now self',
        analyze_activity strptime api (new_analyzer o r u) days end_date_arg
          now = Ok self' ->
        let since := get_default end_date_arg now - timedelta_days days in
        let self0 :=
          set_dates (new_analyzer o r u) (get_default end_date_arg now)
            since in
        prs = fetch_user_prs api self0 since ->
        pull_requests_opened (self_stats self') = map make_pr_data prs
        /\ pull_requests_merged (self_stats self')
           = map make_pr_data
               (List.filter (fun p => truthy (pj_merged_at p)) prs)
        /\ pull_requests_closed (self_stats self')
           = map make_pr_data
               (List.filter
                  (fun p => negb (truthy (pj_merged_at p))
                            && String.eqb (pj_state p) "closed") prs)).
Proof.
  split; [apply pr_lists|].
  intros strptime api o r u days end_date_arg now self' Hrun since self0 ->.
  apply analyze_activity_Ok_inv in Hrun
    as (st1 & st2 & closed & kept & H1 & H2 & _ & _ & ->).
  fold since self0 in H1.
  destruct (analyze_prs_Ok init_stats (fetch_user_prs api self0 since)
              init_pr_sizes_keys)
    as (adds & dels & files & sizes & c' & Hprs & _ & _).
  cbn [self_stats new_analyzer] in H1. rewrite Hprs in H1.
  apply Ok_inj in H1. subst st1.
  apply analyze_reviews_Ok_inv in H2 as (reviewed & _ & ->).
  cbn. auto.
Qed.

Lemma pr_categorization_witness :
  exists self',
    analyze_activity Demo.strptime_utc Demo.octo_api
      (new_analyzer "octo-org" "hello-world" "octocat") 7
      (Some Demo.window_end) 0 = Ok self'
    /\ pull_requests_opened (self_stats self')
       = map make_pr_data
           [Demo.pull_merged; Demo.pull_closed; Demo.pull_open]
    /\ pull_requests_merged (self_stats self')
       = map make_pr_data [Demo.pull_merged]
    /\ pull_requests_closed (self_stats self')
       = map make_pr_data [Demo.pull_closed].
Proof.
  destruct (analyze_activity Demo.strptime_utc Demo.octo_api
              (new_analyzer "octo-org" "hello-world" "octocat") 7
              (Some Demo.window_end) 0) as [self'|e] eqn:Hrun;
    [|vm_compute in Hrun; discriminate Hrun].
  exists self'. split; [reflexivity|].
  apply (proj2 (pr_categorization
                  [Demo.pull_merged; Demo.pull_closed; Demo.pull_open])
           Demo.strptime_utc Demo.octo_api "octo-org" "hello-world" "octocat"
           7 (Some Demo.window_end) 0 self' Hrun).
  vm_compute. reflexivity.
Defined.

End PullRequestRun.

(** ** The size distribution *)

Section SizeDistribution.
Import Py Report.

Lemma counter_incr_lookup (k : string) (d d' : gmap string Z) :
  counter_incr k d = Ok d' ->
  forall k' v, d !! k' = Some v ->
    d' !! k' = Some (if decide (k' = k) then v + 1 else v).
Proof.
  unfold counter_incr. destruct (d !! k) as [v0|] eqn:Hk; [|discriminate].
  intros [= <-] k' v Hv. destruct (decide (k' = k)) as [->|Hne].
  - rewrite lookup_insert_eq. congruence.
  - rewrite lookup_insert_ne by congruence. exact Hv.
Qed.

Lemma analyze_pr_counts (st st' : stats) (c c' : Z) (pr : pull_json) :
  analyze_pr (st, c) pr = Ok (st', c') ->
  counter_sum (pr_sizes st') = counter_sum (pr_sizes st) + 1
  /\ length (pull_requests_opened st')
     = S (length (pull_requests_opened st))
  /\ forall k v, pr_sizes st !! k = Some v ->
       pr_sizes st' !! k
       = Some (if decide (k = pd_size (make_pr_data pr)) then v + 1 else v).
Proof.
  unfold analyze_pr. cbn [fst snd]. intros H.
  apply bind_Ok_inv in H as (sizes & Hincr & H). injection H as <- <-.
  cbn [pr_sizes pull_requests_opened set_pr_fields].
  split; [apply counter_sum_incr with (k := pd_size (make_pr_data pr)); exact Hincr|].
  split; [rewrite length_app; cbn; lia|].
  apply counter_incr_lookup. exact Hincr.
Qed.

Lemma analyze_pr_loop_counts (prs : list pull_json) :
  forall (st st' : stats) (c c' : Z),
    for_each analyze_pr prs (st, c) = Ok (st', c') ->
    counter_sum (pr_sizes st')
    = counter_sum (pr_sizes st) + Z.of_nat (length prs)
    /\ length (pull_requests_opened st')
       = (length (pull_requests_opened st) + length prs)%nat.
Proof.
  induction prs as [|pr prs IH]; intros st st' c c' H.
  - cbn in H. injection H as <- <-. cbn [length]. split; lia.
  - cbn [for_each] in H. apply bind_Ok_inv in H as ([st1 c1] & Hstep & H).
    apply analyze_pr_counts in Hstep as (Hs & Hl & _).
    apply IH in H as [Hs' Hl']. cbn [length]. split; lia.
Qed.

Lemma analyze_prs_counts (st st' : stats) (prs : list pull_json) :
  sizes_match st -> analyze_prs st prs = Ok st' -> sizes_match st'.
Proof.
  unfold sizes_match, analyze_prs. intros Hm H.
  apply bind_Ok_inv in H as ([st1 c1] & Hloop & H). injection H as <-.
  apply analyze_pr_loop_counts in Hloop as [Hs Hl].
  cbn [pr_sizes pull_requests_opened set_total_commits_in_prs fst].
  rewrite Hs, Hl, Hm. lia.
Qed.

(** C3: on the statistics of a new analyzer the six size counters add up
    to the number of opened pull requests (both are 0); every completed
    run of the aggregation keeps this equation, so it holds for the
    statistics every completed run produces; and one round of the
    pull-request loop adds 1 to the counter of the pull request's size
    class and leaves the other counters as they were. *)
Theorem size_distribution_sum :
  sizes_match init_stats
  /\ (forall strptime api self self' days end_date_arg now,
        sizes_match (self_stats self) ->
        analyze_activity strptime api self days end_date_arg now = Ok self' ->
        sizes_match (self_stats self'))
  /\ (forall st st' c c' pr k v,
        analyze_pr (st, c) pr = Ok (st', c') ->
        pr_sizes st !! k = Some v ->
        pr_sizes st' !! k
        = Some (if decide (k = _get_pr_size (pd_total_changes (make_pr_data pr)))
                then v + 1 else v)).
Proof.
  split; [|split].
  - unfold sizes_match. vm_compute. reflexivity.
  - intros strptime api self self' days end_date_arg now Hm Hrun.
    apply analyze_activity_Ok_inv in Hrun
      as (st1 & st2 & closed & kept & H1 & H2 & _ & _ & ->).
    apply analyze_prs_counts in H1; [|exact Hm].
    apply analyze_reviews_Ok_inv in H2 as (reviewed & _ & ->).
    exact H1.
  - intros st st' c c' pr k v Hstep Hk.
    apply analyze_pr_counts in Hstep as (_ & _ & Hlook).
    apply Hlook. exact Hk.
Qed.

Lemma size_distribution_sum_witness :
  exists self',
    analyze_activity Demo.strptime_utc Demo.octo_api Demo.octocat 7
      (Some Demo.window_end) 0 = Ok self'
    /\ sizes_match (self_stats self').
Proof.
  destruct (analyze_activity Demo.strptime_utc Demo.octo_api Demo.octocat 7
              (Some Demo.window_end) 0) as [self'|e] eqn:Hrun.
  - exists self'. split; [reflexivity|].
    apply (proj1 (proj2 size_distribution_sum) Demo.strptime_utc
             Demo.octo_api Demo.octocat self' 7 (Some Demo.window_end) 0
             (proj1 size_distribution_sum) Hrun).
  - vm_compute in Hrun. discriminate Hrun.
Defined.

End SizeDistribution.

(** ** The review and comment windows *)

Section Windows.
Import Py Report.

Variable strptime : string -> option datetime.

Lemma passes_date_filter_spec (since : datetime) (stamp : option string) :
  passes_date_filter strptime since stamp = true
  <-> truthy stamp = false
      \/ exists s t, stamp = Some s /\ strptime s = Some t /\ since <= t.
Proof.
  unfold passes_date_filter. destruct (truthy stamp) eqn:Ht.
  - destruct stamp as [s|]; [|discriminate]. cbn [get_default].
    destruct (strptime s) as [t|] eqn:Hs.
    + rewrite Z.leb_le. split.
      * intros Hle. right. exists s, t. auto.
      * intros [Hf|(s' & t' & [= <-] & Hs' & Hle)]; [discriminate|].
        congruence.
    + split; [discriminate|].
      intros [Hf|(s' & t' & [= <-] & Hs' & _)]; congruence.
  - split; auto.
Qed.

Lemma before_window_Ok (since : datetime) (stamp : option string)
    (skip : bool) :
  before_window strptime since stamp = Ok skip ->
  skip = negb (passes_date_filter strptime since stamp).
Proof.
  unfold before_window, passes_date_filter, parse_time.
  destruct (truthy stamp); [|intros [= <-]; reflexivity].
  destruct (strptime (get_default stamp "")) as [t|]; [|discriminate].
  cbn [bind]. intros [= <-]. rewrite Z.ltb_antisym. reflexivity.
Qed.

(** The test raises only on a non-empty stamp that does not parse. *)
Lemma before_window_total (since : datetime) (stamp : option string) :
  (truthy stamp = true -> is_Some (strptime (get_default stamp ""))) ->
  exists skip, before_window strptime since stamp = Ok skip.
Proof.
  unfold before_window, parse_time. destruct (truthy stamp); [|eauto].
  intros H. destruct (H eq_refl) as [t ->]. cbn [bind]. eauto.
Qed.

Lemma review_loop_Ok (since : datetime) (reviews : list fetched_review) :
  forall acc reviewed,
    for_each (analyze_review strptime since) reviews acc = Ok reviewed ->
    reviewed
    = acc ++ map make_review_data
               (List.filter
                  (fun r => passes_date_filter strptime since
                              (rj_submitted_at (fr_review r)))
                  reviews).
Proof.
  induction reviews as [|r reviews IH]; intros acc reviewed H.
  - cbn in H. injection H as <-. cbn. rewrite app_nil_r. reflexivity.
  - cbn [for_each] in H. apply bind_Ok_inv in H as (acc1 & Hstep & H).
    apply IH in H. subst reviewed.
    unfold analyze_review in Hstep.
    apply bind_Ok_inv in Hstep as (skip & Hskip & Hstep).
    apply before_window_Ok in Hskip. subst skip. cbn [List.filter].
    destruct (passes_date_filter strptime since
                (rj_submitted_at (fr_review r)));
      cbn [negb] in Hstep; injection Hstep as <-.
    + cbn [map]. rewrite <- app_assoc. reflexivity.
    + reflexivity.
Qed.

Lemma comment_loop_Ok (since : datetime) (comments : list fetched_comment) :
  forall acc kept,
    for_each (analyze_comment strptime since) comments acc = Ok kept ->
    kept
    = acc ++ map make_comment_data
               (List.filter
                  (fun c => passes_date_filter strptime since
                              (cj_created_at (fc_comment c)))
                  comments).
Proof.
  induction comments as [|c comments IH]; intros acc kept H.
  - cbn in H. injection H as <-. cbn. rewrite app_nil_r. reflexivity.
  - cbn [for_each] in H. apply bind_Ok_inv in H as (acc1 & Hstep & H).
    apply IH in H. subst kept.
    unfold analyze_comment in Hstep.
    apply bind_Ok_inv in Hstep as (skip & Hskip & Hstep).
    apply before_window_Ok in Hskip. subst skip. cbn [List.filter].
    destruct (passes_date_filter strptime since
                (cj_created_at (fc_comment c)));
      cbn [negb] in Hstep; injection Hstep as <-.
    + cbn [map]. rewrite <- app_assoc. reflexivity.
    + reflexivity.
Qed.

Lemma comment_loop_total (since : datetime)
    (comments : list fetched_comment) :
  Forall (fun c => truthy (cj_created_at (fc_comment c)) = true ->
                   is_Some (strptime
                              (get_default (cj_created_at (fc_comment c)) "")))
         comments ->
  forall acc, exists kept,
    for_each (analyze_comment strptime since) comments acc = Ok kept.
Proof.
  induction 1 as [|c comments Hc _ IH]; intros acc; cbn [for_each]; [eauto|].
  unfold analyze_comment at 1.
  destruct (before_window_total since _ Hc) as [skip ->]. cbn [bind].
  destruct skip; cbn [bind]; apply IH.
Qed.

Lemma count_distinct_le (l : list Z) : (count_distinct l <= length l)%nat.
Proof.
  unfold count_distinct. induction l as [|x l IH]; cbn [length].
  - rewrite list_to_set_nil, size_empty. lia.
  - rewrite list_to_set_cons, size_union_alt, size_singleton.
    assert (size (list_to_set l ∖ {[x]} : gset Z)
            <= size (list_to_set l : gset Z))%nat
      by (apply subseteq_size; intros y Hy;
          apply elem_of_difference in Hy; tauto).
    lia.
Qed.

(** The pull-request part writes none of the other lists. *)
Lemma analyze_pr_loop_frame (prs : list pull_json) :
  forall st st' c c',
    for_each analyze_pr prs (st, c) = Ok (st', c') ->
    exists o m cl a d f s, st' = set_pr_fields st o m cl a d f s.
Proof.
  induction prs as [|pr prs IH]; intros st st' c c' H.
  - cbn in H. injection H as <- <-.
    do 7 eexists. symmetry. apply set_pr_fields_id.
  - cbn [for_each] in H. apply bind_Ok_inv in H as ([st1 c1] & Hstep & H).
    apply IH in H as (o & m & cl & a & d & f & s & ->).
    unfold analyze_pr in Hstep.
    apply bind_Ok_inv in Hstep as (sizes & _ & Hstep).
    injection Hstep as <- <-. do 7 eexists. reflexivity.
Qed.

Lemma analyze_prs_frame (st st' : stats) (prs : list pull_json) :
  analyze_prs st prs = Ok st' ->
  pull_requests_reviewed st' = pull_requests_reviewed st
  /\ issues_opened st' = issues_opened st
  /\ issues_closed st' = issues_closed st
  /\ issue_comments st' = issue_comments st
  /\ commits_authored st' = commits_authored st.
Proof.
  unfold analyze_prs. intros H.
  apply bind_Ok_inv in H as ([st1 c1] & Hloop & H). injection H as <-.
  apply analyze_pr_loop_frame in Hloop as (o & m & cl & a & d & f & s & ->).
  cbn. auto.
Qed.

Variable api : github_api.

(** What a completed run leaves under the review keys. *)
Lemma run_reviews (self self' : analyzer) (days : Z)
    (end_date_arg : option datetime) (now : datetime) :
  analyze_activity strptime api self days end_date_arg now = Ok self' ->
  let since := get_default end_date_arg now - timedelta_days days in
  let self0 := set_dates self (get_default end_date_arg now) since in
  let reviewed :=
    pull_requests_reviewed (self_stats self)
    ++ map make_review_data
         (List.filter
            (fun r => passes_date_filter strptime since
                        (rj_submitted_at (fr_review r)))
            (fetch_user_reviews api self0 since)) in
  pull_requests_reviewed (self_stats self') = reviewed
  /\ total_reviews_given (self_stats self')
     = Some (Z.of_nat (length reviewed))
  /\ unique_prs_reviewed (self_stats self')
     = Some (Z.of_nat (count_distinct (map rd_pr_number reviewed))).
Proof.
  intros Hrun since self0 reviewed.
  apply analyze_activity_Ok_inv in Hrun
    as (st1 & st2 & closed & kept & H1 & H2 & _ & _ & ->).
  apply analyze_prs_frame in H1 as (Hr & _).
  apply analyze_reviews_Ok_inv in H2 as (reviewed' & Hloop & ->).
  apply review_loop_Ok in Hloop. rewrite Hr in Hloop.
  fold since self0 in Hloop. fold reviewed in Hloop. subst reviewed'.
  cbn. auto.
Qed.

(** What a completed run leaves under the comment key. *)
Lemma run_comments (self self' : analyzer) (days : Z)
    (end_date_arg : option datetime) (now : datetime) :
  analyze_activity strptime api self days end_date_arg now = Ok self' ->
  let since := get_default end_date_arg now - timedelta_days days in
  let self0 := set_dates self (get_default end_date_arg now) since in
  issue_comments (self_stats self')
  = issue_comments (self_stats self)
    ++ map make_comment_data
         (List.filter
            (fun c => passes_date_filter strptime since
                        (cj_created_at (fc_comment c)))
            (fetch_user_issue_comments api self0 since)).
Proof.
  intros Hrun since self0.
  apply analyze_activity_Ok_inv in Hrun
    as (st1 & st2 & closed & kept & H1 & H2 & _ & H4 & ->).
  apply analyze_prs_frame in H1 as (_ & _ & _ & Hc & _).
  apply analyze_reviews_Ok_inv in H2 as (reviewed' & _ & ->).
  apply comment_loop_Ok in H4. cbn in H4. rewrite Hc in H4.
  cbn. exact H4.
Qed.

End Windows.

Section WindowClaims.
Import Py Report.

(** C4 as stated fails: in the run below the review search returns a
    pending review, which has no submission time; the review is retained,
    although it has no time stamp at or after the window start. *)
Lemma review_without_stamp_is_retained :
  exists self',
    analyze_activity Demo.strptime_utc Demo.api_with_pending Demo.octocat 7
      (Some Demo.window_end) 0 = Ok self'
    /\ ~ retained_only_in_window Demo.strptime_utc Demo.window_start
           (fetch_user_reviews Demo.api_with_pending Demo.octocat
              Demo.window_start)
           (pull_requests_reviewed (self_stats self')).
Proof.
  eexists. split; [vm_compute; reflexivity|].
  intros Hstrict.
  destruct (Hstrict
              {| fr_review := Demo.review_pending; fr_pr_number := 7;
                 fr_pr_title := "Refactor";
                 fr_pr_url := "https://example.test/items/7" |})
    as (s & t & Hs & _).
  - vm_compute. right. left. reflexivity.
  - vm_compute. right. left. reflexivity.
  - discriminate Hs.
Qed.

(** C4, amended: after a completed run the retained reviews are the
    records of the fetched reviews that pass the date test, in fetch
    order and one per submission; a review passes exactly when its
    submitted_at is missing or empty or parses to a time at or after the
    window start, so a review submitted before the window start is
    excluded; total_reviews_given is the number of retained reviews,
    unique_prs_reviewed the number of distinct pr_number values among
    them, and unique_prs_reviewed <= total_reviews_given. *)
Theorem review_window (strptime : string -> option datetime)
    (api : github_api) (self self' : analyzer) (days : Z)
    (end_date_arg : option datetime) (now : datetime) :
  analyze_activity strptime api self days end_date_arg now = Ok self' ->
  let since := get_default end_date_arg now - timedelta_days days in
  let self0 := set_dates self (get_default end_date_arg now) since in
  let reviewed := pull_requests_reviewed (self_stats self') in
  reviewed
  = pull_requests_reviewed (self_stats self)
    ++ map make_review_data
         (List.filter
            (fun r => passes_date_filter strptime since
                        (rj_submitted_at (fr_review r)))
            (fetch_user_reviews api self0 since))
  /\ (forall stamp,
        passes_date_filter strptime since stamp = true
        <-> truthy stamp = false
            \/ exists s t, stamp = Some s /\ strptime s = Some t /\ since <= t)
  /\ (forall s t,
        s <> "" -> strptime s = Some t -> t < since ->
        passes_date_filter strptime since (Some s) = false)
  /\ total_reviews_given (self_stats self')
     = Some (Z.of_nat (length reviewed))
  /\ unique_prs_reviewed (self_stats self')
     = Some (Z.of_nat (count_distinct (map rd_pr_number reviewed)))
  /\ Z.of_nat (count_distinct (map rd_pr_number reviewed))
     <= Z.of_nat (length reviewed).
Proof.
  intros Hrun since self0 reviewed.
  destruct (run_reviews strptime api self self' days end_date_arg now Hrun)
    as (Hlist & Htotal & Hunique).
  fold since self0 in Hlist, Htotal, Hunique. fold reviewed in Hlist.
  split; [exact Hlist|].
  split; [apply passes_date_filter_spec|].
  split.
  { intros s t Hne Hs Hlt. unfold passes_date_filter.
    destruct s as [|c s]; [congruence|]. cbn [truthy str_truthy get_default].
    rewrite Hs. apply Z.leb_gt. exact Hlt. }
  rewrite <- Hlist in Htotal, Hunique.
  split; [exact Htotal|]. split; [exact Hunique|].
  pose proof (count_distinct_le (map rd_pr_number reviewed)) as Hle.
  rewrite length_map in Hle. lia.
Qed.

Lemma review_window_witness :
  exists self',
    analyze_activity Demo.strptime_utc Demo.api_with_pending Demo.octocat 7
      (Some Demo.window_end) 0 = Ok self'
    /\ total_reviews_given (self_stats self')
       = Some (Z.of_nat (length (pull_requests_reviewed (self_stats self')))).
Proof.
  destruct (analyze_activity Demo.strptime_utc Demo.api_with_pending
              Demo.octocat 7 (Some Demo.window_end) 0) as [self'|e] eqn:Hrun.
  - exists self'. split; [reflexivity|].
    apply (review_window Demo.strptime_utc Demo.api_with_pending
             Demo.octocat self' 7 (Some Demo.window_end) 0 Hrun).
  - vm_compute in Hrun. discriminate Hrun.
Defined.

(** C9: in a completed run every fetched review whose submitted_at is
    absent or null is retained, whatever the window start, and so is every
    fetched issue comment whose created_at is absent or null. *)
Theorem missing_stamp_bypasses_filter (strptime : string -> option datetime)
    (api : github_api) (self self' : analyzer) (days : Z)
    (end_date_arg : option datetime) (now : datetime) :
  analyze_activity strptime api self days end_date_arg now = Ok self' ->
  let since := get_default end_date_arg now - timedelta_days days in
  let self0 := set_dates self (get_default end_date_arg now) since in
  (forall r, In r (fetch_user_reviews api self0 since) ->
     rj_submitted_at (fr_review r) = None ->
     In (make_review_data r) (pull_requests_reviewed (self_stats self')))
  /\ (forall c, In c (fetch_user_issue_comments api self0 since) ->
        cj_created_at (fc_comment c) = None ->
        In (make_comment_data c) (issue_comments (self_stats self'))).
Proof.
  intros Hrun since self0. split.
  - intros r Hr Hnone.
    destruct (run_reviews strptime api self self' days end_date_arg now Hrun)
      as (-> & _).
    apply in_or_app. right. apply in_map, filter_In. split; [exact Hr|].
    rewrite Hnone. reflexivity.
  - intros c Hc Hnone.
    rewrite (run_comments strptime api self self' days end_date_arg now Hrun).
    apply in_or_app. right. apply in_map, filter_In. split; [exact Hc|].
    rewrite Hnone. reflexivity.
Qed.

Lemma missing_stamp_bypasses_filter_witness :
  exists self',
    analyze_activity Demo.strptime_utc Demo.api_with_pending Demo.octocat 7
      (Some Demo.window_end) 0 = Ok self'
    /\ In (make_comment_data
             {| fc_comment := Demo.comment "octocat" None;
                fc_issue_number := 11; fc_issue_title := "Docs unclear";
                fc_issue_url := "https://example.test/items/11";
                fc_issue_state := "open" |})
          (issue_comments (self_stats self')).
Proof.
  destruct (analyze_activity Demo.strptime_utc Demo.api_with_pending
              Demo.octocat 7 (Some Demo.window_end) 0) as [self'|e] eqn:Hrun.
  - exists self'. split; [reflexivity|].
    apply (missing_stamp_bypasses_filter Demo.strptime_utc
             Demo.api_with_pending Demo.octocat self' 7
             (Some Demo.window_end) 0 Hrun).
    + vm_compute. left. reflexivity.
    + reflexivity.
  - vm_compute in Hrun. discriminate Hrun.
Defined.

End WindowClaims.

(** ** Failing requests *)

Section Failures.
Import Py Report.

Variable strptime : string -> option datetime.
Variable api : github_api.





End Failures.

Section FailureClaims.
Import Py Report.




End FailureClaims.

(** ** Dictionaries, sorting and text order *)

Section Containers.
Import Py.

Context {V : Type}.

Lemma dict_get_set_eq (k : string) (v : V) (d : list (string * V)) :
  dict_get k (dict_set k v d) = Some v.
Proof.
  induction d as [|[k' v'] d IH]; cbn.
  - rewrite String.eqb_refl. reflexivity.
  - destruct (String.eqb k' k) eqn:E; cbn; rewrite E; [reflexivity | exact IH].
Qed.

Lemma dict_get_set_ne (k k0 : string) (v : V) (d : list (string * V)) :
  k0 <> k -> dict_get k0 (dict_set k v d) = dict_get k0 d.
Proof.
  intros Hne. induction d as [|[k' v'] d IH]; cbn.
  - apply String.eqb_neq in Hne. rewrite String.eqb_sym, Hne. reflexivity.
  - destruct (String.eqb k' k) eqn:E; cbn.
    + apply String.eqb_eq in E. subst k'.
      apply String.eqb_neq in Hne. rewrite String.eqb_sym, Hne. reflexivity.
    + destruct (String.eqb k' k0); [reflexivity | exact IH].
Qed.

Lemma dict_get_keys (k : string) (d : list (string * V)) :
  In k (map fst d) <-> is_Some (dict_get k d).
Proof.
  induction d as [|[k' v'] d IH]; cbn.
  - split; [tauto | intros [? ?]; discriminate].
  - destruct (String.eqb_spec k' k) as [->|Hne].
    + split; eauto.
    + rewrite <- IH. split; [intros [?|?]; [congruence | assumption] | auto].
Qed.

Lemma dict_get_In (k : string) (v : V) (d : list (string * V)) :
  dict_get k d = Some v -> In (k, v) d.
Proof.
  induction d as [|[k' v'] d IH]; cbn; [discriminate|].
  destruct (String.eqb_spec k' k) as [->|Hne].
  - intros [= ->]. auto.
  - auto.
Qed.

Lemma dict_set_Forall (P : V -> Prop) (k : string) (v : V)
    (d : list (string * V)) :
  P v -> Forall (fun kv => P (snd kv)) d ->
  Forall (fun kv => P (snd kv)) (dict_set k v d).
Proof.
  intros Hv. induction 1 as [|[k' v'] d Hx Hd IH]; cbn.
  - constructor; [exact Hv | constructor].
  - destruct (String.eqb k' k); constructor; auto.
Qed.

End Containers.

Section Sorting.
Import TeamIndex.

Context {A : Type}.

Lemma insort_Permutation (before : A -> A -> bool) (x : A) (l : list A) :
  Permutation (insort before x l) (x :: l).
Proof.
  induction l as [|y l IH]; cbn; [reflexivity|].
  destruct (before y x); [|reflexivity].
  rewrite IH. apply perm_swap.
Qed.

Lemma sort_by_Permutation (before : A -> A -> bool) (l : list A) :
  Permutation (sort_by before l) l.
Proof.
  unfold sort_by. induction l as [|x l IH]; cbn; [reflexivity|].
  rewrite insort_Permutation. constructor. exact IH.
Qed.

End Sorting.

Section TextOrder.

Lemma str_leb_refl (s : string) : String.leb s s = true.
Proof. apply Is_true_true. change (String.le s s). reflexivity. Qed.

Lemma str_leb_trans (a b c : string) :
  String.leb a b = true -> String.leb b c = true -> String.leb a c = true.
Proof.
  intros H1 H2. apply Is_true_true.
  change (String.le a c). transitivity b; apply Is_true_true; assumption.
Qed.

Lemma str_gt_leb (a b : string) :
  Py.str_gt a b = true -> String.leb b a = true.
Proof.
  unfold Py.str_gt, String.ltb, String.leb.
  destruct (String.compare b a); congruence.
Qed.

Lemma str_not_gt_leb (a b : string) :
  Py.str_gt a b = false -> String.leb a b = true.
Proof.
  unfold Py.str_gt, String.ltb, String.leb.
  rewrite (String.compare_antisym a b).
  destruct (String.compare b a); cbn; congruence.
Qed.

End TextOrder.

(** ** Metric extraction *)

Section Extraction.
Import Py TeamIndex.

Lemma startswith_spec (pat s : string) :
  startswith pat s = true <-> exists b, s = pat +:+ b.
Proof.
  revert s. induction pat as [|a pat IH]; intros s; cbn.
  - split; eauto.
  - destruct s as [|c s].
    + split; [discriminate | intros [b Hb]; discriminate].
    + rewrite andb_true_iff, Ascii.eqb_eq, IH. split.
      * intros [-> [b ->]]. exists b. reflexivity.
      * intros [b [= -> ->]]. eauto.
Qed.

(** [pat in s] is substring containment. *)
Lemma contains_spec (pat s : string) :
  contains pat s = true <-> exists a b, s = a +:+ pat +:+ b.
Proof.
  induction s as [|c s IH]; cbn [contains]; rewrite orb_true_iff.
  - rewrite startswith_spec. split.
    + intros [[b Hb]|Hf]; [|discriminate]. exists "", b. exact Hb.
    + intros (a & b & H). left. destruct a; [|discriminate]. eauto.
  - rewrite startswith_spec, IH. split.
    + intros [[b Hb]|(a & b & ->)].
      * exists "", b. exact Hb.
      * exists (String c a), b. reflexivity.
    + intros (a & b & H). destruct a as [|c' a].
      * left. eauto.
      * right. injection H as -> ->. eauto.
Qed.

(** [re.sub] with a negated class keeps exactly the characters of the
    class, in order. *)
Lemma keep_chars_filter (keep : ascii -> bool) (s : string) :
  list_ascii_of_string (keep_chars keep s)
  = List.filter keep (list_ascii_of_string s).
Proof.
  induction s as [|c s IH]; cbn; [reflexivity|].
  destruct (keep c); cbn; rewrite IH; reflexivity.
Qed.

Lemma keep_chars_all (keep : ascii -> bool) (s : string) :
  Py.all_chars keep (keep_chars keep s) = true.
Proof.
  induction s as [|c s IH]; cbn; [reflexivity|].
  destruct (keep c) eqn:E; cbn; rewrite ?E; exact IH.
Qed.

Lemma get_metric_value_no_match (metrics : list (string * string))
    (pattern : string) :
  Forall (fun kv => contains pattern (fst kv) = false) metrics ->
  get_metric_value_row metrics pattern = "0"
  /\ get_metric_value_summary metrics pattern = 0.
Proof.
  induction 1 as [|[k v] metrics Hk _ IH]; cbn; [auto|].
  cbn in Hk. rewrite Hk. exact IH.
Qed.

Lemma get_metric_value_first_match (pre post : list (string * string))
    (k v pattern : string) :
  Forall (fun kv => contains pattern (fst kv) = false) pre ->
  contains pattern k = true ->
  get_metric_value_row (pre ++ (k, v) :: post) pattern
  = (if str_truthy (keep_chars is_digit_sign_comma v)
     then keep_chars is_digit_sign_comma v else "0")
  /\ get_metric_value_summary (pre ++ (k, v) :: post) pattern
     = (if str_truthy (keep_chars is_digit v)
        then int_of_digits (keep_chars is_digit v) else 0).
Proof.
  intros Hpre Hk. induction Hpre as [|[k' v'] pre Hk' _ IH]; cbn.
  - rewrite Hk. auto.
  - cbn in Hk'. rewrite Hk'. exact IH.
Qed.

Lemma digit_value_nonneg (c : ascii) : is_digit c = true -> 0 <= digit_value c.
Proof.
  unfold is_digit, digit_value. cbn zeta. rewrite andb_true_iff.
  intros [H _]. apply N.leb_le in H. lia.
Qed.

Lemma int_digits_from_nonneg (s : string) :
  forall acc, 0 <= acc -> Py.all_chars is_digit s = true ->
    0 <= int_digits_from acc s.
Proof.
  induction s as [|c s IH]; intros acc Hacc Hall; cbn; [exact Hacc|].
  cbn in Hall. apply andb_true_iff in Hall as [Hc Hs].
  apply IH; [|exact Hs]. apply digit_value_nonneg in Hc. lia.
Qed.

Lemma get_metric_value_summary_nonneg (metrics : list (string * string))
    (pattern : string) :
  0 <= get_metric_value_summary metrics pattern.
Proof.
  induction metrics as [|[k v] metrics IH]; cbn; [lia|].
  destruct (contains pattern k); [|exact IH].
  destruct (str_truthy (keep_chars is_digit v)); [|lia].
  apply int_digits_from_nonneg; [lia | apply keep_chars_all].
Qed.

End Extraction.

(** ** The summary by user *)

Section Summary.
Import Py TeamIndex.

Lemma sum_Z_app (l1 l2 : list Z) : sum_Z (l1 ++ l2) = sum_Z l1 + sum_Z l2.
Proof. unfold sum_Z. induction l1 as [|x l1 IH]; cbn; [reflexivity | lia]. Qed.

Lemma sum_Z_Permutation (l1 l2 : list Z) :
  Permutation l1 l2 -> sum_Z l1 = sum_Z l2.
Proof. unfold sum_Z. induction 1; cbn; lia. Qed.

Lemma rows_of_Permutation (u : string) (l1 l2 : list report) :
  Permutation l1 l2 -> Permutation (rows_of u l1) (rows_of u l2).
Proof.
  unfold rows_of. induction 1 as [|x l1 l2 _ IH|x y l|l1 l2 l3 _ IH1 _ IH2]; cbn.
  - reflexivity.
  - destruct (String.eqb (r_username x) u); [constructor|]; exact IH.
  - destruct (String.eqb (r_username x) u), (String.eqb (r_username y) u);
      try reflexivity. apply perm_swap.
  - etransitivity; eassumption.
Qed.

Lemma rows_of_absent (u : string) (l : list report) :
  ~ In u (map r_username l) -> rows_of u l = [].
Proof.
  unfold rows_of. induction l as [|r l IH]; cbn; [reflexivity|].
  intros Hn. destruct (String.eqb_spec (r_username r) u) as [E|E].
  - exfalso. apply Hn. auto.
  - apply IH. intros H. apply Hn. auto.
Qed.

Lemma rows_of_snoc (u : string) (l : list report) (r : report) :
  rows_of u (l ++ [r])
  = rows_of u l ++ (if String.eqb (r_username r) u then [r] else []).
Proof. unfold rows_of. rewrite List.filter_app. reflexivity. Qed.

Lemma summary_agrees_Permutation (d : list (string * summary))
    (l1 l2 : list report) :
  Permutation l1 l2 -> summary_agrees d l1 -> summary_agrees d l2.
Proof.
  intros Hp Hagree u. specialize (Hagree u).
  pose proof (rows_of_Permutation u _ _ Hp) as Hrows.
  pose proof (Permutation_map r_username Hp) as Hnames.
  destruct (dict_get u d) as [e|].
  - destruct Hagree as (Hin & Hsum & dt & Hdate & Hdt & Hmax).
    split; [eapply Permutation_in; eassumption|].
    split.
    { rewrite Hsum. apply sum_Z_Permutation, Permutation_map, Hrows. }
    exists dt. split; [exact Hdate|]. split.
    + eapply Permutation_in; [apply Permutation_map, Hrows | exact Hdt].
    + intros d' Hd'. apply Hmax.
      eapply Permutation_in;
        [apply Permutation_map, Permutation_sym, Hrows | exact Hd'].
  - intros Hin. apply Hagree.
    eapply Permutation_in; [apply Permutation_sym, Hnames | exact Hin].
Qed.

Lemma summary_step_agrees (d : list (string * summary))
    (seen : list report) (r : report) :
  summary_agrees d seen -> summary_agrees (summary_step d r) (seen ++ [r]).
Proof.
  intros Hagree u. specialize (Hagree u). unfold summary_step.
  rewrite rows_of_snoc.
  assert (Hnames : In u (map r_username (seen ++ [r]))
                   <-> In u (map r_username seen) \/ r_username r = u).
  { rewrite map_app, in_app_iff. cbn. tauto. }
  destruct (String.eqb_spec (r_username r) u) as [E|E].
  - subst u. rewrite dict_get_set_eq.
    split; [apply Hnames; auto|].
    destruct (dict_get (r_username r) d) as [e|]; cbn [get_default].
    + destruct Hagree as (_ & Hsum & dt & Hdate & Hdt & Hmax).
      rewrite Hdate. cbn [prs_merged date].
      destruct (str_gt (r_date r) dt) eqn:Hgt; cbn [prs_merged date].
      * split.
        { rewrite map_app, sum_Z_app, Hsum. cbn. unfold merged_metric. lia. }
        exists (r_date r). split; [reflexivity|].
        rewrite !map_app. cbn [map]. split; [apply in_or_app; cbn; auto|].
        intros d' Hd'. apply in_app_or in Hd' as [Hd'|[<-|[]]].
        -- apply str_leb_trans with dt; [apply Hmax, Hd'|].
           apply str_gt_leb, Hgt.
        -- apply str_leb_refl.
      * split.
        { rewrite map_app, sum_Z_app, Hsum. cbn. unfold merged_metric. lia. }
        exists dt. split; [reflexivity|].
        rewrite !map_app. cbn [map]. split; [apply in_or_app; auto|].
        intros d' Hd'. apply in_app_or in Hd' as [Hd'|[<-|[]]].
        -- apply Hmax, Hd'.
        -- apply str_not_gt_leb, Hgt.
    + rewrite (rows_of_absent _ _ Hagree). cbn.
      split; [unfold merged_metric; lia|].
      exists (r_date r). split; [reflexivity|]. split; [auto|].
      intros d' [<-|[]]. apply str_leb_refl.
  - rewrite dict_get_set_ne by congruence. rewrite !app_nil_r.
    destruct (dict_get u d) as [e|].
    + destruct Hagree as (Hin & Hrest).
      split; [apply Hnames; auto | exact Hrest].
    + intros Hin. apply Hnames in Hin as [Hin|Heq];
        [exact (Hagree Hin) | congruence].
Qed.

Lemma summary_loop_agrees (l : list report) :
  forall d seen,
    summary_agrees d seen ->
    summary_agrees (fold_left summary_step l d) (seen ++ l).
Proof.
  induction l as [|r l IH]; intros d seen Hagree; cbn [fold_left].
  - rewrite app_nil_r. exact Hagree.
  - change (r :: l) with ([r] ++ l). rewrite app_assoc.
    apply IH, summary_step_agrees, Hagree.
Qed.

Lemma user_summary_agrees (reports : list report) :
  summary_agrees (fold_left summary_step (sort_by newer_first reports) [])
    reports.
Proof.
  apply summary_agrees_Permutation with (sort_by newer_first reports).
  - apply sort_by_Permutation.
  - apply (summary_loop_agrees _ [] []). intros u. cbn. tauto.
Qed.

Lemma summary_step_nonneg (d : list (string * summary)) (r : report) :
  Forall (fun kv => 0 <= prs_merged (snd kv)) d ->
  Forall (fun kv => 0 <= prs_merged (snd kv)) (summary_step d r).
Proof.
  intros Hd. unfold summary_step.
  apply (dict_set_Forall (fun e => 0 <= prs_merged e)); [|exact Hd].
  assert (0 <= prs_merged
                 (get_default (dict_get (r_username r) d) new_summary)
               + get_metric_value_summary (r_metrics r) "PRs Merged").
  { pose proof (get_metric_value_summary_nonneg (r_metrics r) "PRs Merged").
    destruct (dict_get (r_username r) d) as [e|] eqn:E; cbn.
    - apply dict_get_In in E. rewrite List.Forall_forall in Hd.
      specialize (Hd _ E). cbn in Hd. lia.
    - lia. }
  match goal with |- context [if ?c then _ else _] => destruct c end;
    cbn; assumption.
Qed.

Lemma summary_loop_nonneg (l : list report) :
  forall d,
    Forall (fun kv => 0 <= prs_merged (snd kv)) d ->
    Forall (fun kv => 0 <= prs_merged (snd kv)) (fold_left summary_step l d).
Proof.
  induction l as [|r l IH]; intros d Hd; cbn [fold_left]; [exact Hd|].
  apply IH, summary_step_nonneg, Hd.
Qed.

End Summary.

Section IndexClaims.
Import Py TeamIndex.

(** C7: for every collection of scraped rows and every username in it,
    the summary table has a row for that username, and every row of that
    username shows as date the greatest (in text order) of the user's
    report dates and as total the sum of the merged-PR metrics of the
    user's reports; the two rows of user a dated 2024-01-01 and 2024-01-08
    with 3 and 2 merged pull requests give date 2024-01-08 and total 5. *)
Theorem summary_row_correct (user_names : list (string * string))
    (reports : list report) (u : string) :
  In u (map r_username reports) ->
  (exists row, In row (summary_rows user_names reports)
               /\ row_username row = u)
  /\ (forall row,
        In row (summary_rows user_names reports) -> row_username row = u ->
        row_prs_merged row = sum_Z (map merged_metric (rows_of u reports))
        /\ exists d,
             row_date row = Some d
             /\ In d (map r_date (rows_of u reports))
             /\ forall d', In d' (map r_date (rows_of u reports)) ->
                  String.leb d' d = true)
  /\ summary_rows [] [report_a1; report_a2]
     = [{| row_date := Some "2024-01-08"; row_username := "a";
           row_real_name := "a"; row_prs_merged := 5 |}].
Proof.
  intros Hu.
  pose proof (user_summary_agrees reports u) as Hagree.
  unfold summary_rows.
  set (user_summary := fold_left summary_step (sort_by newer_first reports) [])
    in *.
  destruct (dict_get u user_summary) as [e|] eqn:Hget; [|contradiction].
  destruct Hagree as (_ & Hsum & dt & Hdate & Hdt & Hmax).
  split; [|split; [|reflexivity]].
  - eexists. split.
    + apply in_map.
      apply (Permutation_in u
               (Permutation_sym (sort_by_Permutation String.ltb _))).
      apply dict_get_keys. rewrite Hget. eauto.
    + reflexivity.
  - intros row Hrow Hname.
    apply in_map_iff in Hrow as (k & <- & _). cbn in Hname. subst k.
    cbn [row_prs_merged row_date]. rewrite Hget. cbn [get_default].
    split; [exact Hsum|]. exists dt. auto.
Qed.

Lemma summary_row_correct_witness :
  In "a" (map r_username [report_a2; report_a1])
  /\ exists row,
       In row (summary_rows [("a", "Alice")] [report_a2; report_a1])
       /\ row_username row = "a".
Proof.
  assert (Hin : In "a" (map r_username [report_a2; report_a1]))
    by (cbn; auto).
  split; [exact Hin|].
  exact (proj1 (summary_row_correct [("a", "Alice")] [report_a2; report_a1]
                  "a" Hin)).
Defined.

(** C8 as stated fails for the extraction of the summary loop: on the
    value -5 under a label containing the wanted text, stripping what is
    not a digit, sign or comma leaves -5, the integer -5; the code
    returns 5. *)
Lemma summary_extraction_drops_sign :
  spec_numeric_text "-5" = "-5"
  /\ spec_metric_int [("✅ PRs Merged", "-5")] "PRs Merged" = Some (-5)
  /\ get_metric_value_summary [("✅ PRs Merged", "-5")] "PRs Merged" = 5
  /\ Some (get_metric_value_summary [("✅ PRs Merged", "-5")] "PRs Merged")
     <> spec_metric_int [("✅ PRs Merged", "-5")] "PRs Merged".
Proof. repeat split; try reflexivity. vm_compute. discriminate. Qed.

(** C8, amended: a wanted label matches a key when it occurs in the key
    as a substring, and the first matching key in insertion order decides
    the result.  The extraction of the individual-report rows keeps of
    the value the digits, signs and commas, in order, and returns the
    text "0" when nothing is left or no key matches; the extraction of
    the summary loop keeps the digits only and returns their integer
    value, and 0 when nothing is left or no key matches. *)
Theorem metric_extraction (metrics : list (string * string))
    (pattern : string) :
  (forall key, contains pattern key = true
               <-> exists a b, key = a +:+ pattern +:+ b)
  /\ (forall keep value,
        list_ascii_of_string (keep_chars keep value)
        = List.filter keep (list_ascii_of_string value))
  /\ (Forall (fun kv => contains pattern (fst kv) = false) metrics ->
      get_metric_value_row metrics pattern = "0"
      /\ get_metric_value_summary metrics pattern = 0)
  /\ (forall pre key value post,
        metrics = pre ++ (key, value) :: post ->
        Forall (fun kv => contains pattern (fst kv) = false) pre ->
        contains pattern key = true ->
        get_metric_value_row metrics pattern
        = (if str_truthy (keep_chars is_digit_sign_comma value)
           then keep_chars is_digit_sign_comma value else "0")
        /\ get_metric_value_summary metrics pattern
           = (if str_truthy (keep_chars is_digit value)
              then int_of_digits (keep_chars is_digit value) else 0)).
Proof.
  split; [intros key; apply contains_spec|].
  split; [apply keep_chars_filter|].
  split; [apply get_metric_value_no_match|].
  intros pre key value post -> Hpre Hkey.
  apply get_metric_value_first_match; assumption.
Qed.

Lemma metric_extraction_witness :
  get_metric_value_row
    [("💾 Commits in PRs", "7"); ("📈 Lines Added", "+1,234 lines");
     ("Lines Added again", "9")] "Lines Added" = "+1,234"
  /\ get_metric_value_summary
       [("💾 Commits in PRs", "7"); ("📈 Lines Added", "+1,234 lines");
        ("Lines Added again", "9")] "Lines Added" = 1234.
Proof.
  apply (proj2 (proj2 (proj2
           (metric_extraction
              [("💾 Commits in PRs", "7"); ("📈 Lines Added", "+1,234 lines");
               ("Lines Added again", "9")] "Lines Added")))
           [("💾 Commits in PRs", "7")] "📈 Lines Added" "+1,234 lines"
           [("Lines Added again", "9")]).
  - reflexivity.
  - constructor; [reflexivity | constructor].
  - reflexivity.
Defined.

(** C10: the extraction of the summary loop keeps only the digits of the
    value (a minus sign and commas are dropped with every other
    character), so what one report contributes is never negative, and
    the total of every row of the summary table is never negative;
    the value -1,234 contributes 1234. *)
Theorem summary_totals_nonneg :
  (forall metrics pattern, 0 <= get_metric_value_summary metrics pattern)
  /\ (forall key value rest pattern,
        contains pattern key = true ->
        get_metric_value_summary ((key, value) :: rest) pattern
        = (if str_truthy (keep_chars is_digit value)
           then int_of_digits (keep_chars is_digit value) else 0)
        /\ Py.all_chars is_digit (keep_chars is_digit value) = true)
  /\ (forall report, 0 <= merged_metric report)
  /\ (forall user_names reports,
        Forall (fun row => 0 <= row_prs_merged row)
               (summary_rows user_names reports))
  /\ keep_chars is_digit "-1,234" = "1234"
  /\ get_metric_value_summary [("✅ PRs Merged", "-1,234")] "PRs Merged"
     = 1234.
Proof.
  split; [apply get_metric_value_summary_nonneg|].
  split.
  { intros key value rest pattern Hkey. cbn [get_metric_value_summary].
    rewrite Hkey. split; [reflexivity | apply keep_chars_all]. }
  split; [intros report; apply get_metric_value_summary_nonneg|].
  split; [|split; reflexivity].
  intros user_names reports. unfold summary_rows.
  set (user_summary := fold_left summary_step (sort_by newer_first reports) []).
  assert (Hall : Forall (fun kv => 0 <= prs_merged (snd kv)) user_summary).
  { apply summary_loop_nonneg. constructor. }
  apply List.Forall_forall. intros row Hrow.
  apply in_map_iff in Hrow as (k & <- & _). cbn [row_prs_merged].
  destruct (dict_get k user_summary) as [e|] eqn:E; cbn [get_default].
  - apply dict_get_In in E. rewrite List.Forall_forall in Hall.
    apply (Hall _ E).
  - cbn. lia.
Qed.

Lemma summary_totals_nonneg_witness :
  get_metric_value_summary [("✅ PRs Merged", "-1,234")] "PRs Merged"
  = (if str_truthy (keep_chars is_digit "-1,234")
     then int_of_digits (keep_chars is_digit "-1,234") else 0)
  /\ Py.all_chars is_digit (keep_chars is_digit "-1,234") = true.
Proof.
  apply (proj1 (proj2 summary_totals_nonneg) "✅ PRs Merged" "-1,234" []
           "PRs Merged").
  reflexivity.
Defined.

End IndexClaims.

(** ** Texts: stripping, names, decimal numerals *)

Section Texts.
Import Py.

Lemma append_cons (c : ascii) (s1 s2 : string) :
  String c s1 +:+ s2 = String c (s1 +:+ s2).
Proof. reflexivity. Qed.

Lemma all_chars_app (p : ascii -> bool) (s1 s2 : string) :
  all_chars p (s1 +:+ s2) = all_chars p s1 && all_chars p s2.
Proof.
  induction s1 as [|c s1 IH]; [reflexivity|].
  rewrite append_cons. cbn. rewrite IH, andb_assoc. reflexivity.
Qed.

Lemma all_chars_impl (p q : ascii -> bool) (s : string) :
  (forall c, p c = true -> q c = true) ->
  all_chars p s = true -> all_chars q s = true.
Proof.
  intros Hpq. induction s as [|c s IH]; cbn; [reflexivity|].
  rewrite !andb_true_iff. intros [Hc Hs]. auto.
Qed.

Lemma rstrip_no_space (s : string) :
  all_chars (fun c => negb (is_space c)) s = true ->
  rstrip_with is_space s = s.
Proof.
  induction s as [|c s IH]; cbn; [reflexivity|].
  rewrite andb_true_iff, negb_true_iff. intros [Hc Hs].
  rewrite (IH Hs), Hc. destruct s; reflexivity.
Qed.

Lemma strip_no_space (s : string) :
  all_chars (fun c => negb (is_space c)) s = true -> strip s = s.
Proof.
  intros H. unfold strip.
  assert (Hl : lstrip_with is_space s = s).
  { destruct s as [|c s]; cbn; [reflexivity|].
    cbn in H. apply andb_true_iff in H as [Hc _].
    apply negb_true_iff in Hc. rewrite Hc. reflexivity. }
  rewrite Hl. apply rstrip_no_space, H.
Qed.

Lemma str_truthy_app_r (s1 s2 : string) :
  str_truthy s2 = true -> str_truthy (s1 +:+ s2) = true.
Proof. destruct s1; [auto | reflexivity]. Qed.

Lemma clean_no_space (s : string) :
  str_truthy s = true ->
  all_chars (fun c => negb (is_space c)) s = true -> clean s.
Proof. intros Ht Hs. split; [apply strip_no_space, Hs | exact Ht]. Qed.

(** *** Names *)

Lemma name_char_facts (c : ascii) :
  name_char c = true ->
  is_space c = false /\ Ascii.eqb c "/" = false /\ Ascii.eqb "@" c = false.
Proof.
  intros H. repeat split.
  - unfold name_char, is_space in *. cbn zeta in *.
    destruct (N_of_ascii c) as [|p] eqn:E; [discriminate|].
    repeat match goal with
           | |- context [(?a <=? ?b)%N] => destruct (N.leb_spec a b)
           | H : context [(?a <=? ?b)%N] |- _ => destruct (N.leb_spec a b)
           | H : context [(?a =? ?b)%N] |- _ => destruct (N.eqb_spec a b)
           end; cbn in *; try reflexivity; try discriminate; lia.
  - apply Ascii.eqb_neq. intros ->. discriminate H.
  - apply Ascii.eqb_neq. intros <-. discriminate H.
Qed.

Lemma valid_name_truthy (s : string) :
  valid_name s = true -> str_truthy s = true.
Proof. unfold valid_name. rewrite andb_true_iff. tauto. Qed.

Lemma valid_name_no_space (s : string) :
  valid_name s = true -> all_chars (fun c => negb (is_space c)) s = true.
Proof.
  unfold valid_name. rewrite andb_true_iff. intros [_ H].
  revert H. apply all_chars_impl. intros c Hc.
  apply name_char_facts in Hc as (-> & _). reflexivity.
Qed.

Lemma split_on_name (s : string) :
  all_chars name_char s = true -> split_on "/" s = [s].
Proof.
  induction s as [|c s IH]; cbn; [reflexivity|].
  rewrite andb_true_iff. intros [Hc Hs].
  apply name_char_facts in Hc as (_ & -> & _). rewrite (IH Hs). reflexivity.
Qed.

Lemma split_on_two_names (o r : string) :
  all_chars name_char o = true -> all_chars name_char r = true ->
  split_on "/" (o +:+ "/" +:+ r) = [o; r].
Proof.
  intros Ho Hr. induction o as [|c o IH].
  - change ("" +:+ "/" +:+ r) with (String "/" r). cbn.
    rewrite (split_on_name r Hr). reflexivity.
  - cbn in Ho. apply andb_true_iff in Ho as [Hc Ho].
    apply name_char_facts in Hc as (_ & Hslash & _).
    rewrite append_cons. cbn [split_on]. rewrite Hslash, (IH Ho).
    reflexivity.
Qed.

(** The text of the repo marker comes back as owner and name. *)
Lemma repo_marker_clean (o r : string) :
  valid_name o = true -> valid_name r = true ->
  clean (o +:+ "/" +:+ r) /\ split_on "/" (o +:+ "/" +:+ r) = [o; r].
Proof.
  intros Ho Hr.
  pose proof (valid_name_no_space o Ho) as Hso.
  pose proof (valid_name_no_space r Hr) as Hsr.
  unfold valid_name in Ho, Hr.
  apply andb_true_iff in Ho as [Hto Hco].
  apply andb_true_iff in Hr as [Htr Hcr].
  split; [|apply split_on_two_names; assumption].
  apply clean_no_space.
  - destruct o; [discriminate | reflexivity].
  - rewrite !all_chars_app, Hso, Hsr. reflexivity.
Qed.

(** The text of the username marker comes back as the user name. *)
Lemma username_marker_clean (u : string) :
  valid_name u = true ->
  clean ("@" +:+ u) /\ lstrip_at ("@" +:+ u) = u.
Proof.
  intros Hu. pose proof (valid_name_no_space u Hu) as Hs.
  unfold valid_name in Hu. apply andb_true_iff in Hu as [Ht Hc].
  split.
  - apply clean_no_space; [reflexivity|]. cbn. exact Hs.
  - destruct u as [|c u]; [discriminate|]. cbn in Hc.
    apply andb_true_iff in Hc as [Hc _].
    apply name_char_facts in Hc as (_ & _ & Hat).
    unfold lstrip_at.
    change ("@" +:+ String c u) with (String "@" (String c u)).
    cbn [lstrip_with]. rewrite Ascii.eqb_refl, Hat. reflexivity.
Qed.

(** *** Decimal numerals *)

Lemma digit_char_spec (d : Z) :
  0 <= d < 10 ->
  is_digit (digit_char d) = true /\ digit_value (digit_char d) = d.
Proof.
  intros H.
  assert (d = 0 \/ d = 1 \/ d = 2 \/ d = 3 \/ d = 4 \/ d = 5 \/ d = 6
          \/ d = 7 \/ d = 8 \/ d = 9) as Hd by lia.
  repeat (destruct Hd as [->|Hd]); try subst d; split; reflexivity.
Qed.

Lemma digit_char_is_digit (d : Z) :
  0 <= d < 10 -> is_digit (digit_char d) = true.
Proof. intros H. apply digit_char_spec, H. Qed.

Lemma digit_value_digit_char (d : Z) :
  0 <= d < 10 -> digit_value (digit_char d) = d.
Proof. intros H. apply digit_char_spec, H. Qed.

Lemma str_of_nonneg_digits (fuel : nat) :
  forall n, 0 <= n -> all_chars is_digit (str_of_nonneg fuel n) = true.
Proof.
  induction fuel as [|fuel IH]; intros n Hn; cbn; [reflexivity|].
  destruct (Z.ltb_spec n 10).
  - cbn. rewrite digit_char_is_digit by lia. reflexivity.
  - change (String.append ?a ?b) with (a +:+ b).
    rewrite all_chars_app, IH by (apply Z.div_pos; lia). cbn.
    rewrite digit_char_is_digit by (apply Z.mod_pos_bound; lia).
    reflexivity.
Qed.

Lemma str_of_nonneg_truthy (fuel : nat) (n : Z) :
  str_truthy (str_of_nonneg (S fuel) n) = true.
Proof.
  cbn. destruct (n <? 10); [reflexivity|].
  apply str_truthy_app_r. reflexivity.
Qed.

Lemma int_digits_from_app (s1 s2 : string) :
  forall acc,
    int_digits_from acc (s1 +:+ s2)
    = int_digits_from (int_digits_from acc s1) s2.
Proof.
  induction s1 as [|c s1 IH]; intros acc; [reflexivity|].
  rewrite append_cons. cbn. apply IH.
Qed.

Lemma int_of_str_of_nonneg (fuel : nat) :
  forall n, 0 <= n < 2 ^ Z.of_nat fuel ->
    int_of_digits (str_of_nonneg fuel n) = n.
Proof.
  unfold int_of_digits.
  induction fuel as [|fuel IH]; intros n Hn.
  - cbn in *. lia.
  - cbn [str_of_nonneg]. destruct (Z.ltb_spec n 10).
    + cbn. rewrite digit_value_digit_char by lia. lia.
    + change (String.append ?a ?b) with (a +:+ b).
      rewrite int_digits_from_app. rewrite IH.
      * cbn. rewrite digit_value_digit_char
          by (apply Z.mod_pos_bound; lia).
        pose proof (Z.div_mod n 10). lia.
      * split; [apply Z.div_pos; lia|].
        apply Z.div_lt_upper_bound; [lia|].
        rewrite Nat2Z.inj_succ, Z.pow_succ_r in Hn by lia. lia.
Qed.

Lemma digits_fuel_enough (n : Z) :
  0 <= n -> n < 2 ^ Z.of_nat (digits_fuel n).
Proof.
  intros Hn. unfold digits_fuel.
  rewrite Nat2Z.inj_succ, Z2Nat.id by apply Z.log2_nonneg.
  destruct (Z.eq_dec n 0) as [->|Hne]; [reflexivity|].
  apply Z.log2_spec. lia.
Qed.

(** [int(str(len(l)))] is [len(l)], and [str(len(l))] is made of digits. *)
Lemma str_of_len_spec (n : nat) :
  all_chars is_digit (str_of_len n) = true
  /\ str_truthy (str_of_len n) = true
  /\ int_of_digits (str_of_len n) = Z.of_nat n.
Proof.
  unfold str_of_len, str_of_int.
  destruct (Z.ltb_spec (Z.of_nat n) 0); [lia|].
  split; [apply str_of_nonneg_digits; lia|].
  split; [apply str_of_nonneg_truthy|].
  apply int_of_str_of_nonneg. split; [lia|]. apply digits_fuel_enough. lia.
Qed.

Lemma digit_not_space (c : ascii) :
  is_digit c = true -> negb (is_space c) = true.
Proof.
  unfold is_digit, is_space. cbn zeta.
  rewrite andb_true_iff, !N.leb_le. intros [H1 H2].
  apply negb_true_iff, orb_false_iff.
  split; apply andb_false_iff; right; apply N.leb_gt; lia.
Qed.

Lemma str_of_int_clean (z : Z) :
  str_truthy (str_of_int z) = true
  /\ all_chars (fun c => negb (is_space c)) (str_of_int z) = true.
Proof.
  unfold str_of_int. destruct (Z.ltb_spec z 0).
  - split; [reflexivity|]. cbn [all_chars].
    apply andb_true_iff. split; [reflexivity|].
    apply all_chars_impl with (p := is_digit); [apply digit_not_space|].
    apply str_of_nonneg_digits. lia.
  - split; [apply str_of_nonneg_truthy|].
    apply all_chars_impl with (p := is_digit); [apply digit_not_space|].
    apply str_of_nonneg_digits. lia.
Qed.

Lemma keep_digits_id (s : string) :
  all_chars is_digit s = true -> keep_chars is_digit s = s.
Proof.
  induction s as [|c s IH]; cbn; [reflexivity|].
  rewrite andb_true_iff. intros [Hc Hs]. rewrite Hc, (IH Hs). reflexivity.
Qed.

Lemma keep_digit_sign_comma_id (s : string) :
  all_chars is_digit s = true ->
  keep_chars TeamIndex.is_digit_sign_comma s = s.
Proof.
  induction s as [|c s IH]; cbn; [reflexivity|].
  rewrite andb_true_iff. intros [Hc Hs].
  unfold TeamIndex.is_digit_sign_comma at 1. rewrite Hc, (IH Hs).
  reflexivity.
Qed.

End Texts.

(** ** The scraper on the rendered document *)

Section Scraper.
Import Py Report TeamIndex.

Lemma feed_app (s : parser) (l1 l2 : list html_event) :
  feed s (l1 ++ l2) = feed (feed s l1) l2.
Proof. apply fold_left_app. Qed.

Lemma feed_elt (s : parser) (tag : string)
    (attrs : list (string * option string)) (body : list html_event) :
  feed s (elt tag attrs body)
  = handle (feed (handle s (StartTag tag attrs)) body) (EndTag tag).
Proof. unfold elt. cbn [feed fold_left]. apply fold_left_app. Qed.

Lemma feed_ws (s : parser) : feed s [ws] = s.
Proof. reflexivity. Qed.

(** Character data changes nothing while no marker, label or value is
    open. *)
Lemma handle_data_quiet (s : parser) (d : string) :
  in_repo_div s = false -> in_username_div s = false ->
  in_metric_label s = false -> in_metric_value s = false ->
  handle_data s d = s.
Proof.
  intros Hr Hu Hl Hv. unfold handle_data. cbn zeta.
  destruct (negb (str_truthy (strip d))); [reflexivity|].
  rewrite Hr, Hu, Hl, Hv. reflexivity.
Qed.

Lemma handle_inert (m : list (string * string)) (u o n : option string)
    (e : html_event) :
  inert e = true -> handle (settled m u o n) e = settled m u o n.
Proof.
  destruct e as [text|tag attrs|tag|d]; cbn [handle inert]; intros He.
  - reflexivity.
  - unfold handle_starttag. cbn zeta.
    destruct (String.eqb tag "div"); [|reflexivity].
    destruct (class_is (dict_of_pairs attrs) "repo"); [discriminate|].
    destruct (class_is (dict_of_pairs attrs) "username"); [discriminate|].
    destruct (class_is (dict_of_pairs attrs) "metric-card"); [discriminate|].
    reflexivity.
  - unfold handle_endtag. destruct (String.eqb tag "div"); reflexivity.
  - apply handle_data_quiet; reflexivity.
Qed.

Lemma feed_inert (l : list html_event) :
  forall m u o n,
    forallb inert l = true -> feed (settled m u o n) l = settled m u o n.
Proof.
  induction l as [|e l IH]; intros m u o n H; [reflexivity|].
  cbn in H. apply andb_true_iff in H as [He Hl].
  cbn [feed fold_left]. rewrite handle_inert by exact He. apply IH, Hl.
Qed.

Lemma forallb_inert_app (l1 l2 : list html_event) :
  forallb inert (l1 ++ l2) = forallb inert l1 && forallb inert l2.
Proof. apply forallb_app. Qed.

(** The two markers of the header. *)
Lemma feed_repo_div (m : list (string * string)) (u o n : option string)
    (x a b : string) :
  clean x -> split_on "/" x = [a; b] ->
  feed (settled m u o n) (div "repo" [Data x])
  = settled m u (Some a) (Some b).
Proof.
  intros [Hstrip Htruthy] Hsplit. unfold div, elt.
  cbn [app feed fold_left handle].
  change (handle_starttag (settled m u o n) "div" (cls "repo"))
    with {| in_repo_div := true; in_username_div := false;
            in_metric_card := false; in_metric_label := false;
            in_metric_value := false; current_label := None;
            metrics := m; username := u; repo_owner := o; repo_name := n |}.
  unfold handle_data. cbn zeta. rewrite Hstrip, Htruthy.
  cbn [negb in_repo_div]. rewrite Hsplit. reflexivity.
Qed.

Lemma feed_username_div (m : list (string * string)) (u o n : option string)
    (x : string) :
  clean x ->
  feed (settled m u o n) (div "username" [Data x])
  = settled m (Some (lstrip_at x)) o n.
Proof.
  intros [Hstrip Htruthy]. unfold div, elt.
  cbn [app feed fold_left handle].
  change (handle_starttag (settled m u o n) "div" (cls "username"))
    with {| in_repo_div := false; in_username_div := true;
            in_metric_card := false; in_metric_label := false;
            in_metric_value := false; current_label := None;
            metrics := m; username := u; repo_owner := o; repo_name := n |}.
  unfold handle_data. cbn zeta. rewrite Hstrip, Htruthy. reflexivity.
Qed.

(** The label and the value of a metric card. *)
Lemma feed_label_div (cur : option string) (m : list (string * string))
    (u o n : option string) (label : string) :
  clean label ->
  feed (parser_state true false false cur m u o n)
    (div "metric-label" [Data label])
  = parser_state true false false (Some label) m u o n.
Proof.
  intros [Hstrip Htruthy]. unfold div, elt.
  cbn [app feed fold_left handle].
  change (handle_starttag (parser_state true false false cur m u o n) "div"
            (cls "metric-label"))
    with (parser_state true true false cur m u o n).
  unfold handle_data. cbn zeta. rewrite Hstrip, Htruthy. reflexivity.
Qed.

Lemma feed_value_div (m : list (string * string)) (u o n : option string)
    (label value : string) :
  str_truthy label = true -> clean value ->
  feed (parser_state true false false (Some label) m u o n)
    (div "metric-value" [Data value])
  = parser_state true false false (Some label) (dict_set label value m) u o n.
Proof.
  intros Hlabel [Hstrip Htruthy]. unfold div, elt.
  cbn [app feed fold_left handle].
  change (handle_starttag
            (parser_state true false false (Some label) m u o n) "div"
            (cls "metric-value"))
    with (parser_state true false true (Some label) m u o n).
  unfold handle_data. cbn zeta. rewrite Hstrip, Htruthy.
  cbn [negb parser_state in_repo_div in_username_div in_metric_label
       in_metric_value current_label truthy andb get_default].
  rewrite Hlabel. reflexivity.
Qed.

(** The optional description under the value closes the card early; the
    closing tag of the card then finds nothing open. *)
Lemma feed_description (cur : option string) (m : list (string * string))
    (u o n : option string) (d : string) :
  feed (parser_state true false false cur m u o n)
    (div "size-description" [Data d] ++ [ws])
  = settled m u o n.
Proof.
  rewrite feed_app, feed_ws. unfold div. rewrite feed_elt.
  change (handle (parser_state true false false cur m u o n)
            (StartTag "div" (cls "size-description")))
    with (parser_state true false false cur m u o n).
  cbn [feed fold_left handle].
  rewrite handle_data_quiet by reflexivity. reflexivity.
Qed.

Lemma feed_metric_card (attrs : list (string * option string))
    (m : list (string * string)) (u o n : option string)
    (label value : string) (extra : list html_event) :
  handle (settled m u o n) (StartTag "div" attrs)
  = parser_state true false false None m u o n ->
  clean label -> clean value ->
  (forall cur m', feed (parser_state true false false cur m' u o n) extra
                  = parser_state true false false cur m' u o n
                  \/ feed (parser_state true false false cur m' u o n) extra
                     = settled m' u o n) ->
  feed (settled m u o n) (metric_card attrs label value extra)
  = settled (dict_set label value m) u o n.
Proof.
  intros Hopen Hlabel Hvalue Hextra. unfold metric_card.
  rewrite feed_app, feed_ws, feed_elt, Hopen.
  rewrite !feed_app, !feed_ws.
  rewrite feed_label_div by exact Hlabel.
  rewrite feed_value_div by (try apply Hlabel; exact Hvalue).
  destruct (Hextra (Some label) (dict_set label value m)) as [-> | ->];
    reflexivity.
Qed.

Lemma open_card_styled (m : list (string * string)) (u o n : option string)
    (style : string) :
  handle (settled m u o n) (StartTag "div" (styled "metric-card" style))
  = parser_state true false false None m u o n.
Proof. reflexivity. Qed.

Lemma open_card_plain (m : list (string * string)) (u o n : option string) :
  handle (settled m u o n) (StartTag "div" (cls "metric-card"))
  = parser_state true false false None m u o n.
Proof. reflexivity. Qed.

Lemma str_of_int_is_clean (z : Z) : clean (str_of_int z).
Proof. apply clean_no_space; apply str_of_int_clean. Qed.

Lemma signed_is_clean (sign : ascii) (z : Z) :
  is_space sign = false -> clean (String sign "" +:+ str_of_int z).
Proof.
  intros Hsign. apply clean_no_space; [reflexivity|].
  change (String sign "" +:+ str_of_int z) with (String sign (str_of_int z)).
  cbn [all_chars]. rewrite Hsign. apply str_of_int_clean.
Qed.

End Scraper.

Section RenderedDocument.
Import Py Report TeamIndex.

Variable strptime : string -> option datetime.
Variable strftime : string -> datetime -> string.

Lemma clean_literal (s : string) :
  strip s = s -> str_truthy s = true -> clean s.
Proof. split; assumption. Qed.

Lemma feed_header (self : analyzer) (days : Z) (now : datetime)
    (m : list (string * string)) (u o n : option string) :
  valid_name (owner self) = true -> valid_name (repo self) = true ->
  valid_name (Report.username self) = true ->
  feed (settled m u o n) (html_header strftime self days now)
  = settled m (Some (Report.username self)) (Some (owner self))
      (Some (repo self)).
Proof.
  intros Ho Hr Hu. unfold html_header.
  destruct (repo_marker_clean _ _ Ho Hr) as [Hclean Hsplit].
  destruct (username_marker_clean _ Hu) as [Hclean' Hstrip].
  rewrite !feed_app, !feed_ws.
  rewrite (feed_inert [_; _; _; _]) by reflexivity.
  rewrite (feed_inert (elt "h1" _ _)) by reflexivity.
  rewrite (feed_repo_div _ _ _ _ _ _ _ Hclean Hsplit).
  rewrite (feed_username_div _ _ _ _ _ Hclean'), Hstrip.
  rewrite (feed_inert (div "meta" _)) by reflexivity.
  apply feed_inert. reflexivity.
Qed.

Lemma feed_main_metrics (st : stats) (m : list (string * string))
    (u o n : option string) :
  feed (settled m u o n) (main_metrics st)
  = settled
      (dict_set "💾 Commits in PRs"
         (str_of_int (get_default (total_commits_in_prs st) 0))
         (dict_set "📉 Lines Deleted" ("-" +:+ str_of_int (total_deletions st))
            (dict_set "📈 Lines Added"
               ("+" +:+ str_of_int (total_additions st))
               (dict_set "✅ PRs Merged"
                  (str_of_len (length (pull_requests_merged st))) m))))
      u o n.
Proof.
  unfold main_metrics. cbn zeta.
  rewrite feed_app, !feed_ws, feed_elt.
  rewrite handle_inert by reflexivity.
  rewrite !feed_app, !feed_ws.
  rewrite feed_metric_card;
    [ | apply open_card_styled | apply clean_literal; reflexivity
      | apply str_of_int_is_clean | intros; left; reflexivity ].
  rewrite feed_metric_card;
    [ | apply open_card_styled | apply clean_literal; reflexivity
      | apply signed_is_clean; reflexivity | intros; left; reflexivity ].
  rewrite feed_metric_card;
    [ | apply open_card_styled | apply clean_literal; reflexivity
      | apply signed_is_clean; reflexivity | intros; left; reflexivity ].
  rewrite feed_metric_card;
    [ | apply open_card_styled | apply clean_literal; reflexivity
      | apply str_of_int_is_clean | intros; left; reflexivity ].
  reflexivity.
Qed.

Lemma feed_collaboration (st : stats) (m : list (string * string))
    (u o n : option string) :
  feed (settled m u o n) (collaboration_section st)
  = settled
      (dict_set "💬 Issue Comments" (str_of_len (length (issue_comments st)))
         (dict_set "✅ Issues Closed" (str_of_len (length (issues_closed st)))
            (dict_set "🐛 Issues Opened"
               (str_of_len (length (issues_opened st)))
               (dict_set "👀 Reviews Given"
                  (str_of_int
                     (get_default (total_reviews_given st)
                        (Z.of_nat (length (pull_requests_reviewed st)))))
                  m))))
      u o n.
Proof.
  unfold collaboration_section. cbn zeta. unfold div at 1.
  rewrite feed_app, !feed_ws, feed_elt.
  rewrite handle_inert by reflexivity.
  rewrite !feed_app, !feed_ws.
  rewrite (feed_inert (section_title _ _)) by reflexivity.
  rewrite (feed_inert (section_note _)) by reflexivity.
  unfold div at 1. rewrite feed_elt.
  rewrite handle_inert by reflexivity.
  rewrite !feed_app, !feed_ws.
  rewrite feed_metric_card;
    [ | apply open_card_plain | apply clean_literal; reflexivity
      | apply str_of_int_is_clean
      | intros; right; apply feed_description ].
  rewrite feed_metric_card;
    [ | apply open_card_plain | apply clean_literal; reflexivity
      | apply str_of_int_is_clean | intros; left; reflexivity ].
  rewrite feed_metric_card;
    [ | apply open_card_plain | apply clean_literal; reflexivity
      | apply str_of_int_is_clean | intros; left; reflexivity ].
  rewrite feed_metric_card;
    [ | apply open_card_plain | apply clean_literal; reflexivity
      | apply str_of_int_is_clean
      | intros; right; apply feed_description ].
  reflexivity.
Qed.

(** The other parts of the document open no marker and no card. *)

Lemma size_section_inert (st : stats) (evs : list html_event) :
  size_section st = Ok evs -> forallb inert evs = true.
Proof.
  unfold size_section. intros H.
  repeat (apply bind_Ok_inv in H as (? & _ & H)).
  injection H as <-. reflexivity.
Qed.

Lemma cards_inert {A : Type} (card : A -> result (list html_event))
    (l : list A) :
  (forall x c, card x = Ok c -> forallb inert c = true) ->
  forall acc evs,
    forallb inert acc = true ->
    for_each (fun html x => do c <- card x; Ok (html ++ c)) l acc = Ok evs ->
    forallb inert evs = true.
Proof.
  intros Hcard. induction l as [|x l IH]; intros acc evs Hacc H.
  - cbn in H. injection H as <-. exact Hacc.
  - cbn [for_each] in H. apply bind_Ok_inv in H as (acc' & Hstep & H).
    apply bind_Ok_inv in Hstep as (c & Hc & Hstep). injection Hstep as <-.
    apply (IH (acc ++ c) evs); [|exact H].
    rewrite forallb_inert_app, Hacc. apply (Hcard x c Hc).
Qed.

Lemma list_section_inert {A : Type} (l : list A)
    (heading : list html_event) (card : A -> result (list html_event))
    (evs : list html_event) :
  forallb inert heading = true ->
  (forall x c, card x = Ok c -> forallb inert c = true) ->
  list_section l heading card = Ok evs -> forallb inert evs = true.
Proof.
  intros Hheading Hcard. unfold list_section.
  destruct l as [|x l]; [intros [= <-]; reflexivity|].
  intros H. apply bind_Ok_inv in H as (body & Hbody & H). injection H as <-.
  apply (cards_inert card (x :: l) Hcard [] body eq_refl) in Hbody.
  cbn [forallb app]. rewrite !forallb_inert_app, Hheading, Hbody.
  reflexivity.
Qed.

Lemma pr_card_inert (pr : pr_data) (c : list html_event) :
  pr_card strptime strftime pr = Ok c -> forallb inert c = true.
Proof.
  unfold pr_card. cbn zeta. intros H.
  apply bind_Ok_inv in H as (created & _ & H). injection H as <-.
  destruct (truthy (pd_merged_at pr));
    [|destruct (String.eqb (pd_state pr) "closed")]; reflexivity.
Qed.

Lemma closed_issue_card_inert (issue : closed_issue_data)
    (c : list html_event) :
  closed_issue_card strptime strftime issue = Ok c ->
  forallb inert c = true.
Proof.
  unfold closed_issue_card. intros H.
  apply bind_Ok_inv in H as (closed_date & _ & H). injection H as <-.
  reflexivity.
Qed.

Lemma review_card_inert (review : review_data) (c : list html_event) :
  review_card strptime strftime review = Ok c -> forallb inert c = true.
Proof.
  unfold review_card. cbn zeta. intros H.
  apply bind_Ok_inv in H as (review_date & _ & H). injection H as <-.
  reflexivity.
Qed.

Lemma issue_card_inert (issue : issue_data) (c : list html_event) :
  issue_card strptime strftime issue = Ok c -> forallb inert c = true.
Proof.
  unfold issue_card. cbn zeta. intros H.
  apply bind_Ok_inv in H as (created & _ & H). injection H as <-.
  unfold open_or_closed_badge.
  destruct (String.eqb (id_state issue) "open"); reflexivity.
Qed.

Lemma comment_card_inert (comment : comment_data) (c : list html_event) :
  comment_card strptime strftime comment = Ok c -> forallb inert c = true.
Proof.
  unfold comment_card. cbn zeta. intros H.
  apply bind_Ok_inv in H as (created & _ & H). injection H as <-.
  unfold open_or_closed_badge.
  destruct (String.eqb (md_issue_state comment) "open"); reflexivity.
Qed.

Lemma commit_item_inert (commit : commit_data) (c : list html_event) :
  commit_item strptime strftime commit = Ok c -> forallb inert c = true.
Proof.
  unfold commit_item. cbn zeta. intros H.
  apply bind_Ok_inv in H as (authored & _ & H). injection H as <-.
  reflexivity.
Qed.

Lemma commits_section_inert (st : stats) (evs : list html_event) :
  commits_section strptime strftime st = Ok evs -> forallb inert evs = true.
Proof.
  unfold commits_section.
  destruct (commits_authored st) as [|x l]; [intros [= <-]; reflexivity|].
  intros H. apply bind_Ok_inv in H as (items & Hitems & H). injection H as <-.
  apply (cards_inert _ _ commit_item_inert [] items eq_refl) in Hitems.
  cbn [forallb app]. rewrite !forallb_inert_app, Hitems.
  match goal with
  | |- context [if ?c then _ else _] => destruct c
  end; reflexivity.
Qed.

(** The state of the scraper at the end of a rendered document. *)
Lemma feed_document (self : analyzer) (days : Z) (now : datetime)
    (doc : list html_event) :
  valid_name (owner self) = true -> valid_name (repo self) = true ->
  valid_name (Report.username self) = true ->
  _generate_html_report strptime strftime self days now = Ok doc ->
  exists rest,
    feed new_parser doc
    = settled
        (("✅ PRs Merged",
          str_of_len (length (pull_requests_merged (self_stats self))))
         :: rest)
        (Some (Report.username self)) (Some (owner self))
        (Some (repo self)).
Proof.
  intros Ho Hr Hu H. unfold _generate_html_report in H. cbn zeta in H.
  apply bind_Ok_inv in H as (sizes & Hsizes & H).
  apply bind_Ok_inv in H as (prs & Hprs & H).
  apply bind_Ok_inv in H as (closed & Hclosed & H).
  apply bind_Ok_inv in H as (reviews & Hreviews & H).
  apply bind_Ok_inv in H as (issues & Hissues & H).
  apply bind_Ok_inv in H as (comments & Hcomments & H).
  apply bind_Ok_inv in H as (commits & Hcommits & H).
  apply Ok_inj in H. subst doc.
  apply size_section_inert in Hsizes.
  apply list_section_inert in Hprs;
    [|reflexivity | apply pr_card_inert].
  apply list_section_inert in Hclosed;
    [|reflexivity | apply closed_issue_card_inert].
  apply list_section_inert in Hreviews;
    [|reflexivity | apply review_card_inert].
  apply list_section_inert in Hissues;
    [|reflexivity | apply issue_card_inert].
  apply list_section_inert in Hcomments;
    [|reflexivity | apply comment_card_inert].
  apply commits_section_inert in Hcommits.
  change new_parser with (settled [] None None None).
  rewrite !feed_app.
  rewrite (feed_inert (html_head self)) by reflexivity.
  rewrite feed_header by assumption.
  rewrite feed_main_metrics.
  rewrite (feed_inert sizes) by exact Hsizes.
  rewrite feed_collaboration.
  rewrite (feed_inert prs) by exact Hprs.
  rewrite (feed_inert closed) by exact Hclosed.
  rewrite (feed_inert reviews) by exact Hreviews.
  rewrite (feed_inert issues) by exact Hissues.
  rewrite (feed_inert comments) by exact Hcomments.
  rewrite (feed_inert commits) by exact Hcommits.
  rewrite feed_inert by reflexivity.
  eexists. reflexivity.
Qed.

End RenderedDocument.

Section RoundTripClaims.
Import Py Report TeamIndex.

(** C6 as stated fails: for the analyzer whose user name was given with
    a leading at sign the document renders, the scraper reads it, and the
    user name it recovers has lost the sign. *)
Lemma at_sign_username_not_recovered :
  exists doc r,
    _generate_html_report Demo.strptime_utc Demo.strftime_micros at_octocat
      7 0 = Ok doc
    /\ parse_report_file "octocat-hello-world-2024-01-08.html" "2024-01-08"
         doc = Some r
    /\ r_username r = "octocat"
    /\ r_username r <> Report.username at_octocat.
Proof.
  do 2 eexists.
  split; [vm_compute; reflexivity|].
  split; [vm_compute; reflexivity|].
  split; [reflexivity | discriminate].
Qed.

(** C6, amended: when the owner, repository and user names are not empty
    and made of letters, digits, hyphens, underscores and dots, the texts
    of the statistics carry no markup, and the rendering to HTML
    completes, then scraping the rendered document yields a row with the
    same username and the same owner/repo text, and both metric
    extractions find under the label PRs Merged the number of merged pull
    requests. *)
Theorem render_scrape_round_trip (strptime : string -> option datetime)
    (strftime : string -> datetime -> string) (self : analyzer)
    (days : Z) (now : datetime) (doc : list html_event)
    (filename report_date : string) :
  valid_name (owner self) = true ->
  valid_name (repo self) = true ->
  valid_name (Report.username self) = true ->
  plain_stats (self_stats self) = true ->
  _generate_html_report strptime strftime self days now = Ok doc ->
  exists r,
    parse_report_file filename report_date doc = Some r
    /\ r_username r = Report.username self
    /\ r_repo r = owner self +:+ "/" +:+ repo self
    /\ get_metric_value_summary (r_metrics r) "PRs Merged"
       = Z.of_nat (length (pull_requests_merged (self_stats self)))
    /\ get_metric_value_row (r_metrics r) "PRs Merged"
       = str_of_len (length (pull_requests_merged (self_stats self))).
Proof.
  intros Ho Hr Hu _ Hdoc.
  destruct (feed_document strptime strftime self days now doc Ho Hr Hu Hdoc)
    as [rest Hfeed].
  unfold parse_report_file. rewrite Hfeed.
  cbn [TeamIndex.username repo_owner repo_name metrics settled parser_state
       truthy str_of_optional get_default].
  rewrite (valid_name_truthy _ Hu), (valid_name_truthy _ Ho).
  cbn [negb orb].
  eexists. split; [reflexivity|].
  cbn [r_username r_repo r_metrics get_metric_value_summary
       get_metric_value_row].
  change (contains "PRs Merged" "✅ PRs Merged") with true. cbn iota.
  destruct (str_of_len_spec (length (pull_requests_merged (self_stats self))))
    as (Hdigits & Htruthy & Hint).
  rewrite (keep_digits_id _ Hdigits), (keep_digit_sign_comma_id _ Hdigits).
  rewrite Htruthy, Hint. auto.
Qed.

Lemma render_scrape_round_trip_witness :
  exists doc r,
    _generate_html_report Demo.strptime_utc Demo.strftime_micros
      octocat_after_run 7 0 = Ok doc
    /\ parse_report_file "octocat-hello-world-2024-01-08.html" "2024-01-08"
         doc = Some r
    /\ r_username r = "octocat"
    /\ get_metric_value_summary (r_metrics r) "PRs Merged" = 1.
Proof.
  destruct (_generate_html_report Demo.strptime_utc Demo.strftime_micros
              octocat_after_run 7 0) as [doc|e] eqn:Hdoc;
    [|vm_compute in Hdoc; discriminate Hdoc].
  destruct (render_scrape_round_trip Demo.strptime_utc Demo.strftime_micros
              octocat_after_run 7 0 doc
              "octocat-hello-world-2024-01-08.html" "2024-01-08")
    as (r & Hparse & Huser & _ & Hmerged & _).
  - vm_compute. reflexivity.
  - vm_compute. reflexivity.
  - vm_compute. reflexivity.
  - vm_compute. reflexivity.
  - exact Hdoc.
  - exists doc, r. split; [reflexivity|]. split; [exact Hparse|].
    split; [rewrite Huser; vm_compute; reflexivity|].
    rewrite Hmerged. vm_compute. reflexivity.
Defined.

End RoundTripClaims.

(** * Further properties *)

(** ** Roll-ups and records of the pull requests *)

Section PullRequestRollups.
Import Py Report.

Lemma analyze_pr_loop_totals (prs : list pull_json) :
  forall st st' c c',
    for_each analyze_pr prs (st, c) = Ok (st', c') ->
    pull_requests_opened st'
    = pull_requests_opened st ++ map make_pr_data prs
    /\ total_additions st'
       = total_additions st
         + sum_Z (map pd_additions (map make_pr_data prs))
    /\ total_deletions st'
       = total_deletions st
         + sum_Z (map pd_deletions (map make_pr_data prs))
    /\ total_files_changed st'
       = total_files_changed st
         + sum_Z (map pd_changed_files (map make_pr_data prs))
    /\ c' = c + sum_Z (map pd_commits (map make_pr_data prs)).
Proof.
  induction prs as [|pr prs IH]; intros st st' c c' H.
  - cbn in H. injection H as <- <-. cbn. rewrite app_nil_r.
    repeat split; lia.
  - cbn [for_each] in H. apply bind_Ok_inv in H as ([st1 c1] & Hstep & H).
    apply IH in H as (Ho & Ha & Hd & Hf & Hc).
    unfold analyze_pr in Hstep. cbn [fst snd] in Hstep.
    apply bind_Ok_inv in Hstep as (sizes & _ & Hstep).
    injection Hstep as <- <-.
    cbn [pull_requests_opened total_additions total_deletions
         total_files_changed set_pr_fields] in Ho, Ha, Hd, Hf.
    rewrite Ho, Ha, Hd, Hf, Hc. cbn [map]. rewrite <- app_assoc.
    unfold sum_Z.
    cbn [foldr app pd_additions pd_deletions pd_changed_files pd_commits
         make_pr_data].
    repeat split; lia.
Qed.

(** The three pull-request lists at the end of a run of a new analyzer. *)
Lemma run_pull_request_lists (strptime : string -> option datetime)
    (api : github_api) (o r u : string) (days : Z)
    (end_date_arg : option datetime) (now : datetime) (self' : analyzer) :
  analyze_activity strptime api (new_analyzer o r u) days end_date_arg now
  = Ok self' ->
  let since := get_default end_date_arg now - timedelta_days days in
  let self0 :=
    set_dates (new_analyzer o r u) (get_default end_date_arg now) since in
  let prs := fetch_user_prs api self0 since in
  pull_requests_opened (self_stats self') = map make_pr_data prs
  /\ pull_requests_merged (self_stats self')
     = map make_pr_data (List.filter (fun p => truthy (pj_merged_at p)) prs)
  /\ pull_requests_closed (self_stats self')
     = map make_pr_data
         (List.filter
            (fun p => negb (truthy (pj_merged_at p))
                      && String.eqb (pj_state p) "closed") prs).
Proof.
  intros Hrun since self0 prs.
  apply analyze_activity_Ok_inv in Hrun
    as (st1 & st2 & closed & kept & H1 & H2 & _ & _ & ->).
  fold since self0 in H1. fold prs in H1.
  destruct (analyze_prs_Ok init_stats prs init_pr_sizes_keys)
    as (adds & dels & files & sizes & c' & Hprs & _ & _).
  cbn [self_stats new_analyzer] in H1. rewrite Hprs in H1.
  apply Ok_inj in H1. subst st1.
  apply analyze_reviews_Ok_inv in H2 as (reviewed & _ & ->).
  cbn. auto.
Qed.

(** X1: in the statistics of a completed run of a new analyzer the four
    roll-ups are sums over the opened pull requests, whatever their final
    state: total_additions, total_deletions and total_files_changed add
    the fields of every opened record, and total_commits_in_prs adds the
    commit count each record carries. *)
Theorem rollups_sum_over_opened (strptime : string -> option datetime)
    (api : github_api) (o r u : string) (days : Z)
    (end_date_arg : option datetime) (now : datetime) (self' : analyzer) :
  analyze_activity strptime api (new_analyzer o r u) days end_date_arg now
  = Ok self' ->
  let st := self_stats self' in
  total_additions st = sum_Z (map pd_additions (pull_requests_opened st))
  /\ total_deletions st = sum_Z (map pd_deletions (pull_requests_opened st))
  /\ total_files_changed st
     = sum_Z (map pd_changed_files (pull_requests_opened st))
  /\ total_commits_in_prs st
     = Some (sum_Z (map pd_commits (pull_requests_opened st))).
Proof.
  intros Hrun st. subst st.
  apply analyze_activity_Ok_inv in Hrun
    as (st1 & st2 & closed & kept & H1 & H2 & _ & _ & ->).
  apply analyze_reviews_Ok_inv in H2 as (reviewed & _ & ->).
  unfold analyze_prs in H1.
  apply bind_Ok_inv in H1 as ([st0 c0] & Hloop & H1).
  apply Ok_inj in H1. subst st1.
  apply analyze_pr_loop_totals in Hloop as (Ho & Ha & Hd & Hf & Hc).
  cbn in Ho, Ha, Hd, Hf |- *.
  rewrite Ho, Ha, Hd, Hf, Hc. repeat split; try lia; f_equal; lia.
Qed.

Lemma rollups_sum_over_opened_witness :
  exists self',
    analyze_activity Demo.strptime_utc Demo.octo_api
      (new_analyzer "octo-org" "hello-world" "octocat") 7
      (Some Demo.window_end) 0 = Ok self'
    /\ total_additions (self_stats self') = 725
    /\ total_commits_in_prs (self_stats self') = Some 6.
Proof.
  destruct (analyze_activity Demo.strptime_utc Demo.octo_api
              (new_analyzer "octo-org" "hello-world" "octocat") 7
              (Some Demo.window_end) 0) as [self'|e] eqn:Hrun;
    [|vm_compute in Hrun; discriminate Hrun].
  exists self'. split; [reflexivity|].
  destruct (rollups_sum_over_opened _ _ _ _ _ _ _ _ _ Hrun)
    as (Ha & _ & _ & Hc).
  destruct (run_pull_request_lists _ _ _ _ _ _ _ _ _ Hrun) as (Ho & _).
  rewrite Ha, Hc, Ho. split; vm_compute; reflexivity.
Defined.

Lemma filter_split_length {A : Type} (p q : A -> bool) (l : list A) :
  (length (List.filter p l)
   + length (List.filter (fun x => negb (p x) && q x) l)
   <= length l)%nat.
Proof.
  induction l as [|x l IH]; cbn; [lia|].
  destruct (p x); cbn; [lia|]. destruct (q x); cbn; lia.
Qed.

(** X2: in the statistics of a completed run of a new analyzer every
    opened record has total_changes = additions + deletions and carries
    the size class of that total; every merged or closed record is also
    an opened record, and merged and closed together are never more than
    opened. *)
Theorem opened_records_consistent (strptime : string -> option datetime)
    (api : github_api) (o r u : string) (days : Z)
    (end_date_arg : option datetime) (now : datetime) (self' : analyzer) :
  analyze_activity strptime api (new_analyzer o r u) days end_date_arg now
  = Ok self' ->
  let st := self_stats self' in
  (forall d, In d (pull_requests_opened st) ->
     pd_total_changes d = pd_additions d + pd_deletions d
     /\ pd_size d = _get_pr_size (pd_total_changes d))
  /\ (forall d, In d (pull_requests_merged st) ->
        In d (pull_requests_opened st))
  /\ (forall d, In d (pull_requests_closed st) ->
        In d (pull_requests_opened st))
  /\ (length (pull_requests_merged st) + length (pull_requests_closed st)
      <= length (pull_requests_opened st))%nat.
Proof.
  intros Hrun st. subst st.
  destruct (run_pull_request_lists _ _ _ _ _ _ _ _ _ Hrun) as (-> & -> & ->).
  split; [|split; [|split]].
  - intros d Hd. apply in_map_iff in Hd as (pr & <- & _). split; reflexivity.
  - intros d Hd. apply in_map_iff in Hd as (pr & <- & Hpr).
    apply filter_In in Hpr as [Hpr _]. apply in_map, Hpr.
  - intros d Hd. apply in_map_iff in Hd as (pr & <- & Hpr).
    apply filter_In in Hpr as [Hpr _]. apply in_map, Hpr.
  - rewrite !length_map. apply filter_split_length.
Qed.

Lemma opened_records_consistent_witness :
  exists self',
    analyze_activity Demo.strptime_utc Demo.octo_api
      (new_analyzer "octo-org" "hello-world" "octocat") 7
      (Some Demo.window_end) 0 = Ok self'
    /\ (length (pull_requests_merged (self_stats self'))
        + length (pull_requests_closed (self_stats self'))
        <= length (pull_requests_opened (self_stats self')))%nat.
Proof.
  destruct (analyze_activity Demo.strptime_utc Demo.octo_api
              (new_analyzer "octo-org" "hello-world" "octocat") 7
              (Some Demo.window_end) 0) as [self'|e] eqn:Hrun;
    [|vm_compute in Hrun; discriminate Hrun].
  exists self'. split; [reflexivity|].
  apply (opened_records_consistent _ _ _ _ _ _ _ _ _ Hrun).
Defined.

End PullRequestRollups.

(** ** Fetching *)

Section Fetching.
Import Py Report.

Lemma fold_left_collect {A B : Type} (keep : A -> bool) (f : A -> B)
    (l : list A) :
  forall acc,
    fold_left (fun acc x => if keep x then acc ++ [f x] else acc) l acc
    = acc ++ map f (List.filter keep l).
Proof.
  induction l as [|x l IH]; intros acc; cbn.
  - rewrite app_nil_r. reflexivity.
  - rewrite IH. destruct (keep x); cbn; [|reflexivity].
    rewrite <- app_assoc. reflexivity.
Qed.

(** X3: when the pull-request search succeeds, fetch_user_prs returns the
    details of the found pull requests whose detail request succeeded, in
    search order; a pull request whose detail request fails is skipped,
    so the result is never longer than the search result. *)
Theorem fetch_user_prs_details (api : github_api) (self : analyzer)
    (since : datetime) :
  status_code (search_prs api since) = 200 ->
  fetch_user_prs api self since
  = map (fun item => json (get_pull api (ij_number item)))
      (List.filter
         (fun item => status_code (get_pull api (ij_number item)) =? 200)
         (json (search_prs api since)))
  /\ (length (fetch_user_prs api self since)
      <= length (json (search_prs api since)))%nat.
Proof.
  intros Hok.
  assert (Heq : fetch_user_prs api self since
                = map (fun item => json (get_pull api (ij_number item)))
                    (List.filter
                       (fun item =>
                          status_code (get_pull api (ij_number item)) =? 200)
                       (json (search_prs api since)))).
  { unfold fetch_user_prs. cbn zeta. rewrite Hok.
    change (negb (200 =? 200)) with false. cbv iota.
    apply (fold_left_collect
             (fun item => status_code (get_pull api (ij_number item)) =? 200)
             (fun item => json (get_pull api (ij_number item)))). }
  split; [exact Heq|].
  rewrite Heq, length_map. apply List.filter_length_le.
Qed.

Lemma fetch_user_prs_details_witness :
  length (fetch_user_prs Demo.octo_api Demo.octocat Demo.window_start)
  = 3%nat.
Proof.
  rewrite (proj1 (fetch_user_prs_details Demo.octo_api Demo.octocat
                    Demo.window_start eq_refl)).
  reflexivity.
Defined.

End Fetching.

Section Attribution.
Import Py Report.

Variable strptime : string -> option datetime.
Variable api : github_api.

Lemma actor_login_Ok (event : event_json) (login : string) :
  actor_login event = Ok login ->
  login = get_default (ej_actor_login event) "".
Proof.
  unfold actor_login. destruct (ej_actor event) as [| |[| |l]];
    try discriminate; intros H; apply Ok_inj in H; subst login; reflexivity.
Qed.

Lemma closed_by_user_true (self : analyzer) (since : datetime)
    (events : list event_json) :
  closed_by_user strptime self since events = Ok true ->
  exists event s t,
    In event events
    /\ ej_event event = Some "closed"
    /\ same_login (get_default (ej_actor_login event) "") (username self)
       = true
    /\ ej_created_at event = Some s /\ s <> ""
    /\ strptime s = Some t /\ since <= t.
Proof.
  induction events as [|event rest IH]; cbn [closed_by_user];
    [discriminate|].
  intros H.
  assert (Hrest : closed_by_user strptime self since rest = Ok true ->
                  exists event0 s t,
                    In event0 (event :: rest)
                    /\ ej_event event0 = Some "closed"
                    /\ same_login (get_default (ej_actor_login event0) "")
                         (username self) = true
                    /\ ej_created_at event0 = Some s /\ s <> ""
                    /\ strptime s = Some t /\ since <= t).
  { intros Hr. destruct (IH Hr) as (e0 & s & t & Hin & Hrest).
    exists e0, s, t. split; [right; exact Hin | exact Hrest]. }
  destruct (ej_event event) as [kind|] eqn:Hkind; [|auto].
  destruct (String.eqb_spec kind "closed") as [->|Hne]; [|auto].
  apply bind_Ok_inv in H as (login & Hactor & H).
  apply actor_login_Ok in Hactor. subst login.
  destruct (same_login (get_default (ej_actor_login event) "")
              (username self)) eqn:Hlogin; [|auto].
  cbn zeta in H.
  destruct (ej_created_at event) as [s|] eqn:Hstamp; cbn [truthy] in H;
    [|auto].
  destruct s as [|c s]; cbn [str_truthy get_default] in H; [auto|].
  unfold parse_time in H.
  destruct (strptime (String c s)) as [t|] eqn:Hparse; [|discriminate].
  cbn [bind] in H. destruct (Z.leb_spec since t) as [Hle|Hlt]; [|auto].
  exists event, (String c s), t.
  split; [left; reflexivity|]. split; [exact Hkind|].
  split; [exact Hlogin|]. split; [exact Hstamp|].
  split; [discriminate|]. split; [exact Hparse | exact Hle].
Qed.

Lemma closed_by_user_false (self : analyzer) (since : datetime)
    (events : list event_json) :
  closed_by_user strptime self since events = Ok false ->
  forall event s,
    In event events ->
    ej_event event = Some "closed" ->
    same_login (get_default (ej_actor_login event) "") (username self)
    = true ->
    ej_created_at event = Some s -> s <> "" ->
    exists t, strptime s = Some t /\ t < since.
Proof.
  induction events as [|event rest IH]; cbn [closed_by_user];
    [intros _ ? ? []|].
  intros H event0 s0 [<-|Hin] Hkind Hlogin Hstamp Hne.
  - rewrite Hkind in H.
    change (String.eqb "closed" "closed") with true in H. cbv iota in H.
    apply bind_Ok_inv in H as (login & Hactor & H).
    apply actor_login_Ok in Hactor. subst login.
    rewrite Hlogin in H. cbn zeta in H. rewrite Hstamp in H.
    destruct s0 as [|c s0]; [congruence|].
    cbn [truthy str_truthy get_default] in H. unfold parse_time in H.
    destruct (strptime (String c s0)) as [t|]; [|discriminate].
    cbn [bind] in H. destruct (Z.leb_spec since t); [discriminate|].
    exists t. auto.
  - apply (IH) with (event := event0); auto.
    destruct (ej_event event) as [kind|]; [|exact H].
    destruct (String.eqb kind "closed"); [|exact H].
    apply bind_Ok_inv in H as (login & _ & H).
    destruct (same_login login (username self)); [|exact H].
    cbn zeta in H.
    destruct (truthy (ej_created_at event)); [|exact H].
    unfold parse_time in H.
    destruct (strptime (get_default (ej_created_at event) ""));
      [|discriminate].
    cbn [bind] in H. destruct (since <=? d); [discriminate | exact H].
Qed.

Lemma closed_issue_loop (self : analyzer) (since : datetime)
    (candidates : list issue_json) :
  forall acc issues,
    for_each
      (fun user_closed_issues issue =>
         let events_response := get_issue_events api (ij_number issue) in
         if status_code events_response =? 200 then
           do closed <- closed_by_user strptime self since
                          (json events_response);
           Ok (if closed then user_closed_issues ++ [issue]
               else user_closed_issues)
         else Ok user_closed_issues)
      candidates acc = Ok issues ->
    issues
    = acc ++ List.filter
               (fun issue =>
                  (status_code (get_issue_events api (ij_number issue))
                   =? 200)
                  && match closed_by_user strptime self since
                             (json (get_issue_events api (ij_number issue)))
                     with
                     | Ok closed => closed
                     | Raise _ => false
                     end)
               candidates.
Proof.
  induction candidates as [|issue rest IH]; intros acc issues H.
  - cbn in H. injection H as <-. cbn. rewrite app_nil_r. reflexivity.
  - cbn [for_each] in H. apply bind_Ok_inv in H as (acc1 & Hstep & H).
    apply IH in H. subst issues. cbn zeta in Hstep. cbn [List.filter].
    destruct (status_code (get_issue_events api (ij_number issue)) =? 200);
      cbn [andb].
    + apply bind_Ok_inv in Hstep as (closed & Hclosed & Hstep).
      rewrite Hclosed. apply Ok_inj in Hstep. subst acc1.
      destruct closed; [|reflexivity].
      rewrite <- app_assoc. reflexivity.
    + apply Ok_inj in Hstep. subst acc1. reflexivity.
Qed.

Lemma closed_issue_loop_ran (self : analyzer) (since : datetime)
    (candidates : list issue_json) :
  forall acc issues,
    for_each
      (fun user_closed_issues issue =>
         let events_response := get_issue_events api (ij_number issue) in
         if status_code events_response =? 200 then
           do closed <- closed_by_user strptime self since
                          (json events_response);
           Ok (if closed then user_closed_issues ++ [issue]
               else user_closed_issues)
         else Ok user_closed_issues)
      candidates acc = Ok issues ->
    forall issue,
      In issue candidates ->
      status_code (get_issue_events api (ij_number issue)) = 200 ->
      exists b,
        closed_by_user strptime self since
          (json (get_issue_events api (ij_number issue))) = Ok b.
Proof.
  induction candidates as [|i l IH]; intros acc issues H issue Hcand Hok;
    [destruct Hcand|].
  cbn [for_each] in H. apply bind_Ok_inv in H as (acc1 & Hstep & H).
  destruct Hcand as [->|Hcand]; [|apply (IH acc1 issues H issue Hcand Hok)].
  cbn zeta in Hstep. apply Z.eqb_eq in Hok. rewrite Hok in Hstep.
  apply bind_Ok_inv in Hstep as (b & Hb & _). eauto.
Qed.

(** X4: when fetch_user_closed_issues returns, the issues it attributes
    to the user form a sub-sequence of the closed issues the search found,
    in search order.  An issue is attributed only if its event request
    succeeded and its history holds a closed event whose actor is the
    user, letter case apart, and whose time stamp is at or after the
    window start; an issue whose events were read and that is not
    attributed has no such event: every closed event of the user with a
    time stamp lies before the window start. *)
Theorem closed_issue_attribution (self : analyzer) (since : datetime)
    (issues : list issue_json) :
  fetch_user_closed_issues strptime api self since = Ok issues ->
  (exists keep,
     issues = List.filter keep (json (search_closed_issues api since))
     \/ issues = [])
  /\ (forall issue, In issue issues ->
        In issue (json (search_closed_issues api since))
        /\ status_code (get_issue_events api (ij_number issue)) = 200
        /\ exists event s t,
             In event (json (get_issue_events api (ij_number issue)))
             /\ ej_event event = Some "closed"
             /\ same_login (get_default (ej_actor_login event) "")
                  (username self) = true
             /\ ej_created_at event = Some s /\ s <> ""
             /\ strptime s = Some t /\ since <= t)
  /\ (forall issue event s,
        status_code (search_closed_issues api since) = 200 ->
        In issue (json (search_closed_issues api since)) ->
        ~ In issue issues ->
        status_code (get_issue_events api (ij_number issue)) = 200 ->
        In event (json (get_issue_events api (ij_number issue))) ->
        ej_event event = Some "closed" ->
        same_login (get_default (ej_actor_login event) "") (username self)
        = true ->
        ej_created_at event = Some s -> s <> "" ->
        exists t, strptime s = Some t /\ t < since).
Proof.
  intros H. unfold fetch_user_closed_issues in H. cbn zeta in H.
  destruct (status_code (search_closed_issues api since) =? 200) eqn:Hs;
    cbn [negb] in H.
  - pose proof H as Hloop. apply closed_issue_loop in Hloop.
    cbn [app] in Hloop.
    split; [eexists; left; exact Hloop|].
    split.
    + intros issue Hin. rewrite Hloop in Hin.
      apply filter_In in Hin as [Hcand Hkeep].
      apply andb_true_iff in Hkeep as [Hok Hclosed].
      apply Z.eqb_eq in Hok. split; [exact Hcand|]. split; [exact Hok|].
      destruct (closed_by_user strptime self since
                  (json (get_issue_events api (ij_number issue))))
        as [closed|e] eqn:Hc; [|discriminate].
      subst closed. apply (closed_by_user_true _ _ _ Hc).
    + intros issue event s _ Hcand Hnot Hok Hev Hkind Hlogin Hstamp Hne.
      destruct (closed_issue_loop_ran self since _ _ _ H issue Hcand Hok)
        as [b Hb]. revert Hb.
      destruct b; intros Hb.
      * exfalso. apply Hnot. rewrite Hloop. apply filter_In.
        split; [exact Hcand|]. rewrite Hb.
        apply Z.eqb_eq in Hok. rewrite Hok. reflexivity.
      * apply (closed_by_user_false _ _ _ Hb event s); assumption.
  - apply Ok_inj in H. subst issues.
    split; [exists (fun _ => false); right; reflexivity|].
    split; [intros issue []|].
    intros issue event s Hok. apply Z.eqb_neq in Hs. contradiction.
Qed.

End Attribution.

Section AttributionSample.
Import Py Report.

Lemma closed_issue_attribution_witness :
  exists issues,
    fetch_user_closed_issues Demo.strptime_utc Demo.octo_api Demo.octocat
      Demo.window_start = Ok issues
    /\ length issues = 1%nat
    /\ forall issue, In issue issues ->
         In issue (json (search_closed_issues Demo.octo_api
                           Demo.window_start)).
Proof.
  destruct (fetch_user_closed_issues Demo.strptime_utc Demo.octo_api
              Demo.octocat Demo.window_start) as [issues|e] eqn:H;
    [|vm_compute in H; discriminate H].
  exists issues. split; [reflexivity|]. split.
  - vm_compute in H. injection H as <-. reflexivity.
  - intros issue Hin.
    apply (proj1 (proj2 (closed_issue_attribution Demo.strptime_utc
                           Demo.octo_api Demo.octocat Demo.window_start
                           issues H)) issue Hin).
Defined.

End AttributionSample.

(** ** Reviews and comments of the user *)

Section UserFilter.
Import Py Report.

Variable api : github_api.

Lemma fold_left_app_In {A B : Type} (f : A -> list B) (l : list A) :
  forall acc x,
    In x (fold_left (fun acc a => acc ++ f a) l acc)
    <-> In x acc \/ exists a, In a l /\ In x (f a).
Proof.
  induction l as [|a l IH]; intros acc x; cbn [fold_left].
  - split; [auto | intros [H|(a & [] & _)]; exact H].
  - rewrite IH, in_app_iff. split.
    + intros [[H|H]|(a' & Ha' & H)]; eauto.
      * right. exists a. split; [left; reflexivity | exact H].
      * right. exists a'. split; [right; exact Ha' | exact H].
    + intros [H|(a' & [<-|Ha'] & H)]; eauto.
Qed.

Lemma fetch_review_pages_In (self : analyzer) (pages : list Z) :
  forall acc r,
    In r (fetch_review_pages api self pages acc) ->
    In r acc
    \/ exists page pr,
         In page pages
         /\ status_code (search_reviewed_prs api page) = 200
         /\ In pr (json (search_reviewed_prs api page))
         /\ In r (reviews_of_pr api self pr).
Proof.
  induction pages as [|page rest IH]; intros acc r; cbn [fetch_review_pages];
    [auto|].
  destruct (Z.eqb_spec (status_code (search_reviewed_prs api page)) 200)
    as [Hok|Hko]; cbn [negb]; [|auto].
  destruct (json (search_reviewed_prs api page)) as [|pr0 prs] eqn:Hitems;
    [auto|].
  intros H. apply IH in H as [H|(page' & pr & Hp & Hok' & Hpr & Hr)].
  - apply fold_left_app_In in H as [H|(pr & Hpr & Hr)]; [auto|].
    right. exists page, pr. rewrite Hitems.
    split; [left; reflexivity | auto].
  - right. exists page', pr. split; [right; exact Hp | auto].
Qed.

Lemma fetch_comment_pages_In (self : analyzer) (pages : list Z) :
  forall acc c,
    In c (fetch_comment_pages api self pages acc) ->
    In c acc
    \/ exists page issue,
         In page pages
         /\ status_code (search_commented_issues api page) = 200
         /\ In issue (json (search_commented_issues api page))
         /\ In c (comments_of_issue api self issue).
Proof.
  induction pages as [|page rest IH]; intros acc c;
    cbn [fetch_comment_pages]; [auto|].
  destruct (Z.eqb_spec (status_code (search_commented_issues api page)) 200)
    as [Hok|Hko]; cbn [negb]; [|auto].
  destruct (json (search_commented_issues api page)) as [|i0 items] eqn:Hitems;
    [auto|].
  intros H. apply IH in H as [H|(page' & issue & Hp & Hok' & Hi & Hc)].
  - apply fold_left_app_In in H as [H|(issue & Hi & Hc)]; [auto|].
    right. exists page, issue. rewrite Hitems.
    split; [left; reflexivity | auto].
  - right. exists page', issue. split; [right; exact Hp | auto].
Qed.

(** X5: every review that fetch_user_reviews returns was written under
    the analyzed login, letter case apart, and comes from the review list
    of a pull request found on one of the pages 1 to 3 of the review
    search, whose number, title and URL it carries; a review of another
    login in the same list is not returned. *)
Theorem fetched_reviews_are_the_users (self : analyzer) (since : datetime)
    (r : fetched_review) :
  In r (fetch_user_reviews api self since) ->
  same_login (rj_login (fr_review r)) (username self) = true
  /\ exists page pr,
       In page [1; 2; 3]
       /\ status_code (search_reviewed_prs api page) = 200
       /\ In pr (json (search_reviewed_prs api page))
       /\ status_code (get_pull_reviews api (ij_number pr)) = 200
       /\ In (fr_review r) (json (get_pull_reviews api (ij_number pr)))
       /\ fr_pr_number r = ij_number pr
       /\ fr_pr_title r = ij_title pr
       /\ fr_pr_url r = ij_html_url pr.
Proof.
  unfold fetch_user_reviews. intros H.
  apply fetch_review_pages_In in H as [[]|(page & pr & Hp & Hok & Hpr & Hr)].
  unfold reviews_of_pr in Hr. cbn zeta in Hr.
  destruct (Z.eqb_spec (status_code (get_pull_reviews api (ij_number pr))) 200)
    as [Hok'|]; [|destruct Hr].
  apply in_map_iff in Hr as (review & <- & Hreview).
  apply filter_In in Hreview as [Hin Hlogin].
  split; [exact Hlogin|]. exists page, pr. cbn. auto 10.
Qed.

(** X6: every comment that fetch_user_issue_comments returns was written
    under the analyzed login, letter case apart, and comes from the
    thread of an issue found on one of the pages 1 to 3 of the comment
    search, whose number, title, URL and state it carries; the comments
    of other authors in the same thread are not returned. *)
Theorem fetched_comments_are_the_users (self : analyzer) (since : datetime)
    (c : fetched_comment) :
  In c (fetch_user_issue_comments api self since) ->
  same_login (cj_login (fc_comment c)) (username self) = true
  /\ exists page issue,
       In page [1; 2; 3]
       /\ status_code (search_commented_issues api page) = 200
       /\ In issue (json (search_commented_issues api page))
       /\ status_code (get_issue_comments api (ij_number issue)) = 200
       /\ In (fc_comment c) (json (get_issue_comments api (ij_number issue)))
       /\ fc_issue_number c = ij_number issue
       /\ fc_issue_title c = ij_title issue
       /\ fc_issue_url c = ij_html_url issue
       /\ fc_issue_state c = ij_state issue.
Proof.
  unfold fetch_user_issue_comments. intros H.
  apply fetch_comment_pages_In in H
    as [[]|(page & issue & Hp & Hok & Hi & Hc)].
  unfold comments_of_issue in Hc. cbn zeta in Hc.
  destruct (Z.eqb_spec
              (status_code (get_issue_comments api (ij_number issue))) 200)
    as [Hok'|]; [|destruct Hc].
  apply in_map_iff in Hc as (comment & <- & Hcomment).
  apply filter_In in Hcomment as [Hin Hlogin].
  split; [exact Hlogin|]. exists page, issue. cbn. auto 12.
Qed.

End UserFilter.

Section UserFilterSamples.
Import Py Report.

Lemma fetched_reviews_are_the_users_witness :
  same_login "Octocat" (username Demo.octocat) = true.
Proof.
  apply (fetched_reviews_are_the_users Demo.octo_api Demo.octocat
           Demo.window_start
           {| fr_review := Demo.review_too_old; fr_pr_number := 7;
              fr_pr_title := "Refactor";
              fr_pr_url := "https://example.test/items/7" |}).
  vm_compute. right. left. reflexivity.
Defined.

Lemma fetched_comments_are_the_users_witness :
  same_login "octocat" (username Demo.octocat) = true.
Proof.
  apply (fetched_comments_are_the_users Demo.octo_api Demo.octocat
           Demo.window_start
           {| fc_comment := Demo.comment "octocat"
                              (Some "2024-01-04T15:00:00Z");
              fc_issue_number := 11; fc_issue_title := "Docs unclear";
              fc_issue_url := "https://example.test/items/11";
              fc_issue_state := "open" |}).
  vm_compute. left. reflexivity.
Defined.

End UserFilterSamples.

(** ** The page limit *)

Section PageLimit.
Import Py Report.






End PageLimit.

(** ** What a run retains *)

Section Retained.
Import Py Report.

Lemma take_str_len (s : string) :
  forall n, (str_len (take_str n s) <= n)%nat.
Proof.
  induction s as [|c s IH]; intros n; cbn [take_str str_len]; [lia|].
  destruct (is_continuation c) eqn:E.
  - cbn [str_len]. rewrite E. apply IH.
  - destruct n as [|n]; cbn [str_len]; [lia|].
    rewrite E. specialize (IH n). lia.
Qed.

Lemma take_str_short (s : string) :
  forall n, (str_len s <= n)%nat -> take_str n s = s.
Proof.
  induction s as [|c s IH]; intros n; cbn [take_str str_len]; [reflexivity|].
  destruct (is_continuation c).
  - intros H. rewrite (IH n H). reflexivity.
  - destruct n as [|n]; [lia|]. intros H. rewrite (IH n) by lia.
    reflexivity.
Qed.

Lemma first_line_no_newline (s : string) :
  all_chars (fun c => negb (Ascii.eqb c "010")) (first_line s) = true.
Proof.
  induction s as [|c s IH]; cbn; [reflexivity|].
  destruct (Ascii.eqb c "010") eqn:E; cbn; [reflexivity|].
  rewrite E, IH. reflexivity.
Qed.

Lemma first_line_prefix (s : string) :
  exists rest, s = first_line s +:+ rest.
Proof.
  induction s as [|c s [rest IH]]; cbn; [exists ""; reflexivity|].
  destruct (Ascii.eqb c "010"); [exists (String c s); reflexivity|].
  exists rest. rewrite append_cons. congruence.
Qed.

Lemma first_line_split (s : string) :
  s = first_line s
  \/ exists rest, s = first_line s +:+ String "010" rest.
Proof.
  induction s as [|c s IH]; cbn; [left; reflexivity|].
  destruct (Ascii.eqb_spec c "010") as [->|Hne].
  - right. exists s. reflexivity.
  - destruct IH as [IH|[rest IH]].
    + left. congruence.
    + right. exists rest. rewrite append_cons. congruence.
Qed.

Lemma take_str_prefix (s : string) :
  forall n, exists rest, s = take_str n s +:+ rest.
Proof.
  induction s as [|c s IH]; intros n; cbn [take_str];
    [exists ""; reflexivity|].
  destruct (is_continuation c).
  - destruct (IH n) as [rest Hrest]. exists rest.
    rewrite append_cons. congruence.
  - destruct n as [|n]; [exists (String c s); reflexivity|].
    destruct (IH n) as [rest Hrest]. exists rest.
    rewrite append_cons. congruence.
Qed.

Variable strptime : string -> option datetime.
Variable api : github_api.

Lemma run_commits (self self' : analyzer) (days : Z)
    (end_date_arg : option datetime) (now : datetime) :
  analyze_activity strptime api self days end_date_arg now = Ok self' ->
  let since := get_default end_date_arg now - timedelta_days days in
  let self0 := set_dates self (get_default end_date_arg now) since in
  commits_authored (self_stats self')
  = commits_authored (self_stats self)
    ++ map make_commit_data (fetch_user_commits api self0 since).
Proof.
  intros Hrun since self0.
  apply analyze_activity_Ok_inv in Hrun
    as (st1 & st2 & closed & kept & H1 & H2 & _ & _ & ->).
  apply analyze_prs_frame in H1 as (_ & _ & _ & _ & Hcommits).
  apply analyze_reviews_Ok_inv in H2 as (reviewed & _ & ->).
  cbn. rewrite Hcommits. reflexivity.
Qed.

(** X8: in the statistics of a completed run of a new analyzer every
    retained review and every retained issue comment is the record of a
    fetched item written under the analyzed login (letter case apart)
    that passed the date test; comments and reviews of other authors
    never reach the statistics. *)
Theorem retained_items_are_the_users (o r u : string) (days : Z)
    (end_date_arg : option datetime) (now : datetime) (self' : analyzer) :
  analyze_activity strptime api (new_analyzer o r u) days end_date_arg now
  = Ok self' ->
  let since := get_default end_date_arg now - timedelta_days days in
  let self0 :=
    set_dates (new_analyzer o r u) (get_default end_date_arg now) since in
  (forall d, In d (pull_requests_reviewed (self_stats self')) ->
     exists rv,
       In rv (fetch_user_reviews api self0 since)
       /\ d = make_review_data rv
       /\ same_login (rj_login (fr_review rv)) u = true
       /\ passes_date_filter strptime since (rj_submitted_at (fr_review rv))
          = true)
  /\ (forall d, In d (issue_comments (self_stats self')) ->
        exists c,
          In c (fetch_user_issue_comments api self0 since)
          /\ d = make_comment_data c
          /\ same_login (cj_login (fc_comment c)) u = true
          /\ passes_date_filter strptime since
               (cj_created_at (fc_comment c)) = true).
Proof.
  intros Hrun since self0. split.
  - intros d Hd.
    destruct (run_reviews strptime api _ _ _ _ _ Hrun) as (Hlist & _).
    fold since self0 in Hlist. rewrite Hlist in Hd. cbn [app] in Hd.
    apply in_map_iff in Hd as (rv & <- & Hrv).
    apply filter_In in Hrv as [Hin Hpass].
    exists rv. split; [exact Hin|]. split; [reflexivity|].
    split; [|exact Hpass].
    apply (fetched_reviews_are_the_users api self0 since rv Hin).
  - intros d Hd.
    pose proof (run_comments strptime api _ _ _ _ _ Hrun) as Hlist.
    cbv zeta in Hlist. fold since self0 in Hlist.
    rewrite Hlist in Hd. cbn [app] in Hd.
    apply in_map_iff in Hd as (c & <- & Hc).
    apply filter_In in Hc as [Hin Hpass].
    exists c. split; [exact Hin|]. split; [reflexivity|].
    split; [|exact Hpass].
    apply (fetched_comments_are_the_users api self0 since c Hin).
Qed.

(** X9: in the statistics of a completed run of a new analyzer every
    retained review and comment is the record of a fetched one whose
    kept body is a prefix of the fetched body, of at most 200 characters,
    and the whole body when that has at most 200 characters; every
    retained commit is the record of a fetched commit whose kept sha is a
    prefix of the fetched sha, of at most 7 characters, and whose kept
    message holds no line feed and is the fetched message or the part of
    it before its first line feed. *)
Theorem previews_are_bounded (o r u : string) (days : Z)
    (end_date_arg : option datetime) (now : datetime) (self' : analyzer) :
  analyze_activity strptime api (new_analyzer o r u) days end_date_arg now
  = Ok self' ->
  let since := get_default end_date_arg now - timedelta_days days in
  let self0 :=
    set_dates (new_analyzer o r u) (get_default end_date_arg now) since in
  (forall d, In d (pull_requests_reviewed (self_stats self')) ->
     exists rv rest,
       In rv (fetch_user_reviews api self0 since)
       /\ d = make_review_data rv
       /\ get_default (rj_body (fr_review rv)) "" = rd_body d +:+ rest
       /\ (str_len (rd_body d) <= 200)%nat
       /\ ((str_len (get_default (rj_body (fr_review rv)) "") <= 200)%nat ->
           rd_body d = get_default (rj_body (fr_review rv)) ""))
  /\ (forall d, In d (issue_comments (self_stats self')) ->
        exists c rest,
          In c (fetch_user_issue_comments api self0 since)
          /\ d = make_comment_data c
          /\ get_default (cj_body (fc_comment c)) "" = md_body d +:+ rest
          /\ (str_len (md_body d) <= 200)%nat
          /\ ((str_len (get_default (cj_body (fc_comment c)) "") <= 200)%nat
              -> md_body d = get_default (cj_body (fc_comment c)) ""))
  /\ (forall d, In d (commits_authored (self_stats self')) ->
        exists commit rest,
          In commit (fetch_user_commits api self0 since)
          /\ d = make_commit_data commit
          /\ cm_sha commit = td_sha d +:+ rest
          /\ (str_len (td_sha d) <= 7)%nat
          /\ all_chars (fun c => negb (Ascii.eqb c "010")) (td_message d)
             = true
          /\ (cm_message commit = td_message d
              \/ exists tail,
                   cm_message commit
                   = td_message d +:+ String "010" tail)).
Proof.
  intros Hrun since self0.
  destruct (run_reviews strptime api _ _ _ _ _ Hrun) as (Hreviews & _).
  pose proof (run_comments strptime api _ _ _ _ _ Hrun) as Hcomments.
  pose proof (run_commits _ _ _ _ _ Hrun) as Hcommits.
  cbv zeta in Hcomments, Hcommits.
  fold since self0 in Hreviews, Hcomments, Hcommits.
  split; [|split].
  - intros d Hd. rewrite Hreviews in Hd. cbn [app] in Hd.
    apply in_map_iff in Hd as (rv & <- & Hrv).
    apply filter_In in Hrv as [Hin _].
    destruct (take_str_prefix (get_default (rj_body (fr_review rv)) "") 200)
      as [rest Hrest].
    exists rv, rest. cbn [rd_body make_review_data].
    split; [exact Hin|]. split; [reflexivity|]. split; [exact Hrest|].
    split; [apply take_str_len | apply take_str_short].
  - intros d Hd. rewrite Hcomments in Hd. cbn [app] in Hd.
    apply in_map_iff in Hd as (c & <- & Hc).
    apply filter_In in Hc as [Hin _].
    destruct (take_str_prefix (get_default (cj_body (fc_comment c)) "") 200)
      as [rest Hrest].
    exists c, rest. cbn [md_body make_comment_data].
    split; [exact Hin|]. split; [reflexivity|]. split; [exact Hrest|].
    split; [apply take_str_len | apply take_str_short].
  - intros d Hd. rewrite Hcommits in Hd. cbn [app] in Hd.
    apply in_map_iff in Hd as (commit & <- & Hin).
    destruct (take_str_prefix (cm_sha commit) 7) as [rest Hrest].
    exists commit, rest. cbn [td_sha td_message make_commit_data].
    split; [exact Hin|]. split; [reflexivity|]. split; [exact Hrest|].
    split; [apply take_str_len|].
    split; [apply first_line_no_newline | apply first_line_split].
Qed.

End Retained.

Section RetainedSamples.
Import Py Report.

Lemma retained_items_are_the_users_witness :
  exists self',
    analyze_activity Demo.strptime_utc Demo.octo_api
      (new_analyzer "octo-org" "hello-world" "octocat") 7
      (Some Demo.window_end) 0 = Ok self'
    /\ forall d, In d (issue_comments (self_stats self')) ->
         exists c, d = make_comment_data c
                   /\ same_login (cj_login (fc_comment c)) "octocat" = true.
Proof.
  destruct (analyze_activity Demo.strptime_utc Demo.octo_api
              (new_analyzer "octo-org" "hello-world" "octocat") 7
              (Some Demo.window_end) 0) as [self'|e] eqn:Hrun;
    [|vm_compute in Hrun; discriminate Hrun].
  exists self'. split; [reflexivity|]. intros d Hd.
  destruct (proj2 (retained_items_are_the_users Demo.strptime_utc
                     Demo.octo_api _ _ _ _ _ _ _ Hrun) d Hd)
    as (c & _ & Hd' & Hlogin & _).
  exists c. auto.
Defined.

Lemma previews_are_bounded_witness :
  exists self',
    analyze_activity Demo.strptime_utc Demo.octo_api
      (new_analyzer "octo-org" "hello-world" "octocat") 7
      (Some Demo.window_end) 0 = Ok self'
    /\ forall d, In d (commits_authored (self_stats self')) ->
         (str_len (td_sha d) <= 7)%nat.
Proof.
  destruct (analyze_activity Demo.strptime_utc Demo.octo_api
              (new_analyzer "octo-org" "hello-world" "octocat") 7
              (Some Demo.window_end) 0) as [self'|e] eqn:Hrun;
    [|vm_compute in Hrun; discriminate Hrun].
  exists self'. split; [reflexivity|]. intros d Hd.
  destruct (proj2 (proj2 (previews_are_bounded Demo.strptime_utc
                            Demo.octo_api _ _ _ _ _ _ _ Hrun)) d Hd)
    as (commit & rest & _ & _ & _ & Hlen & _).
  exact Hlen.
Defined.

End RetainedSamples.

(** ** When the HTML rendering completes *)

Section RenderCompletes.
Import Py Report.

Variable strptime : string -> option datetime.
Variable strftime : string -> datetime -> string.

Lemma parse_time_Ok (s : string) :
  (exists t, parse_time strptime s = Ok t) <-> is_Some (strptime s).
Proof.
  unfold parse_time. destruct (strptime s) as [t|].
  - split; eauto.
  - split; [intros [t H]; discriminate | intros [t H]; discriminate].
Qed.

Lemma bind_Ok_iff {A B : Type} (m : result A) (k : A -> result B) :
  (exists b, bind m k = Ok b) <-> exists a, m = Ok a /\ exists b, k a = Ok b.
Proof.
  split.
  - intros [b H]. apply bind_Ok_inv in H as (a & Ha & Hb). eauto.
  - intros (a & -> & b & Hb). exists b. exact Hb.
Qed.

Lemma cards_Ok {A : Type} (card : A -> result (list html_event))
    (l : list A) :
  (exists evs, cards card l = Ok evs)
  <-> forall x, In x l -> exists c, card x = Ok c.
Proof.
  unfold cards. generalize (@nil html_event) as acc.
  induction l as [|x l IH]; intros acc; cbn [for_each].
  - split; [intros _ x [] | eauto].
  - rewrite bind_Ok_iff. split.
    + intros (acc' & Hstep & Hrest) y [<-|Hy].
      * apply bind_Ok_inv in Hstep as (c & Hc & _). eauto.
      * apply (proj1 (IH acc') Hrest y Hy).
    + intros Hall. destruct (Hall x (or_introl eq_refl)) as [c Hc].
      exists (acc ++ c). rewrite Hc. split; [reflexivity|].
      apply IH. intros y Hy. apply Hall. right. exact Hy.
Qed.

Lemma list_section_Ok {A : Type} (l : list A) (heading : list html_event)
    (card : A -> result (list html_event)) :
  (exists evs, list_section l heading card = Ok evs)
  <-> forall x, In x l -> exists c, card x = Ok c.
Proof.
  unfold list_section. destruct l as [|x l].
  - split; [intros _ y [] | eauto].
  - rewrite bind_Ok_iff, <- cards_Ok. split.
    + intros (body & Hbody & _). eauto.
    + intros [body Hbody]. eauto.
Qed.

Lemma size_section_Ok (st : stats) :
  (exists evs, size_section st = Ok evs) <-> has_size_keys (pr_sizes st).
Proof.
  unfold size_section, counter_get, has_size_keys. split.
  - intros [evs H] k Hk. cbn in Hk.
    repeat match type of H with
           | context [pr_sizes st !! ?key] =>
               destruct (pr_sizes st !! key) eqn:?; [|discriminate H]
           end.
    destruct Hk as [<-|[<-|[<-|[<-|[<-|[<-|[]]]]]]]; eauto.
  - intros Hkeys.
    destruct (Hkeys "xs") as [xs ->]; [cbn; tauto|].
    destruct (Hkeys "s") as [s ->]; [cbn; tauto|].
    destruct (Hkeys "m") as [m ->]; [cbn; tauto|].
    destruct (Hkeys "l") as [l ->]; [cbn; tauto|].
    destruct (Hkeys "xl") as [xl ->]; [cbn; tauto|].
    destruct (Hkeys "xxl") as [xxl ->]; [cbn; tauto|].
    cbn [bind]. eauto.
Qed.

Lemma pr_card_Ok (pr : pr_data) :
  (exists c, pr_card strptime strftime pr = Ok c)
  <-> is_Some (strptime (pd_created_at pr)).
Proof.
  unfold pr_card. cbn zeta. rewrite bind_Ok_iff, <- parse_time_Ok.
  split; [intros (t & Ht & _) | intros [t Ht]]; eauto.
Qed.

Lemma issue_card_Ok (issue : issue_data) :
  (exists c, issue_card strptime strftime issue = Ok c)
  <-> is_Some (strptime (id_created_at issue)).
Proof.
  unfold issue_card. cbn zeta. rewrite bind_Ok_iff, <- parse_time_Ok.
  split; [intros (t & Ht & _) | intros [t Ht]]; eauto.
Qed.

Lemma commit_item_Ok (commit : commit_data) :
  (exists c, commit_item strptime strftime commit = Ok c)
  <-> is_Some (strptime (td_date commit)).
Proof.
  unfold commit_item. cbn zeta. rewrite bind_Ok_iff, <- parse_time_Ok.
  split; [intros (t & Ht & _) | intros [t Ht]]; eauto.
Qed.

Lemma closed_issue_card_Ok (issue : closed_issue_data) :
  (exists c, closed_issue_card strptime strftime issue = Ok c)
  <-> (truthy (cd_closed_at issue) = true ->
       is_Some (strptime (get_default (cd_closed_at issue) ""))).
Proof.
  unfold closed_issue_card. rewrite bind_Ok_iff.
  destruct (truthy (cd_closed_at issue)).
  - rewrite <- parse_time_Ok. split.
    + intros (d & Hd & _) _.
      apply bind_Ok_inv in Hd as (t & Ht & _). eauto.
    + intros H. destruct (H eq_refl) as [t Ht]. rewrite Ht. cbn [bind].
      eauto.
  - split; [intros _ H; discriminate | eauto].
Qed.

Lemma review_card_Ok (review : review_data) :
  (exists c, review_card strptime strftime review = Ok c)
  <-> (truthy (rd_submitted_at review) = true ->
       is_Some (strptime (get_default (rd_submitted_at review) ""))).
Proof.
  unfold review_card. cbn zeta. rewrite bind_Ok_iff.
  destruct (truthy (rd_submitted_at review)).
  - rewrite <- parse_time_Ok. split.
    + intros (d & Hd & _) _.
      apply bind_Ok_inv in Hd as (t & Ht & _). eauto.
    + intros H. destruct (H eq_refl) as [t Ht]. rewrite Ht. cbn [bind].
      eauto.
  - split; [intros _ H; discriminate | eauto].
Qed.

Lemma comment_card_Ok (comment : comment_data) :
  (exists c, comment_card strptime strftime comment = Ok c)
  <-> exists s, md_created_at comment = Some s /\ is_Some (strptime s).
Proof.
  unfold comment_card. rewrite bind_Ok_iff.
  destruct (md_created_at comment) as [s|].
  - split.
    + intros (t & Ht & _). exists s. split; [reflexivity|].
      apply parse_time_Ok. eauto.
    + intros (s' & [= <-] & Hs). apply parse_time_Ok in Hs as [t Ht].
      exists t. split; [exact Ht | eauto].
  - split; [intros (t & Ht & _); discriminate|].
    intros (s & Hs & _). discriminate.
Qed.

Lemma commits_section_Ok (st : stats) :
  (exists evs, commits_section strptime strftime st = Ok evs)
  <-> forall c, In c (firstn 15 (commits_authored st)) ->
        is_Some (strptime (td_date c)).
Proof.
  unfold commits_section. destruct (commits_authored st) as [|x l] eqn:E.
  - rewrite firstn_nil. split; [intros _ c [] | eauto].
  - rewrite bind_Ok_iff, <- E. split.
    + intros (items & Hitems & _) c Hc. apply commit_item_Ok.
      apply (proj1 (cards_Ok _ _) (ex_intro _ items Hitems) c Hc).
    + intros H.
      destruct (proj2 (cards_Ok (commit_item strptime strftime)
                         (firstn 15 (commits_authored st)))) as [items Hi].
      { intros c Hc. apply commit_item_Ok, H, Hc. }
      exists items. split; [exact Hi | eauto].
Qed.

(** X10: the HTML rendering completes exactly on the statistics whose six
    size counters exist and whose printed time stamps all parse: the
    created_at of every opened pull request and issue, the closed_at and
    submitted_at that are present, the created_at of every comment, and
    the date of the first fifteen commits.  In particular it raises on a
    comment without created_at (while a review without submitted_at is
    printed as Unknown), and the commits after the fifteenth are not
    parsed. *)
Theorem html_report_completes (self : analyzer) (days : Z) (now : datetime) :
  ((exists doc, _generate_html_report strptime strftime self days now
                = Ok doc)
   <-> renderable strptime (self_stats self))
  /\ (forall c, In c (issue_comments (self_stats self)) ->
        md_created_at c = None ->
        exists e, _generate_html_report strptime strftime self days now
                  = Raise e).
Proof.
  assert (Hiff : (exists doc, _generate_html_report strptime strftime self
                                days now = Ok doc)
                 <-> renderable strptime (self_stats self)).
  { unfold _generate_html_report, renderable. cbn zeta.
    rewrite bind_Ok_iff. split.
    - intros (sizes & Hsizes & H).
      apply bind_Ok_iff in H as (prs & Hprs & H).
      apply bind_Ok_iff in H as (closed & Hclosed & H).
      apply bind_Ok_iff in H as (reviews & Hreviews & H).
      apply bind_Ok_iff in H as (issues & Hissues & H).
      apply bind_Ok_iff in H as (comments & Hcomments & H).
      apply bind_Ok_iff in H as (commits & Hcommits & _).
      split; [apply size_section_Ok; eauto|].
      split; [intros pr Hpr; apply pr_card_Ok;
              apply (proj1 (list_section_Ok _ _ _)
                       (ex_intro _ prs Hprs) pr Hpr)|].
      split; [intros i Hi; apply closed_issue_card_Ok;
              apply (proj1 (list_section_Ok _ _ _)
                       (ex_intro _ closed Hclosed) i Hi)|].
      split; [intros r Hr; apply review_card_Ok;
              apply (proj1 (list_section_Ok _ _ _)
                       (ex_intro _ reviews Hreviews) r Hr)|].
      split; [intros i Hi; apply issue_card_Ok;
              apply (proj1 (list_section_Ok _ _ _)
                       (ex_intro _ issues Hissues) i Hi)|].
      split; [intros c Hc; apply comment_card_Ok;
              apply (proj1 (list_section_Ok _ _ _)
                       (ex_intro _ comments Hcomments) c Hc)|].
      apply commits_section_Ok. eauto.
    - intros (Hkeys & Hprs & Hclosed & Hreviews & Hissues & Hcomments
              & Hcommits).
      apply size_section_Ok in Hkeys as [sizes Hsizes].
      exists sizes. split; [exact Hsizes|].
      apply bind_Ok_iff.
      destruct (proj2 (list_section_Ok (pull_requests_opened (self_stats self))
                         (section_title "🔀"
                            (count_title "Pull Requests Opened"
                               (length (pull_requests_opened
                                          (self_stats self)))))
                         (pr_card strptime strftime)))
        as [prs Hp]; [intros pr Hpr; apply pr_card_Ok, Hprs, Hpr|].
      exists prs. split; [exact Hp|]. apply bind_Ok_iff.
      match goal with
      | |- exists a, list_section ?l ?h ?card = Ok a /\ _ =>
          destruct (proj2 (list_section_Ok l h card)) as [closed Hcl];
            [intros i Hi; apply closed_issue_card_Ok, Hclosed, Hi|];
            exists closed; split; [exact Hcl|]
      end.
      apply bind_Ok_iff.
      match goal with
      | |- exists a, list_section ?l ?h ?card = Ok a /\ _ =>
          destruct (proj2 (list_section_Ok l h card)) as [reviews Hrv];
            [intros r Hr; apply review_card_Ok, Hreviews, Hr|];
            exists reviews; split; [exact Hrv|]
      end.
      apply bind_Ok_iff.
      match goal with
      | |- exists a, list_section ?l ?h ?card = Ok a /\ _ =>
          destruct (proj2 (list_section_Ok l h card)) as [issues His];
            [intros i Hi; apply issue_card_Ok, Hissues, Hi|];
            exists issues; split; [exact His|]
      end.
      apply bind_Ok_iff.
      match goal with
      | |- exists a, list_section ?l ?h ?card = Ok a /\ _ =>
          destruct (proj2 (list_section_Ok l h card)) as [comments Hm];
            [intros c Hcc; apply comment_card_Ok, Hcomments, Hcc|];
            exists comments; split; [exact Hm|]
      end.
      apply bind_Ok_iff.
      apply commits_section_Ok in Hcommits as [commits Hcm].
      exists commits. split; [exact Hcm|]. eexists. reflexivity. }
  split; [exact Hiff|].
  intros c Hc Hnone.
  destruct (_generate_html_report strptime strftime self days now)
    as [doc|e] eqn:Hdoc; [|eauto].
  exfalso.
  destruct (proj1 Hiff (ex_intro _ doc eq_refl))
    as (_ & _ & _ & _ & _ & Hcomments & _).
  destruct (Hcomments c Hc) as (s & Hs & _). congruence.
Qed.

End RenderCompletes.

Section RenderCompletesSample.
Import Py Report.

Lemma html_report_completes_witness :
  exists e,
    _generate_html_report Demo.strptime_utc Demo.strftime_micros
      (set_stats Demo.octocat
         (set_issue_comments init_stats
            [{| md_issue_number := 11; md_issue_title := "Docs unclear";
                md_issue_url := "https://example.test/items/11";
                md_issue_state := "open"; md_created_at := None;
                md_body := "Thanks" |}]))
      7 0 = Raise e.
Proof.
  apply (proj2 (html_report_completes Demo.strptime_utc Demo.strftime_micros
                  _ 7 0)
           {| md_issue_number := 11; md_issue_title := "Docs unclear";
              md_issue_url := "https://example.test/items/11";
              md_issue_state := "open"; md_created_at := None;
              md_body := "Thanks" |}).
  - cbn. left. reflexivity.
  - reflexivity.
Defined.

End RenderCompletesSample.

(** ** The tables of the index page *)

Section TextOrderFacts.

Lemma str_ltb_leb (a b : string) :
  String.ltb a b = true -> String.leb a b = true.
Proof.
  unfold String.ltb, String.leb.
  destruct (String.compare a b); congruence.
Qed.

Lemma str_ltb_irrefl (a : string) : String.ltb a a = false.
Proof.
  unfold String.ltb. pose proof (String.compare_antisym a a) as H.
  destruct (String.compare a a); cbn in H; congruence.
Qed.

Lemma str_leb_cases (a b : string) :
  String.leb a b = true -> a = b \/ String.ltb a b = true.
Proof.
  unfold String.ltb, String.leb.
  destruct (String.compare a b) eqn:E; intros H.
  - left. apply String.compare_eq_iff, E.
  - right. reflexivity.
  - discriminate.
Qed.

Lemma str_nltb_leb (a b : string) :
  String.ltb a b = false -> String.leb b a = true.
Proof.
  unfold String.ltb, String.leb. rewrite (String.compare_antisym b a).
  destruct (String.compare a b); cbn; congruence.
Qed.

Lemma str_leb_antisym (a b : string) :
  String.leb a b = true -> String.leb b a = true -> a = b.
Proof.
  intros H1 H2. destruct (str_leb_cases a b H1) as [E|Hlt]; [exact E|].
  destruct (str_leb_cases b a H2) as [E|Hlt']; [symmetry; exact E|].
  exfalso. unfold String.ltb in Hlt, Hlt'.
  rewrite (String.compare_antisym b a) in Hlt'.
  destruct (String.compare a b); cbn in Hlt'; discriminate.
Qed.

End TextOrderFacts.

Section SortedOutput.
Import Py TeamIndex.

Context {A : Type}.

Lemma In_insort (before : A -> A -> bool) (x y : A) (l : list A) :
  In y (insort before x l) <-> y = x \/ In y l.
Proof.
  split.
  - intros H. apply (Permutation_in _ (insort_Permutation before x l)) in H.
    destruct H; auto.
  - intros H.
    apply (Permutation_in _ (Permutation_sym (insort_Permutation before x l))).
    destruct H; [left; auto | right; auto].
Qed.

(** Sorting by a text key gives a list in the order of the keys. *)
Lemma sort_by_key_sorted (key : A -> string) (l : list A) :
  StronglySorted (fun a b => String.leb (key a) (key b) = true)
    (sort_by (fun y x => String.ltb (key y) (key x)) l).
Proof.
  unfold sort_by. induction l as [|x l IH]; cbn [foldr]; [constructor|].
  revert IH. generalize (foldr (insort (fun y x => String.ltb (key y) (key x)))
                           [] l) as s.
  induction s as [|y s IHs]; intros Hs; cbn [insort].
  - repeat constructor.
  - apply StronglySorted_inv in Hs as [Hs Hy].
    destruct (String.ltb (key y) (key x)) eqn:E.
    + constructor; [apply IHs, Hs|].
      apply List.Forall_forall. intros z Hz.
      apply In_insort in Hz as [->|Hz].
      * apply str_ltb_leb, E.
      * rewrite List.Forall_forall in Hy. apply Hy, Hz.
    + constructor; [constructor; assumption|].
      apply str_nltb_leb in E.
      constructor; [exact E|].
      apply List.Forall_forall. intros z Hz.
      rewrite List.Forall_forall in Hy.
      apply str_leb_trans with (key y); [exact E | apply Hy, Hz].
Qed.

End SortedOutput.

Section SummaryTable.
Import Py TeamIndex IndexPage.

Lemma dict_set_keys {V : Type} (k x : string) (v : V)
    (d : list (string * V)) :
  In x (map fst (dict_set k v d)) <-> x = k \/ In x (map fst d).
Proof.
  rewrite !dict_get_keys.
  destruct (String.eqb_spec x k) as [->|Hne].
  - rewrite dict_get_set_eq. split; eauto.
  - rewrite dict_get_set_ne by exact Hne. tauto.
Qed.

Lemma dict_set_NoDup {V : Type} (k : string) (v : V)
    (d : list (string * V)) :
  List.NoDup (map fst d) -> List.NoDup (map fst (dict_set k v d)).
Proof.
  induction d as [|[k' v'] d IH]; cbn [dict_set map fst]; intros Hd.
  - constructor; [intros [] | constructor].
  - apply List.NoDup_cons_iff in Hd as [Hk' Hd].
    destruct (String.eqb_spec k' k) as [->|Hne]; cbn [map fst].
    + constructor; assumption.
    + constructor; [|apply IH, Hd].
      rewrite dict_set_keys. intros [E|H]; [congruence | contradiction].
Qed.

Lemma summary_keys_NoDup (l : list report) (d : list (string * summary)) :
  List.NoDup (map fst d) ->
  List.NoDup (map fst (fold_left summary_step l d)).
Proof.
  revert d. induction l as [|r l IH]; intros d Hd; cbn [fold_left].
  - exact Hd.
  - apply IH. unfold summary_step. apply dict_set_NoDup, Hd.
Qed.

Lemma summary_keys (reports : list report) (u : string) :
  In u (map fst (fold_left summary_step (sort_by newer_first reports) []))
  <-> In u (map r_username reports).
Proof.
  rewrite dict_get_keys.
  pose proof (user_summary_agrees reports u) as H.
  destruct (dict_get u _) as [e|].
  - split; [intros _; apply H | eauto].
  - split; [intros [? ?]; discriminate | intros Hin; contradiction].
Qed.

Lemma strictly_sorted (l : list string) :
  StronglySorted (fun a b => String.leb a b = true) l -> List.NoDup l ->
  StronglySorted (fun a b => String.ltb a b = true) l.
Proof.
  induction 1 as [|x l Hs IH Hx]; intros Hd; [constructor|].
  apply List.NoDup_cons_iff in Hd as [Hnotin Hd].
  constructor; [apply IH, Hd|].
  rewrite List.Forall_forall in *. intros y Hy.
  destruct (str_leb_cases x y (Hx y Hy)) as [->|Hlt]; [contradiction|].
  exact Hlt.
Qed.

(** X11: the table "Summary by User" has exactly one row for each user
    that has a report: the user names of its rows are in strictly
    ascending text order, they are the user names of the reports, and
    there are as many rows as the page header counts unique users. *)
Theorem summary_table_one_row_per_user (user_names : list (string * string))
    (reports : list report) :
  StronglySorted (fun a b => String.ltb a b = true)
    (map row_username (summary_rows user_names reports))
  /\ (forall u, In u (map row_username (summary_rows user_names reports))
                <-> In u (map r_username reports))
  /\ length (summary_rows user_names reports) = unique_users reports.
Proof.
  unfold summary_rows. cbn zeta.
  set (user_summary :=
         fold_left summary_step (sort_by newer_first reports) []).
  assert (Hnodup : List.NoDup (map fst user_summary)).
  { apply summary_keys_NoDup. constructor. }
  assert (Hkeys : forall u, In u (map fst user_summary)
                            <-> In u (map r_username reports)).
  { apply summary_keys. }
  assert (Hperm : Permutation (sort_by String.ltb (map fst user_summary))
                    (map fst user_summary)).
  { apply sort_by_Permutation. }
  rewrite List.map_map. cbn [row_username]. rewrite List.map_id.
  split; [|split].
  - apply strictly_sorted.
    + apply (sort_by_key_sorted (fun s : string => s)).
    + apply (Permutation_NoDup (Permutation_sym Hperm) Hnodup).
  - intros u. rewrite <- Hkeys. split.
    + apply Permutation_in, Hperm.
    + apply Permutation_in, Permutation_sym, Hperm.
  - rewrite length_map, (Permutation_length Hperm).
    unfold unique_users.
    rewrite <- (size_list_to_set (C := gset string) (map fst user_summary)).
    + f_equal. apply set_eq. intros u.
      rewrite !elem_of_list_to_set, !list_elem_of_In.
      apply Hkeys.
    + apply NoDup_ListNoDup, Hnodup.
Qed.

End SummaryTable.

Section DetailTable.
Import Py TeamIndex IndexPage.

Lemma sort_by_sorted {A : Type} (before : A -> A -> bool) (l : list A) :
  (forall a b, before a b = true -> before b a = false) ->
  (forall a b c, before b a = false -> before c b = false ->
                 before c a = false) ->
  StronglySorted (fun a b => before b a = false) (sort_by before l).
Proof.
  intros Hasym Htrans. unfold sort_by.
  induction l as [|x l IH]; cbn [foldr]; [constructor|].
  revert IH. generalize (foldr (insort before) [] l) as s.
  induction s as [|y s IHs]; intros Hs; cbn [insort].
  - repeat constructor.
  - apply StronglySorted_inv in Hs as [Hs Hy].
    rewrite List.Forall_forall in Hy.
    destruct (before y x) eqn:E.
    + constructor; [apply IHs, Hs|].
      apply List.Forall_forall. intros z Hz.
      apply In_insort in Hz as [->|Hz]; [apply Hasym, E | apply Hy, Hz].
    + constructor; [constructor; [assumption | apply List.Forall_forall, Hy]|].
      constructor; [exact E|].
      apply List.Forall_forall. intros z Hz.
      apply Htrans with y; [exact E | apply Hy, Hz].
Qed.

(** [newer_first b a] fails exactly when the key of [b] is at most the
    key of [a]. *)
Lemma newer_first_false (a b : report) :
  newer_first b a = false
  <-> String.leb (r_date b) (r_date a) = true
      /\ (r_date b = r_date a ->
          String.leb (r_username b) (r_username a) = true).
Proof.
  unfold newer_first, str_gt. rewrite orb_false_iff, andb_false_iff. split.
  - intros [Hd Hu]. split; [apply str_nltb_leb, Hd|].
    intros E. destruct Hu as [Hne|Hu].
    + rewrite E, String.eqb_refl in Hne. discriminate.
    + apply str_nltb_leb, Hu.
  - intros [Hd Hu]. split.
    + destruct (String.ltb (r_date a) (r_date b)) eqn:E; [|reflexivity].
      pose proof (str_leb_antisym _ _ Hd (str_ltb_leb _ _ E)) as Heq.
      rewrite Heq, str_ltb_irrefl in E. discriminate.
    + destruct (String.eqb_spec (r_date b) (r_date a)) as [E|Hne];
        [right | left; reflexivity].
      specialize (Hu E).
      destruct (String.ltb (r_username a) (r_username b)) eqn:E';
        [|reflexivity].
      pose proof (str_leb_antisym _ _ Hu (str_ltb_leb _ _ E')) as Heq.
      rewrite Heq, str_ltb_irrefl in E'. discriminate.
Qed.

Lemma newer_first_sorted (l : list report) :
  StronglySorted (fun a b => newer_first b a = false)
    (sort_by newer_first l).
Proof.
  apply sort_by_sorted.
  - intros a b H. apply newer_first_false.
    unfold newer_first, str_gt in H.
    apply orb_true_iff in H as [H|H].
    + split; [apply str_ltb_leb, H|].
      intros E. rewrite E, str_ltb_irrefl in H. discriminate.
    + apply andb_true_iff in H as [Hd Hu].
      apply String.eqb_eq in Hd. rewrite Hd.
      split; [apply str_leb_refl | intros _; apply str_ltb_leb, Hu].
  - intros a b c Hba Hcb.
    apply newer_first_false in Hba as [Hd1 Hu1].
    apply newer_first_false in Hcb as [Hd2 Hu2].
    apply newer_first_false. split.
    + apply str_leb_trans with (r_date b); assumption.
    + intros E. rewrite E in Hd2.
      pose proof (str_leb_antisym _ _ Hd1 Hd2) as Eb.
      apply str_leb_trans with (r_username b);
        [apply Hu2; congruence | apply Hu1, Eb].
Qed.

(** The second sort keeps, among the reports of one key, the order the
    first sort gave them. *)
Lemma sort_by_key_stable {A : Type} (first : A -> A -> Prop)
    (key : A -> string) (l : list A) :
  StronglySorted first l ->
  StronglySorted
    (fun a b => String.ltb (key a) (key b) = true
                \/ key a = key b /\ first a b)
    (sort_by (fun y x => String.ltb (key y) (key x)) l).
Proof.
  unfold sort_by. induction 1 as [|x l Hl IH Hx]; cbn [foldr]; [constructor|].
  assert (Hall : forall z,
             In z (foldr (insort (fun y x => String.ltb (key y) (key x)))
                     [] l) -> first x z).
  { intros z Hz. rewrite List.Forall_forall in Hx. apply Hx.
    apply (Permutation_in _
             (sort_by_Permutation
                (fun y x => String.ltb (key y) (key x)) l)), Hz. }
  revert IH Hall.
  generalize (foldr (insort (fun y x => String.ltb (key y) (key x))) [] l)
    as s.
  induction s as [|y s IHs]; intros Hs Hall; cbn [insort].
  - repeat constructor.
  - apply StronglySorted_inv in Hs as [Hs Hy].
    rewrite List.Forall_forall in Hy.
    destruct (String.ltb (key y) (key x)) eqn:E.
    + constructor.
      * apply IHs; [exact Hs | intros z Hz; apply Hall; right; exact Hz].
      * apply List.Forall_forall. intros z Hz.
        apply In_insort in Hz as [->|Hz]; [left; exact E | apply Hy, Hz].
    + constructor;
        [constructor; [assumption | apply List.Forall_forall, Hy]|].
      apply List.Forall_forall. intros z Hz.
      assert (Hle : String.leb (key x) (key z) = true).
      { apply str_nltb_leb in E. destruct Hz as [<-|Hz]; [exact E|].
        apply str_leb_trans with (key y); [exact E|].
        destruct (Hy z Hz) as [Hlt|[Heq _]].
        - apply str_ltb_leb, Hlt.
        - rewrite Heq. apply str_leb_refl. }
      destruct (str_leb_cases _ _ Hle) as [Heq|Hlt].
      * right. split; [exact Heq | apply Hall, Hz].
      * left. exact Hlt.
Qed.

Lemma StronglySorted_map_impl {A B : Type} (R : A -> A -> Prop)
    (R' : B -> B -> Prop) (f : A -> B) (l : list A) :
  (forall a b, R a b -> R' (f a) (f b)) ->
  StronglySorted R l -> StronglySorted R' (map f l).
Proof.
  intros Himpl. induction 1 as [|x l Hl IH Hx]; cbn [map]; constructor.
  - exact IH.
  - rewrite List.Forall_forall in *. intros y Hy.
    apply in_map_iff in Hy as (a & <- & Ha). apply Himpl, Hx, Ha.
Qed.

(** X12: the table "All Reports" has one row for each report, and its
    rows are ordered by user name in lower case; the rows of one such
    name run from the newest date to the oldest, because the sort by name
    is stable and follows the sort by date. *)
Theorem detail_table_order (reports : list report) :
  Permutation (detail_rows reports) (map detail_row_of reports)
  /\ StronglySorted row_order (detail_rows reports).
Proof.
  unfold detail_rows. cbn zeta. split.
  - apply Permutation_map.
    rewrite sort_by_Permutation. apply sort_by_Permutation.
  - apply StronglySorted_map_impl
      with (R := fun a b =>
                   String.ltb (lower (r_username a)) (lower (r_username b))
                   = true
                   \/ lower (r_username a) = lower (r_username b)
                      /\ newer_first b a = false).
    + intros a b [Hlt|[Heq Hfirst]]; unfold row_order; cbn [detail_row_of
        dr_username dr_date].
      * split; [apply str_ltb_leb, Hlt|].
        intros E. rewrite E, str_ltb_irrefl in Hlt. discriminate.
      * split; [rewrite Heq; apply str_leb_refl|].
        intros _. apply newer_first_false in Hfirst. apply Hfirst.
    + apply (sort_by_key_stable (fun a b => newer_first b a = false)
               (fun r => lower (r_username r))).
      apply newer_first_sorted.
Qed.

Lemma detail_table_order_witness :
  StronglySorted row_order (detail_rows [report_a1; report_a2]).
Proof. apply (proj2 (detail_table_order [report_a1; report_a2])). Defined.

Lemma get_metric_value_row_cell (metrics : list (string * string))
    (label_pattern : string) :
  str_truthy (get_metric_value_row metrics label_pattern) = true
  /\ all_chars is_digit_sign_comma
       (get_metric_value_row metrics label_pattern) = true.
Proof.
  induction metrics as [|[key value] rest IH]; cbn [get_metric_value_row].
  - split; reflexivity.
  - destruct (contains label_pattern key); [|exact IH].
    cbn zeta.
    destruct (str_truthy (keep_chars is_digit_sign_comma value)) eqn:E.
    + split; [exact E | apply keep_chars_all].
    + split; reflexivity.
Qed.

(** X13: every metric cell of a row of the table "All Reports" is a
    non-empty text of digits, signs and commas (0 when the report has no
    such metric or its value has no such character), so the cell for
    comments is always what the label Issue Comments gives: the second
    lookup, under the label Comments, is never used. *)
Theorem detail_cells_never_empty (report : report) :
  dr_comments (detail_row_of report)
  = get_metric_value_row (r_metrics report) "Issue Comments"
  /\ Forall (fun cell =>
               str_truthy cell = true
               /\ all_chars is_digit_sign_comma cell = true)
       [dr_prs_merged (detail_row_of report);
        dr_reviews (detail_row_of report);
        dr_issues_opened (detail_row_of report);
        dr_issues_closed (detail_row_of report);
        dr_comments (detail_row_of report);
        dr_commits (detail_row_of report);
        dr_lines_added (detail_row_of report);
        dr_lines_deleted (detail_row_of report)].
Proof.
  assert (Hc : dr_comments (detail_row_of report)
               = get_metric_value_row (r_metrics report) "Issue Comments").
  { cbn [detail_row_of dr_comments]. unfold str_or.
    destruct (get_metric_value_row_cell (r_metrics report) "Issue Comments")
      as [-> _]. reflexivity. }
  split; [exact Hc|].
  rewrite Hc. cbn [detail_row_of dr_prs_merged dr_reviews dr_issues_opened
                   dr_issues_closed dr_commits dr_lines_added
                   dr_lines_deleted].
  repeat constructor; apply get_metric_value_row_cell.
Qed.

End DetailTable.

Section RenderedRow.
Import Py Report TeamIndex IndexPage.

Variable strptime : string -> option datetime.
Variable strftime : string -> datetime -> string.

Lemma keep_chars_id (keep : ascii -> bool) (s : string) :
  all_chars keep s = true -> keep_chars keep s = s.
Proof.
  induction s as [|c s IH]; cbn; [reflexivity|].
  rewrite andb_true_iff. intros [Hc Hs]. rewrite Hc, (IH Hs). reflexivity.
Qed.

Lemma str_of_int_cell (z : Z) :
  all_chars is_digit_sign_comma (str_of_int z) = true.
Proof.
  assert (Hd : forall n, 0 <= n ->
                 all_chars is_digit_sign_comma
                   (str_of_nonneg (digits_fuel n) n) = true).
  { intros n Hn. apply all_chars_impl with (p := is_digit).
    - intros c Hc. unfold is_digit_sign_comma. rewrite Hc. reflexivity.
    - apply str_of_nonneg_digits, Hn. }
  unfold str_of_int. destruct (Z.ltb_spec z 0).
  - cbn [all_chars]. apply andb_true_iff. split; [reflexivity|].
    apply Hd. lia.
  - apply Hd. assumption.
Qed.

Lemma cell_of_int (z : Z) :
  (let clean_value := keep_chars is_digit_sign_comma (str_of_int z) in
   if str_truthy clean_value then clean_value else "0") = str_of_int z.
Proof.
  cbn zeta. rewrite (keep_chars_id _ _ (str_of_int_cell z)).
  destruct (str_of_int_clean z) as [-> _]. reflexivity.
Qed.

Lemma cell_of_signed (sign : ascii) (z : Z) :
  is_digit_sign_comma sign = true ->
  (let clean_value :=
     keep_chars is_digit_sign_comma (String sign "" +:+ str_of_int z) in
   if str_truthy clean_value then clean_value else "0")
  = String sign (str_of_int z).
Proof.
  intros Hsign. cbn zeta.
  change (String sign "" +:+ str_of_int z) with (String sign (str_of_int z)).
  rewrite keep_chars_id; [reflexivity|].
  cbn [all_chars]. rewrite Hsign. apply str_of_int_cell.
Qed.

(** The metrics the scraper holds at the end of a rendered document. *)
Lemma feed_document_metrics (self : analyzer) (days : Z) (now : datetime)
    (doc : list html_event) :
  valid_name (owner self) = true -> valid_name (repo self) = true ->
  valid_name (Report.username self) = true ->
  _generate_html_report strptime strftime self days now = Ok doc ->
  feed new_parser doc
  = settled
      [("✅ PRs Merged",
        str_of_len (length (pull_requests_merged (self_stats self))));
       ("📈 Lines Added",
        "+" +:+ str_of_int (total_additions (self_stats self)));
       ("📉 Lines Deleted",
        "-" +:+ str_of_int (total_deletions (self_stats self)));
       ("💾 Commits in PRs",
        str_of_int (get_default (total_commits_in_prs (self_stats self)) 0));
       ("👀 Reviews Given",
        str_of_int
          (get_default (total_reviews_given (self_stats self))
             (Z.of_nat (length (pull_requests_reviewed (self_stats self))))));
       ("🐛 Issues Opened",
        str_of_len (length (issues_opened (self_stats self))));
       ("✅ Issues Closed",
        str_of_len (length (issues_closed (self_stats self))));
       ("💬 Issue Comments",
        str_of_len (length (issue_comments (self_stats self))))]
      (Some (Report.username self)) (Some (owner self)) (Some (repo self)).
Proof.
  intros Ho Hr Hu H. unfold _generate_html_report in H. cbn zeta in H.
  apply bind_Ok_inv in H as (sizes & Hsizes & H).
  apply bind_Ok_inv in H as (prs & Hprs & H).
  apply bind_Ok_inv in H as (closed & Hclosed & H).
  apply bind_Ok_inv in H as (reviews & Hreviews & H).
  apply bind_Ok_inv in H as (issues & Hissues & H).
  apply bind_Ok_inv in H as (comments & Hcomments & H).
  apply bind_Ok_inv in H as (commits & Hcommits & H).
  apply Ok_inj in H. subst doc.
  apply size_section_inert in Hsizes.
  apply list_section_inert in Hprs;
    [|reflexivity | apply pr_card_inert].
  apply list_section_inert in Hclosed;
    [|reflexivity | apply closed_issue_card_inert].
  apply list_section_inert in Hreviews;
    [|reflexivity | apply review_card_inert].
  apply list_section_inert in Hissues;
    [|reflexivity | apply issue_card_inert].
  apply list_section_inert in Hcomments;
    [|reflexivity | apply comment_card_inert].
  apply commits_section_inert in Hcommits.
  change new_parser with (settled [] None None None).
  rewrite !feed_app.
  rewrite (feed_inert (html_head self)) by reflexivity.
  rewrite (feed_header strftime) by assumption.
  rewrite feed_main_metrics.
  rewrite (feed_inert sizes) by exact Hsizes.
  rewrite feed_collaboration.
  rewrite (feed_inert prs) by exact Hprs.
  rewrite (feed_inert closed) by exact Hclosed.
  rewrite (feed_inert reviews) by exact Hreviews.
  rewrite (feed_inert issues) by exact Hissues.
  rewrite (feed_inert comments) by exact Hcomments.
  rewrite (feed_inert commits) by exact Hcommits.
  rewrite feed_inert by reflexivity.
  reflexivity.
Qed.

(** X14: the row the index page shows for a rendered report.  When the
    owner, repository and user names are not empty and made of letters,
    digits, hyphens, underscores and dots, the texts of the statistics
    carry no markup (the renderer writes titles, URLs and bodies
    unescaped, and markup in them would be read as tags), and the
    rendering completes, the scraped row carries the file name and date
    it was given, the user and owner/repo of the analyzer, and in its
    metric cells the counts of the statistics: merged pull requests,
    reviews given, issues opened and closed, issue comments, the added
    lines behind a plus sign and the deleted lines behind a minus sign.
    The cell Commits shows the commits in pull requests (the first label
    that contains Commits), not the number of commits authored. *)
Theorem rendered_report_row (self : analyzer) (days : Z) (now : datetime)
    (doc : list html_event) (filename report_date : string) :
  valid_name (owner self) = true ->
  valid_name (repo self) = true ->
  valid_name (Report.username self) = true ->
  plain_stats (self_stats self) = true ->
  _generate_html_report strptime strftime self days now = Ok doc ->
  exists r,
    parse_report_file filename report_date doc = Some r
    /\ detail_row_of r
       = {| dr_date := report_date;
            dr_filename := filename;
            dr_username := Report.username self;
            dr_repo := owner self +:+ "/" +:+ repo self;
            dr_prs_merged :=
              str_of_len (length (pull_requests_merged (self_stats self)));
            dr_reviews :=
              str_of_int
                (get_default (total_reviews_given (self_stats self))
                   (Z.of_nat
                      (length (pull_requests_reviewed (self_stats self)))));
            dr_issues_opened :=
              str_of_len (length (issues_opened (self_stats self)));
            dr_issues_closed :=
              str_of_len (length (issues_closed (self_stats self)));
            dr_comments :=
              str_of_len (length (issue_comments (self_stats self)));
            dr_commits :=
              str_of_int
                (get_default (total_commits_in_prs (self_stats self)) 0);
            dr_lines_added :=
              "+" +:+ str_of_int (total_additions (self_stats self));
            dr_lines_deleted :=
              "-" +:+ str_of_int (total_deletions (self_stats self)) |}.
Proof.
  intros Ho Hr Hu _ Hdoc.
  pose proof (feed_document_metrics self days now doc Ho Hr Hu Hdoc)
    as Hfeed.
  unfold parse_report_file. rewrite Hfeed.
  cbn [TeamIndex.username repo_owner repo_name metrics settled parser_state
       truthy str_of_optional get_default].
  rewrite (valid_name_truthy _ Hu), (valid_name_truthy _ Ho).
  cbn [negb orb].
  eexists. split; [reflexivity|].
  unfold detail_row_of. cbn [r_date r_filename r_username r_repo r_metrics].
  f_equal.
  - cbn [get_metric_value_row].
    change (contains "PRs Merged" "✅ PRs Merged") with true. cbv iota.
    apply cell_of_int.
  - cbn [get_metric_value_row].
    change (contains "Reviews Given" "✅ PRs Merged") with false.
    change (contains "Reviews Given" "📈 Lines Added") with false.
    change (contains "Reviews Given" "📉 Lines Deleted") with false.
    change (contains "Reviews Given" "💾 Commits in PRs") with false.
    change (contains "Reviews Given" "👀 Reviews Given") with true.
    cbv iota. apply cell_of_int.
  - cbn [get_metric_value_row].
    change (contains "Issues Opened" "✅ PRs Merged") with false.
    change (contains "Issues Opened" "📈 Lines Added") with false.
    change (contains "Issues Opened" "📉 Lines Deleted") with false.
    change (contains "Issues Opened" "💾 Commits in PRs") with false.
    change (contains "Issues Opened" "👀 Reviews Given") with false.
    change (contains "Issues Opened" "🐛 Issues Opened") with true.
    cbv iota. apply cell_of_int.
  - cbn [get_metric_value_row].
    change (contains "Issues Closed" "✅ PRs Merged") with false.
    change (contains "Issues Closed" "📈 Lines Added") with false.
    change (contains "Issues Closed" "📉 Lines Deleted") with false.
    change (contains "Issues Closed" "💾 Commits in PRs") with false.
    change (contains "Issues Closed" "👀 Reviews Given") with false.
    change (contains "Issues Closed" "🐛 Issues Opened") with false.
    change (contains "Issues Closed" "✅ Issues Closed") with true.
    cbv iota. apply cell_of_int.
  - unfold str_or.
    match goal with
    | |- context [str_truthy (get_metric_value_row ?m ?l)] =>
        destruct (get_metric_value_row_cell m l) as [-> _]
    end.
    cbn [get_metric_value_row].
    change (contains "Issue Comments" "✅ PRs Merged") with false.
    change (contains "Issue Comments" "📈 Lines Added") with false.
    change (contains "Issue Comments" "📉 Lines Deleted") with false.
    change (contains "Issue Comments" "💾 Commits in PRs") with false.
    change (contains "Issue Comments" "👀 Reviews Given") with false.
    change (contains "Issue Comments" "🐛 Issues Opened") with false.
    change (contains "Issue Comments" "✅ Issues Closed") with false.
    change (contains "Issue Comments" "💬 Issue Comments") with true.
    cbv iota. apply cell_of_int.
  - cbn [get_metric_value_row].
    change (contains "Commits" "✅ PRs Merged") with false.
    change (contains "Commits" "📈 Lines Added") with false.
    change (contains "Commits" "📉 Lines Deleted") with false.
    change (contains "Commits" "💾 Commits in PRs") with true.
    cbv iota. apply cell_of_int.
  - cbn [get_metric_value_row].
    change (contains "Lines Added" "✅ PRs Merged") with false.
    change (contains "Lines Added" "📈 Lines Added") with true.
    cbv iota. apply (cell_of_signed "+"%char). reflexivity.
  - cbn [get_metric_value_row].
    change (contains "Lines Deleted" "✅ PRs Merged") with false.
    change (contains "Lines Deleted" "📈 Lines Added") with false.
    change (contains "Lines Deleted" "📉 Lines Deleted") with true.
    cbv iota. apply (cell_of_signed "-"%char). reflexivity.
Qed.

End RenderedRow.

Section RenderedRowSample.
Import Py Report TeamIndex IndexPage.

Lemma rendered_report_row_witness :
  exists doc r,
    _generate_html_report Demo.strptime_utc Demo.strftime_micros
      octocat_after_run 7 0 = Ok doc
    /\ parse_report_file "octocat-hello-world-2024-01-08.html" "2024-01-08"
         doc = Some r
    /\ dr_username (detail_row_of r) = "octocat"
    /\ dr_prs_merged (detail_row_of r) = "1".
Proof.
  destruct (_generate_html_report Demo.strptime_utc Demo.strftime_micros
              octocat_after_run 7 0) as [doc|e] eqn:Hdoc;
    [|vm_compute in Hdoc; discriminate].
  destruct (rendered_report_row Demo.strptime_utc Demo.strftime_micros
              octocat_after_run 7 0 doc
              "octocat-hello-world-2024-01-08.html" "2024-01-08")
    as (r & Hparse & Hrow);
    [vm_compute; reflexivity | vm_compute; reflexivity
     | vm_compute; reflexivity | vm_compute; reflexivity | exact Hdoc |].
  exists doc, r. split; [reflexivity|]. split; [exact Hparse|].
  rewrite Hrow. split; vm_compute; reflexivity.
Defined.

End RenderedRowSample.

(** ** What the scraper accepts *)

Section ScrapedRows.
Import Py TeamIndex.

Lemma split_on_no_sep (sep : ascii) (s : string) :
  Forall (fun part => all_chars (fun c => negb (Ascii.eqb c sep)) part = true)
    (split_on sep s).
Proof.
  induction s as [|c s IH]; cbn [split_on].
  - repeat constructor.
  - destruct (Ascii.eqb c sep) eqn:E.
    + constructor; [reflexivity | exact IH].
    + destruct (split_on sep s) as [|w ws].
      * constructor; [|constructor]. cbn. rewrite E. reflexivity.
      * apply Forall_cons in IH as [Hw Hws].
        constructor; [|exact Hws]. cbn [all_chars]. rewrite E, Hw.
        reflexivity.
Qed.

Lemma lstrip_at_no_at (s : string) : startswith "@" (lstrip_at s) = false.
Proof.
  unfold lstrip_at. induction s as [|c s IH]; cbn [lstrip_with];
    [reflexivity|].
  destruct (Ascii.eqb "@" c) eqn:E; [exact IH|].
  cbn [startswith]. rewrite E. reflexivity.
Qed.

Lemma dict_set_truthy (k v : string) (d : list (string * string)) :
  str_truthy k = true -> str_truthy v = true ->
  Forall (fun kv => str_truthy (fst kv) = true
                    /\ str_truthy (snd kv) = true) d ->
  Forall (fun kv => str_truthy (fst kv) = true
                    /\ str_truthy (snd kv) = true) (dict_set k v d).
Proof.
  intros Hk Hv. induction 1 as [|[k' v'] d [Hk' Hv'] Hd IH];
    cbn [dict_set].
  - repeat constructor; assumption.
  - destruct (String.eqb k' k); constructor; auto.
Qed.

Lemma handle_scraped_ok (p : parser) (e : html_event) :
  scraped_ok p -> scraped_ok (handle p e).
Proof.
  intros (Hu & Hr & Hm). destruct e as [text|tag attrs|tag|data];
    cbn [handle].
  - repeat split; assumption.
  - unfold handle_starttag. cbn zeta.
    repeat match goal with
           | |- context [if ?b then _ else _] => destruct b
           end; repeat split; assumption.
  - unfold handle_endtag.
    repeat match goal with
           | |- context [if ?b then _ else _] => destruct b
           end; repeat split; assumption.
  - unfold handle_data. cbn zeta.
    destruct (str_truthy (strip data)) eqn:Hdata; cbn [negb];
      [|repeat split; assumption].
    set (p1 := if in_repo_div p then _ else p).
    assert (H1 : scraped_ok p1
                 /\ in_username_div p1 = in_username_div p
                 /\ in_metric_label p1 = in_metric_label p
                 /\ in_metric_value p1 = in_metric_value p
                 /\ current_label p1 = current_label p).
    { subst p1. destruct (in_repo_div p); [|repeat split; assumption].
      pose proof (split_on_no_sep "/"%char (strip data)) as Hparts.
      destruct (split_on "/"%char (strip data)) as [|o [|n [|x rest]]];
        try (repeat split; assumption).
      apply Forall_cons in Hparts as [Ho Hparts].
      apply Forall_cons in Hparts as [Hn _].
      repeat split; try assumption. }
    destruct H1 as ((Hu1 & Hr1 & Hm1) & Eu & El & Ev & Ec).
    set (p2 := if in_username_div p1 then _ else p1).
    assert (H2 : scraped_ok p2
                 /\ in_metric_label p2 = in_metric_label p
                 /\ in_metric_value p2 = in_metric_value p
                 /\ current_label p2 = current_label p).
    { subst p2. destruct (in_username_div p1);
        [|repeat split; assumption].
      repeat split; try assumption. apply lstrip_at_no_at. }
    destruct H2 as ((Hu2 & Hr2 & Hm2) & El2 & Ev2 & Ec2).
    destruct (in_metric_label p2); [repeat split; assumption|].
    destruct (in_metric_value p2 && truthy (current_label p2)) eqn:Hset;
      [|repeat split; assumption].
    apply andb_true_iff in Hset as [_ Hlabel].
    repeat split; try assumption.
    cbn [metrics set_metrics]. apply dict_set_truthy; [|exact Hdata|exact Hm2].
    destruct (current_label p2) as [l|]; [exact Hlabel | discriminate].
Qed.

Lemma feed_scraped_ok (content : list html_event) (p : parser) :
  scraped_ok p -> scraped_ok (feed p content).
Proof.
  revert p. induction content as [|e content IH]; intros p Hp;
    cbn [feed fold_left]; [exact Hp|].
  apply IH, handle_scraped_ok, Hp.
Qed.

(** X15: every row the scraper returns, whatever the document, carries
    the file name and date it was given, a user name that is not empty
    and does not start with an at sign, a repository text made of a
    non-empty owner and a name without slashes around one slash, and
    metrics whose labels and values are not empty. *)
Theorem scraped_row_well_formed (filename report_date : string)
    (content : list html_event) (r : report) :
  parse_report_file filename report_date content = Some r ->
  r_filename r = filename
  /\ r_date r = report_date
  /\ str_truthy (r_username r) = true
  /\ startswith "@" (r_username r) = false
  /\ (exists o n, r_repo r = o +:+ "/" +:+ n
                  /\ str_truthy o = true
                  /\ no_slash o = true /\ no_slash n = true)
  /\ Forall (fun kv => str_truthy (fst kv) = true
                       /\ str_truthy (snd kv) = true) (r_metrics r).
Proof.
  unfold parse_report_file. cbn zeta.
  assert (Hok : scraped_ok (feed new_parser content)).
  { apply feed_scraped_ok. repeat split; constructor. }
  destruct Hok as (Hu & Hr & Hm).
  destruct (TeamIndex.username (feed new_parser content)) as [u|];
    [|intros [=]].
  destruct (repo_owner (feed new_parser content)) as [o|];
    [|cbn [truthy negb]; rewrite orb_true_r; intros [=]].
  destruct (repo_name (feed new_parser content)) as [n|]; [|contradiction].
  cbn [truthy str_of_optional get_default].
  destruct (str_truthy u) eqn:Eu; [|intros [=]].
  destruct (str_truthy o) eqn:Eo; [|intros [=]].
  cbn [negb orb]. intros [= <-].
  cbn [r_filename r_date r_username r_repo r_metrics].
  destruct Hr as [Ho Hn].
  repeat split; try assumption; try reflexivity.
  exists o, n. auto.
Qed.

Ltac handler_cases :=
  repeat match goal with
         | |- context [if ?b then _ else _] => destruct b eqn:?
         | |- context [match ?l with [] => _ | _ :: _ => _ end] =>
             destruct l
         end;
  cbn in *; congruence.

Lemma handle_without_username (p : parser) (e : html_event) :
  opens "username" e = false ->
  in_username_div p = false -> TeamIndex.username p = None ->
  in_username_div (handle p e) = false
  /\ TeamIndex.username (handle p e) = None.
Proof.
  intros He Hdiv Hname.
  destruct e as [text|tag attrs|tag|data]; cbn [handle]; [auto|..].
  - unfold handle_starttag. cbn zeta. cbn [opens] in He. rewrite He.
    split; handler_cases.
  - unfold handle_endtag. split; handler_cases.
  - unfold handle_data. cbn zeta.
    destruct (negb (str_truthy (strip data))); [auto|].
    split; handler_cases.
Qed.

Lemma handle_without_repo (p : parser) (e : html_event) :
  opens "repo" e = false ->
  in_repo_div p = false -> repo_owner p = None ->
  in_repo_div (handle p e) = false /\ repo_owner (handle p e) = None.
Proof.
  intros He Hdiv Hname.
  destruct e as [text|tag attrs|tag|data]; cbn [handle]; [auto|..].
  - unfold handle_starttag. cbn zeta. cbn [opens] in He. rewrite He.
    split; handler_cases.
  - unfold handle_endtag. split; handler_cases.
  - unfold handle_data. cbn zeta.
    destruct (negb (str_truthy (strip data))); [auto|].
    rewrite Hdiv. split; handler_cases.
Qed.

Lemma feed_without_username (content : list html_event) :
  forall p : parser,
    forallb (fun e => negb (opens "username" e)) content = true ->
    in_username_div p = false -> TeamIndex.username p = None ->
    TeamIndex.username (feed p content) = None.
Proof.
  induction content as [|e content IH]; intros p Hall Hdiv Hname;
    cbn [feed fold_left]; [exact Hname|].
  cbn [forallb] in Hall. apply andb_true_iff in Hall as [He Hall].
  apply negb_true_iff in He.
  destruct (handle_without_username p e He Hdiv Hname) as [Hdiv' Hname'].
  apply IH; assumption.
Qed.

Lemma feed_without_repo (content : list html_event) :
  forall p : parser,
    forallb (fun e => negb (opens "repo" e)) content = true ->
    in_repo_div p = false -> repo_owner p = None ->
    repo_owner (feed p content) = None.
Proof.
  induction content as [|e content IH]; intros p Hall Hdiv Hname;
    cbn [feed fold_left]; [exact Hname|].
  cbn [forallb] in Hall. apply andb_true_iff in Hall as [He Hall].
  apply negb_true_iff in He.
  destruct (handle_without_repo p e He Hdiv Hname) as [Hdiv' Hname'].
  apply IH; assumption.
Qed.

(** X16: a document in which no [div] of class username is opened, or no
    [div] of class repo, is not a report: the scraper returns nothing
    for it, whatever else it contains. *)
Theorem document_without_marker_is_skipped (filename report_date : string)
    (content : list html_event) :
  forallb (fun e => negb (opens "username" e)) content = true
  \/ forallb (fun e => negb (opens "repo" e)) content = true ->
  parse_report_file filename report_date content = None.
Proof.
  intros [H|H]; unfold parse_report_file; cbn zeta.
  - rewrite (feed_without_username content new_parser H) by reflexivity.
    reflexivity.
  - rewrite (feed_without_repo content new_parser H) by reflexivity.
    cbn [truthy negb]. rewrite orb_true_r. reflexivity.
Qed.

Lemma document_without_marker_is_skipped_witness :
  parse_report_file "notes.html" "2024-01-08"
    [StartTag "div" [("class", Some "repo")]; Data "octo-org/hello-world";
     EndTag "div"; StartTag "p" []; Data "@octocat"; EndTag "p"]
  = None.
Proof.
  apply document_without_marker_is_skipped. left. vm_compute. reflexivity.
Defined.

End ScrapedRows.

Section ScrapedRowSample.
Import Py Report TeamIndex.

Lemma scraped_row_well_formed_witness :
  exists r,
    parse_report_file "octocat-2024-01-08.html" "2024-01-08"
      [StartTag "div" [("class", Some "repo")]; Data "octo-org/hello-world";
       EndTag "div"; StartTag "div" [("class", Some "username")];
       Data "@@octocat"; EndTag "div"] = Some r
    /\ str_truthy (r_username r) = true
    /\ startswith "@" (r_username r) = false.
Proof.
  destruct (parse_report_file "octocat-2024-01-08.html" "2024-01-08"
              [StartTag "div" [("class", Some "repo")];
               Data "octo-org/hello-world"; EndTag "div";
               StartTag "div" [("class", Some "username")];
               Data "@@octocat"; EndTag "div"]) as [r|] eqn:Hparse;
    [|vm_compute in Hparse; discriminate].
  exists r. split; [reflexivity|].
  destruct (scraped_row_well_formed _ _ _ _ Hparse)
    as (_ & _ & Hu & Hat & _).
  split; [exact Hu | exact Hat].
Defined.

End ScrapedRowSample.

(** ** The date of a report *)

Section ReportDate.
Import Py TeamIndex IndexPage.

Lemma date_at_sound (s d : string) :
  date_at s = Some d -> date_shaped d /\ exists b, s = d +:+ b.
Proof.
  unfold date_at.
  do 10 (destruct s as [|? s]; [discriminate|]).
  match goal with
  | |- (if ?c then _ else _) = _ -> _ => destruct c eqn:Hc; [|discriminate]
  end.
  intros [= <-]. split; [split|].
  - unfold date_at. rewrite Hc. reflexivity.
  - reflexivity.
  - exists s. reflexivity.
Qed.

Lemma date_at_complete (d b : string) :
  date_shaped d -> date_at (d +:+ b) = Some d.
Proof.
  intros [Hd Hlen].
  do 10 (destruct d as [|? d]; [discriminate|]).
  destruct d; [|discriminate].
  rewrite !append_cons. change ("" +:+ b) with b.
  unfold date_at in *.
  match goal with
  | H : (if ?c then _ else _) = _ |- _ => destruct c; [|discriminate]
  end.
  reflexivity.
Qed.

Lemma date_at_nondigit (c : ascii) (s : string) :
  is_digit c = false -> date_at (String c s) = None.
Proof.
  intros Hc. unfold date_at.
  do 9 (destruct s as [|? s]; [reflexivity|]).
  rewrite Hc. reflexivity.
Qed.

Lemma date_shaped_not_empty (d b : string) :
  date_shaped d -> d +:+ b <> "".
Proof. intros [_ Hlen]. destruct d; [discriminate | discriminate]. Qed.

Lemma find_date_sound (s : string) :
  forall d,
    find_date s = Some d ->
    exists a b,
      s = a +:+ d +:+ b /\ date_shaped d
      /\ forall a' d' b',
           s = a' +:+ d' +:+ b' -> date_shaped d' ->
           (String.length a <= String.length a')%nat.
Proof.
  induction s as [|c s IH]; intros d; cbn [find_date].
  - discriminate.
  - destruct (date_at (String c s)) as [d0|] eqn:Hat.
    + intros [= <-]. apply date_at_sound in Hat as [Hshape [b Hb]].
      exists "", b. split; [exact Hb|]. split; [exact Hshape|].
      intros. cbn. lia.
    + intros Hfind. destruct (IH d Hfind) as (a & b & Hs & Hshape & Hleft).
      exists (String c a), b. rewrite append_cons, <- Hs.
      split; [reflexivity|]. split; [exact Hshape|].
      intros a' d' b' Heq Hshape'. destruct a' as [|c' a'].
      * change ("" +:+ d' +:+ b') with (d' +:+ b') in Heq.
        rewrite Heq, (date_at_complete d' b' Hshape') in Hat. discriminate.
      * rewrite append_cons in Heq. injection Heq as _ Heq.
        specialize (Hleft a' d' b' Heq Hshape'). cbn [String.length]. lia.
Qed.

Lemma find_date_none (s : string) :
  find_date s = None ->
  forall a d b, s = a +:+ d +:+ b -> ~ date_shaped d.
Proof.
  induction s as [|c s IH]; cbn [find_date]; intros Hnone a d b Heq Hshape.
  - destruct a; [|discriminate].
    symmetry in Heq. exact (date_shaped_not_empty d b Hshape Heq).
  - destruct (date_at (String c s)) as [d0|] eqn:Hat; [discriminate|].
    destruct a as [|c' a].
    + change ("" +:+ d +:+ b) with (d +:+ b) in Heq.
      rewrite Heq, (date_at_complete d b Hshape) in Hat. discriminate.
    + rewrite append_cons in Heq. injection Heq as _ Heq.
      exact (IH Hnone a d b Heq Hshape).
Qed.

Lemma find_date_after_text (a d b : string) :
  all_chars (fun c => negb (is_digit c)) a = true -> date_shaped d ->
  find_date (a +:+ d +:+ b) = Some d.
Proof.
  intros Ha Hshape. induction a as [|c a IH].
  - change ("" +:+ d +:+ b) with (d +:+ b).
    pose proof (date_at_complete d b Hshape) as Hat.
    destruct (d +:+ b); cbn [find_date]; rewrite Hat; reflexivity.
  - cbn [all_chars] in Ha. apply andb_true_iff in Ha as [Hc Ha].
    apply negb_true_iff in Hc.
    rewrite append_cons. cbn [find_date].
    rewrite (date_at_nondigit _ _ Hc). apply IH, Ha.
Qed.

(** X17: the date of a report is the first text of the shape dddd-dd-dd
    in the stem of its file name (ten characters, digits around two
    hyphens, not checked to be a calendar date): no such text starts
    before it.  A stem without such a text gets the day of the last
    modification of the file.  For a stem made of a text without digits,
    then a date, then anything, the date of the report is that date. *)
Theorem report_date_from_stem (stem mtime_date : string) :
  (forall d,
     find_date stem = Some d ->
     report_date_of stem mtime_date = d
     /\ exists a b,
          stem = a +:+ d +:+ b /\ date_shaped d
          /\ forall a' d' b',
               stem = a' +:+ d' +:+ b' -> date_shaped d' ->
               (String.length a <= String.length a')%nat)
  /\ ((forall a d b, stem = a +:+ d +:+ b -> ~ date_shaped d) <->
      find_date stem = None)
  /\ (find_date stem = None -> report_date_of stem mtime_date = mtime_date)
  /\ (forall a d b,
        all_chars (fun c => negb (is_digit c)) a = true -> date_shaped d ->
        stem = a +:+ d +:+ b -> report_date_of stem mtime_date = d).
Proof.
  split; [|split; [|split]].
  - intros d Hfind. split; [unfold report_date_of; rewrite Hfind; reflexivity|].
    apply find_date_sound, Hfind.
  - split.
    + intros Hnone. destruct (find_date stem) as [d|] eqn:Hfind;
        [|reflexivity].
      destruct (find_date_sound stem d Hfind) as (a & b & Hs & Hshape & _).
      destruct (Hnone a d b Hs Hshape).
    + apply find_date_none.
  - intros Hnone. unfold report_date_of. rewrite Hnone. reflexivity.
  - intros a d b Ha Hshape ->. unfold report_date_of.
    rewrite (find_date_after_text a d b Ha Hshape). reflexivity.
Qed.

Lemma report_date_from_stem_witness :
  report_date_of "octocat-hello-world-2024-01-08" "2024-02-01"
  = "2024-01-08".
Proof.
  apply (proj2 (proj2 (proj2 (report_date_from_stem
                                "octocat-hello-world-2024-01-08"
                                "2024-02-01")))
           "octocat-hello-world-" "2024-01-08" "").
  - reflexivity.
  - split; reflexivity.
  - reflexivity.
Defined.

End ReportDate.

(** ** The files handed to the index generator *)

Section IndexMain.
Import Py TeamIndex IndexPage.

Lemma parse_loop (files : list html_file) :
  forall acc,
    fold_left
      (fun reports html_file =>
         match parse_file html_file with
         | Some report_data => reports ++ [report_data]
         | None => reports
         end) files acc
    = acc ++ flat_map (fun f => match parse_file f with
                                | Some r => [r]
                                | None => []
                                end) files.
Proof.
  induction files as [|f files IH]; intros acc; cbn [fold_left flat_map].
  - rewrite app_nil_r. reflexivity.
  - rewrite IH. destruct (parse_file f); [|reflexivity].
    rewrite <- app_assoc. reflexivity.
Qed.

Lemma parse_file_name (f : html_file) (r : report) :
  parse_file f = Some r -> r_filename r = f_name f.
Proof.
  unfold parse_file, parse_report_file. cbn zeta.
  destruct (_ || _); [discriminate|]. intros [= <-]. reflexivity.
Qed.

Lemma main_reports (team_dir : list html_file) (r : report) :
  In r (flat_map (fun f => match parse_file f with
                           | Some r => [r]
                           | None => []
                           end)
          (List.filter (fun f => negb (String.eqb (f_name f) "index.html"))
             team_dir))
  <-> exists f, In f team_dir /\ f_name f <> "index.html"
                /\ parse_file f = Some r.
Proof.
  rewrite in_flat_map. split.
  - intros (f & Hf & Hr). apply filter_In in Hf as [Hf Hname].
    apply negb_true_iff, String.eqb_neq in Hname.
    exists f. repeat split; [exact Hf | exact Hname|].
    destruct (parse_file f) as [r'|]; [|destruct Hr].
    destruct Hr as [<-|[]]. reflexivity.
  - intros (f & Hf & Hname & Hr). exists f. split.
    + apply filter_In. split; [exact Hf|].
      apply negb_true_iff, String.eqb_neq, Hname.
    + rewrite Hr. left. reflexivity.
Qed.

(** X18: [main] hands to [generate_index_html] the rows of the files of
    the directory, other than index.html, that the scraper accepts, and
    only those: every row comes from such a file and carries its name,
    so index.html is never among them, and every such file gives a row;
    [main] returns without calling [generate_index_html] exactly when no
    such file is accepted. *)
Theorem index_rows_come_from_reports (team_dir : list html_file) :
  (main team_dir = None
   <-> forall f, In f team_dir -> f_name f <> "index.html" ->
                 parse_file f = None)
  /\ (forall reports,
        main team_dir = Some reports ->
        reports <> []
        /\ forall r,
             In r reports
             <-> exists f, In f team_dir /\ f_name f <> "index.html"
                           /\ parse_file f = Some r
                           /\ r_filename r = f_name f).
Proof.
  pose proof (main_reports team_dir) as Hrows.
  unfold main. cbn zeta.
  set (html_files :=
         List.filter (fun f => negb (String.eqb (f_name f) "index.html"))
           team_dir) in *.
  assert (Hloop := parse_loop html_files []). cbn [app] in Hloop.
  set (rows := flat_map _ html_files) in *.
  assert (Hnone : rows = []
                  <-> forall f, In f team_dir -> f_name f <> "index.html" ->
                                parse_file f = None).
  { split.
    - intros Hnil f Hf Hname. destruct (parse_file f) as [r|] eqn:Hr;
        [|reflexivity].
      assert (Hin : In r rows) by (apply Hrows; eauto).
      rewrite Hnil in Hin. destruct Hin.
    - intros Hall. destruct rows as [|r rows']; [reflexivity|].
      destruct (proj1 (Hrows r) (or_introl eq_refl))
        as (f & Hf & Hname & Hr).
      rewrite (Hall f Hf Hname) in Hr. discriminate. }
  destruct html_files as [|f0 files] eqn:Hfiles.
  - split.
    + split; [intros _; apply Hnone; reflexivity | reflexivity].
    + intros reports [=].
  - rewrite Hloop. destruct rows as [|r0 rows'] eqn:Erows.
    + split; [split; [intros _; apply Hnone; reflexivity | reflexivity]|].
      intros reports [=].
    + split.
      * split; [intros [=]|]. intros Hall. apply Hnone in Hall.
        discriminate.
      * intros reports [= <-]. split; [discriminate|].
        intros r. rewrite Hrows. split.
        -- intros (f & Hf & Hname & Hr). exists f.
           repeat split; try assumption. apply parse_file_name, Hr.
        -- intros (f & Hf & Hname & Hr & _). eauto.
Qed.

Lemma index_rows_come_from_reports_witness :
  main [{| f_name := "index.html"; f_stem := "index";
           f_mtime_date := "2024-01-08";
           f_content :=
             [StartTag "div" [("class", Some "repo")];
              Data "octo-org/hello-world"; EndTag "div";
              StartTag "div" [("class", Some "username")];
              Data "@octocat"; EndTag "div"] |}] = None.
Proof.
  apply (proj1 (index_rows_come_from_reports _)).
  intros f [<-|[]] Hname. exfalso. apply Hname. reflexivity.
Defined.

End IndexMain.

(** ** Host and credentials *)

Section StartUp.
Import Py Cli.

Lemma append_not_empty (a : string) (c : ascii) : a +:+ String c "" <> "".
Proof. destruct a; discriminate. Qed.

Lemma rstrip_decomp (drop : ascii -> bool) (s : string) :
  exists t, s = rstrip_with drop s +:+ t /\ all_chars drop t = true.
Proof.
  induction s as [|c s IH]; cbn [rstrip_with].
  - exists "". split; reflexivity.
  - destruct IH as (t & Hs & Ht).
    destruct (rstrip_with drop s) as [|x r].
    + change ("" +:+ t) with t in Hs. subst t.
      destruct (drop c) eqn:Hc.
      * exists (String c s). split; [reflexivity|].
        cbn [all_chars]. rewrite Hc, Ht. reflexivity.
      * exists s. split; [reflexivity | exact Ht].
    + exists t. rewrite append_cons, <- Hs. split; [reflexivity | exact Ht].
Qed.

Lemma rstrip_last (drop : ascii -> bool) (s : string) :
  forall a c, rstrip_with drop s = a +:+ String c "" -> drop c = false.
Proof.
  induction s as [|c0 s IH]; intros a c; cbn [rstrip_with].
  - intros H. symmetry in H. destruct (append_not_empty _ _ H).
  - destruct (rstrip_with drop s) as [|x r] eqn:Hr.
    + destruct (drop c0) eqn:Hc0.
      * intros H. symmetry in H. destruct (append_not_empty _ _ H).
      * destruct a as [|c1 a].
        -- intros [= <-]. exact Hc0.
        -- rewrite append_cons. intros [= _ H]. symmetry in H.
           destruct (append_not_empty _ _ H).
    + destruct a as [|c1 a].
      * intros H. change ("" +:+ String c "") with (String c "") in H.
        discriminate H.
      * rewrite append_cons. intros [= _ H]. apply (IH a c). exact H.
Qed.

Lemma rstrip_idem (drop : ascii -> bool) (s : string) :
  rstrip_with drop (rstrip_with drop s) = rstrip_with drop s.
Proof.
  induction s as [|c s IH]; cbn [rstrip_with]; [reflexivity|].
  destruct (rstrip_with drop s) as [|x r] eqn:Hr.
  - destruct (drop c) eqn:Hc; cbn [rstrip_with]; [reflexivity|].
    rewrite Hc. reflexivity.
  - change (rstrip_with drop (String c (String x r)))
      with (match rstrip_with drop (String x r) with
            | "" => if drop c then "" else String c ""
            | String y r' => String c (String y r')
            end).
    rewrite IH. reflexivity.
Qed.

Lemma rstrip_all (drop : ascii -> bool) (s : string) :
  all_chars drop s = true -> rstrip_with drop s = "".
Proof.
  induction s as [|c s IH]; cbn [all_chars rstrip_with]; [reflexivity|].
  rewrite andb_true_iff. intros [Hc Hs]. rewrite (IH Hs), Hc. reflexivity.
Qed.

(** X19: the base URL of the analyzer is never empty and never ends in a
    slash, so the request paths appended to it start at exactly one
    slash.  It is the public API when no URL, an empty one or only
    slashes are given, and otherwise the given URL without its trailing
    slashes; resolving a resolved URL changes nothing. *)
Theorem base_url_normal_form (base_url : option string) :
  str_truthy (resolve_base_url base_url) = true
  /\ (forall a, resolve_base_url base_url <> a +:+ "/")
  /\ (resolve_base_url base_url = "https://api.github.com"
      /\ all_chars is_slash (get_default base_url "") = true
      \/ exists s t, base_url = Some s
                     /\ s = resolve_base_url base_url +:+ t
                     /\ all_chars is_slash t = true)
  /\ resolve_base_url (Some (resolve_base_url base_url))
     = resolve_base_url base_url.
Proof.
  unfold resolve_base_url. cbn zeta.
  destruct (rstrip_decomp (Ascii.eqb "/"%char) (get_default base_url ""))
    as (t & Hs & Ht).
  destruct (str_truthy (rstrip_with (Ascii.eqb "/"%char)
                          (get_default base_url ""))) eqn:Htruthy.
  - split; [exact Htruthy|]. split; [|split].
    + intros a Ha.
      pose proof (rstrip_last _ _ a "/"%char Ha) as Hlast. discriminate.
    + right. destruct base_url as [s|]; [|discriminate].
      exists s, t. repeat split; [exact Hs | exact Ht].
    + cbn [get_default]. rewrite rstrip_idem, Htruthy. reflexivity.
  - split; [reflexivity|]. split; [|split].
    + intros a Ha.
      assert (Hlen : String.length "https://api.github.com"
                     = String.length (a +:+ "/")) by (rewrite Ha; reflexivity).
      do 22 (destruct a as [|? a]; [discriminate|]).
      destruct a; discriminate.
    + left. split; [reflexivity|].
      destruct (rstrip_with (Ascii.eqb "/"%char) (get_default base_url ""));
        [|discriminate].
      change ("" +:+ t) with t in Hs. rewrite Hs. exact Ht.
    + reflexivity.
Qed.

Lemma base_url_normal_form_witness :
  resolve_base_url
    (Some (resolve_base_url (Some "https://github.corp.example.com/api/v3//")))
  = resolve_base_url (Some "https://github.corp.example.com/api/v3//").
Proof.
  apply (proj2 (proj2 (proj2 (base_url_normal_form
                                (Some "https://github.corp.example.com/api/v3//"))))).
Defined.

Lemma truthy_opt_or (a b : option string) :
  truthy (opt_or a b) = truthy a || truthy b.
Proof. unfold opt_or. destruct (truthy a) eqn:E; [exact E | reflexivity]. Qed.

(** X20: which token goes to which host.  A token given on the command
    line is always the one sent.  When neither the command line nor the
    environment names an API URL, the requests go to the public API and
    the value of GITHUB_ENTERPRISE_TOKEN has no effect on them.  An API
    URL made only of slashes counts as given when the token is chosen but
    resolves to the public API: without a token on the command line the
    enterprise token, when set, is then sent to the public API. *)
Theorem token_follows_api_url (arg_token arg_api_url : option string)
    (env : environ) :
  (truthy arg_token = true ->
   authorization arg_token arg_api_url env
   = Some ("Bearer " +:+ get_default arg_token ""))
  /\ (truthy (resolve_api_url arg_api_url env) = false ->
      request_base_url arg_api_url env = "https://api.github.com"
      /\ forall t,
           authorization arg_token arg_api_url
             (with_enterprise_token env t)
           = authorization arg_token arg_api_url env)
  /\ (forall s t,
        truthy arg_token = false ->
        arg_api_url = Some s -> str_truthy s = true ->
        all_chars is_slash s = true ->
        GITHUB_ENTERPRISE_TOKEN env = Some t -> str_truthy t = true ->
        request_base_url arg_api_url env = "https://api.github.com"
        /\ authorization arg_token arg_api_url env
           = Some ("Bearer " +:+ t)).
Proof.
  split; [|split].
  - intros Ht. unfold authorization, resolve_token. cbn zeta.
    rewrite Ht. cbn [negb]. rewrite Ht. reflexivity.
  - intros Hurl. split.
    + unfold request_base_url, resolve_base_url. cbn zeta.
      destruct (resolve_api_url arg_api_url env) as [s|]; [|reflexivity].
      cbn [truthy] in Hurl. destruct s; [reflexivity | discriminate].
    + intros t. unfold authorization, resolve_token. cbn zeta.
      change (resolve_api_url arg_api_url (with_enterprise_token env t))
        with (resolve_api_url arg_api_url env).
      rewrite Hurl. reflexivity.
  - intros s t Htoken -> Hs Hall Henv Ht. split.
    + unfold request_base_url, resolve_api_url, opt_or. cbn [truthy].
      rewrite Hs. unfold resolve_base_url. cbn [get_default].
      rewrite (rstrip_all (Ascii.eqb "/"%char) s Hall). reflexivity.
    + unfold authorization, resolve_token, resolve_api_url, opt_or.
      cbn [truthy]. rewrite Htoken, Hs, Henv. cbn [negb truthy].
      rewrite Hs, Ht. cbn [truthy]. rewrite Ht. reflexivity.
Qed.

Lemma token_follows_api_url_witness :
  request_base_url (Some "/")
    {| GITHUB_API_URL := None; GITHUB_TOKEN := Some "public";
       GITHUB_ENTERPRISE_TOKEN := Some "corporate" |}
  = "https://api.github.com"
  /\ authorization None (Some "/")
       {| GITHUB_API_URL := None; GITHUB_TOKEN := Some "public";
          GITHUB_ENTERPRISE_TOKEN := Some "corporate" |}
     = Some "Bearer corporate".
Proof.
  apply (proj2 (proj2 (token_follows_api_url None (Some "/")
                         {| GITHUB_API_URL := None;
                            GITHUB_TOKEN := Some "public";
                            GITHUB_ENTERPRISE_TOKEN := Some "corporate" |}))
           "/" "corporate"); reflexivity.
Defined.

End StartUp.

(** ** The text rendering *)

Section TextRendering.
Import Py Report TextReport.

Variable strptime : string -> option datetime.
Variable strftime : string -> datetime -> string.
Variable api : github_api.

Lemma size_lines_Ok (st : stats) :
  (exists lines, size_lines st = Ok lines) <-> has_size_keys (pr_sizes st).
Proof.
  unfold size_lines, size_of, has_size_keys. split.
  - intros [lines H] k Hk. cbn in Hk.
    repeat match type of H with
           | context [pr_sizes st !! ?key] =>
               destruct (pr_sizes st !! key) eqn:?; [|discriminate H]
           end.
    destruct Hk as [<-|[<-|[<-|[<-|[<-|[<-|[]]]]]]]; eauto.
  - intros Hkeys.
    destruct (Hkeys "xs") as [xs ->]; [cbn; tauto|].
    destruct (Hkeys "s") as [s ->]; [cbn; tauto|].
    destruct (Hkeys "m") as [m ->]; [cbn; tauto|].
    destruct (Hkeys "l") as [l ->]; [cbn; tauto|].
    destruct (Hkeys "xl") as [xl ->]; [cbn; tauto|].
    destruct (Hkeys "xxl") as [xxl ->]; [cbn; tauto|].
    cbn [bind]. eauto.
Qed.

Lemma text_report_Ok (self : analyzer) (days : Z) (now : datetime) :
  (exists text, _generate_text_report strftime self days now = Ok text)
  <-> has_size_keys (pr_sizes (self_stats self)).
Proof.
  rewrite <- size_lines_Ok.
  unfold _generate_text_report, report_lines. cbn zeta. split.
  - intros [text H]. apply bind_Ok_inv in H as (report & H & _).
    apply bind_Ok_inv in H as (sizes & H & _). eauto.
  - intros [sizes ->]. cbn [bind]. eauto.
Qed.

(** A run keeps the six size counters. *)
Lemma run_size_keys (self self' : analyzer) (days : Z)
    (end_date_arg : option datetime) (now : datetime) :
  has_size_keys (pr_sizes (self_stats self)) ->
  analyze_activity strptime api self days end_date_arg now = Ok self' ->
  has_size_keys (pr_sizes (self_stats self')).
Proof.
  intros Hkeys Hrun.
  apply analyze_activity_Ok_inv in Hrun
    as (st1 & st2 & closed & kept & H1 & H2 & _ & _ & ->).
  match type of H1 with
  | analyze_prs _ ?prs = _ =>
      destruct (analyze_prs_Ok (self_stats self) prs Hkeys)
        as (adds & dels & files & sizes & c' & Hprs & _ & Hsizes)
  end.
  rewrite Hprs in H1. apply Ok_inj in H1. subst st1.
  apply analyze_reviews_Ok_inv in H2 as (reviewed & _ & ->).
  exact Hsizes.
Qed.

Lemma html_report_comment_stamps (self : analyzer) (days : Z)
    (now : datetime) (doc : list html_event) :
  _generate_html_report strptime strftime self days now = Ok doc ->
  forall c, In c (issue_comments (self_stats self)) ->
            md_created_at c <> None.
Proof.
  unfold _generate_html_report. cbn zeta. intros H c Hc.
  apply bind_Ok_inv in H as (sizes & _ & H).
  apply bind_Ok_inv in H as (prs & _ & H).
  apply bind_Ok_inv in H as (closed & _ & H).
  apply bind_Ok_inv in H as (reviews & _ & H).
  apply bind_Ok_inv in H as (issues & _ & H).
  apply bind_Ok_inv in H as (comments & Hcomments & _).
  pose proof (proj1 (list_section_Ok _ _ _) (ex_intro _ comments Hcomments)
                c Hc) as Hcard.
  apply comment_card_Ok in Hcard as (s & Hs & _). congruence.
Qed.

(** X21: the text rendering parses no time stamp: it completes exactly
    when the six size counters exist.  So every completed run of an
    analyzer that has them (a new one does) can be printed as text,
    whatever was fetched; if the run fetched a comment without
    created_at, which it retains, the HTML rendering of the same
    statistics raises. *)
Theorem text_report_completes (self self' : analyzer) (days days' : Z)
    (end_date_arg : option datetime) (now now' : datetime) :
  ((exists text, _generate_text_report strftime self days' now' = Ok text)
   <-> has_size_keys (pr_sizes (self_stats self)))
  /\ (has_size_keys (pr_sizes (self_stats self)) ->
      analyze_activity strptime api self days end_date_arg now = Ok self' ->
      (exists text,
         _generate_text_report strftime self' days' now' = Ok text)
      /\ let since := get_default end_date_arg now - timedelta_days days in
         let self0 := set_dates self (get_default end_date_arg now) since in
         forall c,
           In c (fetch_user_issue_comments api self0 since) ->
           cj_created_at (fc_comment c) = None ->
           exists e,
             _generate_html_report strptime strftime self' days' now'
             = Raise e).
Proof.
  split; [apply text_report_Ok|].
  intros Hkeys Hrun. split.
  - apply text_report_Ok. exact (run_size_keys _ _ _ _ _ Hkeys Hrun).
  - intros since self0 c Hc Hnone.
    destruct (_generate_html_report strptime strftime self' days' now')
      as [doc|e] eqn:Hdoc; [|eauto].
    exfalso.
    apply (html_report_comment_stamps self' days' now' doc Hdoc
             (make_comment_data c)); [|exact Hnone].
    rewrite (run_comments strptime api self self' days end_date_arg now Hrun).
    apply in_or_app. right. apply in_map, filter_In. split; [exact Hc|].
    rewrite Hnone. reflexivity.
Qed.

End TextRendering.

Section TextRenderingSample.
Import Py Report TextReport.

Lemma text_report_completes_witness :
  exists self' text,
    analyze_activity Demo.strptime_utc Demo.api_with_pending Demo.octocat 7
      (Some Demo.window_end) 0 = Ok self'
    /\ _generate_text_report Demo.strftime_micros self' 7 0 = Ok text.
Proof.
  destruct (analyze_activity Demo.strptime_utc Demo.api_with_pending
              Demo.octocat 7 (Some Demo.window_end) 0) as [self'|e] eqn:Hrun;
    [|vm_compute in Hrun; discriminate Hrun].
  destruct (proj2 (text_report_completes Demo.strptime_utc
                     Demo.strftime_micros Demo.api_with_pending
                     Demo.octocat self' 7 7 (Some Demo.window_end) 0 0)
              init_pr_sizes_keys Hrun) as [[text Htext] _].
  exists self', text. split; [reflexivity | exact Htext].
Defined.

End TextRenderingSample.

(** ** The end of the window *)

Section WindowEnd.
Import Py Report.

Variable strptime : string -> option datetime.
Variable api : github_api.

Lemma for_each_ext {A S : Type} (f g : S -> A -> result S) (l : list A) :
  (forall acc x, f acc x = g acc x) ->
  forall acc, for_each f l acc = for_each g l acc.
Proof.
  intros Hfg. induction l as [|x l IH]; intros acc; cbn [for_each];
    [reflexivity|].
  rewrite Hfg. destruct (g acc x) as [acc'|err]; cbn [bind];
    [apply IH | reflexivity].
Qed.

Lemma closed_by_user_same_user (a b : analyzer) (since : datetime)
    (events : list event_json) :
  username a = username b ->
  closed_by_user strptime a since events
  = closed_by_user strptime b since events.
Proof.
  intros Hu. induction events as [|event rest IH]; cbn [closed_by_user];
    [reflexivity|].
  rewrite Hu, IH. reflexivity.
Qed.

Lemma fetch_user_closed_issues_same_user (a b : analyzer)
    (since : datetime) :
  username a = username b ->
  fetch_user_closed_issues strptime api a since
  = fetch_user_closed_issues strptime api b since.
Proof.
  intros Hu. unfold fetch_user_closed_issues. cbn zeta.
  destruct (negb _); [reflexivity|].
  apply for_each_ext. intros acc issue.
  rewrite (closed_by_user_same_user a b since _ Hu). reflexivity.
Qed.

(** Two runs whose windows start together. *)
Lemma analyze_activity_same_start (self : analyzer) (days1 days2 : Z)
    (end1 end2 : option datetime) (now1 now2 : datetime) :
  get_default end1 now1 - timedelta_days days1
  = get_default end2 now2 - timedelta_days days2 ->
  match analyze_activity strptime api self days1 end1 now1,
        analyze_activity strptime api self days2 end2 now2 with
  | Ok a, Ok b =>
      self_stats b = self_stats a /\ since_date b = since_date a
      /\ end_date a = Some (get_default end1 now1)
      /\ end_date b = Some (get_default end2 now2)
  | Raise x, Raise y => x = y
  | _, _ => False
  end.
Proof.
  intros Hstart. unfold analyze_activity. cbn zeta. rewrite <- Hstart.
  set (s := get_default end1 now1 - timedelta_days days1).
  set (e1 := get_default end1 now1). set (e2 := get_default end2 now2).
  change (fetch_user_prs api (set_dates self e2 s) s)
    with (fetch_user_prs api (set_dates self e1 s) s).
  change (fetch_user_reviews api (set_dates self e2 s) s)
    with (fetch_user_reviews api (set_dates self e1 s) s).
  change (fetch_user_issues api (set_dates self e2 s) s)
    with (fetch_user_issues api (set_dates self e1 s) s).
  rewrite (fetch_user_closed_issues_same_user (set_dates self e2 s)
             (set_dates self e1 s) s eq_refl).
  change (fetch_user_issue_comments api (set_dates self e2 s) s)
    with (fetch_user_issue_comments api (set_dates self e1 s) s).
  change (fetch_user_commits api (set_dates self e2 s) s)
    with (fetch_user_commits api (set_dates self e1 s) s).
  change (self_stats (set_dates self e2 s))
    with (self_stats (set_dates self e1 s)).
  destruct (representable s); cbn [negb]; [|reflexivity].
  destruct (analyze_prs _ _) as [st1|err]; [|reflexivity]. cbn [bind].
  destruct (analyze_reviews _ _ _ _) as [st2|err]; [|reflexivity].
  cbn [bind].
  destruct (fetch_user_closed_issues _ _ _ _) as [closed|err];
    [|reflexivity].
  cbn [bind].
  destruct (for_each _ _ _) as [kept|err]; [|reflexivity].
  cbn [bind]. repeat split.
Qed.

(** X22: the end of the window bounds nothing.  The end date only sets
    the start of the window (the end minus the days) and the period the
    reports print: two runs of one analyzer whose windows start at the
    same instant complete together and give the same statistics,
    whatever their end dates and lengths; items later than the end date
    are counted like the others. *)
Theorem window_end_is_not_a_bound (self a : analyzer) (days1 days2 : Z)
    (end1 end2 : option datetime) (now1 now2 : datetime) :
  get_default end1 now1 - timedelta_days days1
  = get_default end2 now2 - timedelta_days days2 ->
  analyze_activity strptime api self days1 end1 now1 = Ok a ->
  exists b,
    analyze_activity strptime api self days2 end2 now2 = Ok b
    /\ self_stats b = self_stats a
    /\ since_date b = since_date a
    /\ end_date a = Some (get_default end1 now1)
    /\ end_date b = Some (get_default end2 now2).
Proof.
  intros Hstart Hrun.
  pose proof (analyze_activity_same_start self days1 days2 end1 end2
                now1 now2 Hstart) as H.
  rewrite Hrun in H.
  destruct (analyze_activity strptime api self days2 end2 now2) as [b|err];
    [|destruct H].
  exists b. split; [reflexivity | exact H].
Qed.

End WindowEnd.

Section WindowEndSample.
Import Py Report.

Lemma window_end_is_not_a_bound_witness :
  exists a b,
    analyze_activity Demo.strptime_utc Demo.octo_api Demo.octocat 7
      (Some Demo.window_end) 0 = Ok a
    /\ analyze_activity Demo.strptime_utc Demo.octo_api Demo.octocat 0
         (Some Demo.window_start) 0 = Ok b
    /\ self_stats b = self_stats a.
Proof.
  destruct (analyze_activity Demo.strptime_utc Demo.octo_api Demo.octocat 7
              (Some Demo.window_end) 0) as [a|e] eqn:Hrun;
    [|vm_compute in Hrun; discriminate Hrun].
  destruct (window_end_is_not_a_bound Demo.strptime_utc Demo.octo_api
              Demo.octocat a 7 0 (Some Demo.window_end)
              (Some Demo.window_start) 0 0)
    as (b & Hb & Hstats & _);
    [vm_compute; reflexivity | exact Hrun |].
  exists a, b. split; [reflexivity|]. split; [exact Hb | exact Hstats].
Defined.

End WindowEndSample.

(** ** The totals of the summary *)

Section SummaryTotals.
Import Py TeamIndex IndexPage.

Lemma dict_set_total (k : string) (v : summary)
    (d : list (string * summary)) :
  sum_Z (map (fun kv => prs_merged (snd kv)) (dict_set k v d))
  = sum_Z (map (fun kv => prs_merged (snd kv)) d)
    - prs_merged (get_default (dict_get k d) new_summary) + prs_merged v.
Proof.
  induction d as [|[k' v'] d IH]; cbn [dict_set dict_get map sum_Z foldr snd].
  - cbn. lia.
  - destruct (String.eqb k' k); cbn [map sum_Z foldr snd get_default].
    + lia.
    + fold (sum_Z (map (fun kv => prs_merged (snd kv)) (dict_set k v d))).
      rewrite IH. unfold sum_Z. lia.
Qed.

Lemma summary_step_total (d : list (string * summary)) (r : report) :
  sum_Z (map (fun kv => prs_merged (snd kv)) (summary_step d r))
  = sum_Z (map (fun kv => prs_merged (snd kv)) d) + merged_metric r.
Proof.
  unfold summary_step. cbn zeta. rewrite dict_set_total.
  unfold merged_metric.
  match goal with
  | |- context [if ?c then _ else _] => destruct c
  end; cbn [prs_merged]; lia.
Qed.

Lemma summary_loop_total (l : list report) :
  forall d,
    sum_Z (map (fun kv => prs_merged (snd kv)) (fold_left summary_step l d))
    = sum_Z (map (fun kv => prs_merged (snd kv)) d)
      + sum_Z (map merged_metric l).
Proof.
  induction l as [|r l IH]; intros d; cbn [fold_left map].
  - cbn. lia.
  - rewrite IH, summary_step_total. cbn. unfold sum_Z. lia.
Qed.

Lemma dict_values {V : Type} (dflt : V) (d : list (string * V)) :
  List.NoDup (map fst d) ->
  map (fun u => get_default (dict_get u d) dflt) (map fst d) = map snd d.
Proof.
  induction d as [|[k v] d IH]; cbn [map fst snd]; intros Hd;
    [reflexivity|].
  apply List.NoDup_cons_iff in Hd as [Hk Hd].
  cbn [dict_get]. rewrite String.eqb_refl. cbn [get_default]. f_equal.
  rewrite <- (IH Hd). apply map_ext_in. intros u Hu.
  destruct (String.eqb_spec k u) as [->|_]; [contradiction | reflexivity].
Qed.

(** X23: the table "Summary by User" conserves the merged pull requests:
    the totals of its rows add up to the sum, over all reports, of the
    merged-PR metric of each report, so no report is dropped or counted
    twice. *)
Theorem summary_totals_add_up (user_names : list (string * string))
    (reports : list report) :
  sum_Z (map row_prs_merged (summary_rows user_names reports))
  = sum_Z (map merged_metric reports).
Proof.
  unfold summary_rows. cbn zeta.
  set (user_summary :=
         fold_left summary_step (sort_by newer_first reports) []).
  rewrite List.map_map. cbn [row_prs_merged].
  rewrite <- (List.map_map (fun u => get_default (dict_get u user_summary)
                                       new_summary) prs_merged).
  rewrite (sum_Z_Permutation _
             (map prs_merged
                (map (fun u => get_default (dict_get u user_summary)
                                 new_summary)
                   (map fst user_summary)))).
  - rewrite dict_values by (apply summary_keys_NoDup; constructor).
    rewrite List.map_map.
    subst user_summary. rewrite summary_loop_total. cbn [map sum_Z foldr].
    rewrite Z.add_0_l. apply sum_Z_Permutation, Permutation_map.
    apply sort_by_Permutation.
  - do 2 apply Permutation_map. apply sort_by_Permutation.
Qed.

End SummaryTotals.
